(** * Cliente 3 Flask application: shallow embedding and verified properties

    The program is [saas-platform/clients/cliente3/app.py]: six Flask view
    functions, one catch-all error handler and the module-level [PORT]
    configuration.  Every view is a short computation over external
    collaborators: the [random] module, the clocks ([time.time],
    [datetime.now]), [time.sleep] and the [psutil] sensors.  The embedding
    makes each collaborator explicit:

    - the environment of one request ([Env]) holds what the clocks and the
      sensors answer while that request runs;
    - the state ([St]) holds what survives a request: the generator of the
      [random] module (the outcomes of its future calls as a tape and a
      cursor), the log of blocking sleeps, and what [psutil] remembers from
      one call to the next (the total physical memory it cached and its
      wrap-around memory of the network counters);
    - a view is a computation in the monad [M] (environment, state, Python
      exceptions).

    Python floats are IEEE binary64 numbers; module [Float] writes their
    arithmetic out on dyadic rationals with round-to-nearest-even, and the
    [ieee_*] examples check it against the IEEE specification of the
    Standard Library ([SpecFloat]). *)

From Stdlib Require Import ZArith Lia Bool List String Ascii.
From Stdlib Require Import Floats.SpecFloat.
Import ListNotations.

Local Open Scope string_scope.
Local Open Scope Z_scope.

(* ================================================================== *)
(** * Python floats *)
(* ================================================================== *)

Module Float.

(** A finite float is [mant * 2 ^ expo].  The exponent range of binary64
    is not modelled: every value the program computes (fractions of
    [2^-53], seconds since the epoch, byte counts) is far from the
    overflow and underflow thresholds. *)
Record float := mk { mant : Z; expo : Z }.

Definition prec : Z := 53.

(** Number of binary digits of the magnitude of [m]. *)
Definition digits (m : Z) : Z :=
  if m =? 0 then 0 else Z.log2 (Z.abs m) + 1.

(** [rne m s]: [m / 2^s] rounded to the nearest integer, ties to even
    ([0 <= m], [0 < s]). *)
Definition rne (m s : Z) : Z :=
  let q := m / 2 ^ s in
  let r := m mod 2 ^ s in
  let half := 2 ^ (s - 1) in
  if r <? half then q
  else if half <? r then q + 1
  else if Z.even q then q else q + 1.

(** Rounding of the exact value [m * 2^e] to 53 significant bits. *)
Definition round (m e : Z) : float :=
  let s := digits m - prec in
  if s <=? 0 then mk m e
  else mk (Z.sgn m * rne (Z.abs m) s) (e + s).

(** The mantissa of [x] once its exponent is lowered to [e0]. *)
Definition scaled (x : float) (e0 : Z) : Z := mant x * 2 ^ (expo x - e0).

Definition of_Z (n : Z) : float := round n 0.

Definition add (x y : float) : float :=
  let e := Z.min (expo x) (expo y) in
  round (scaled x e + scaled y e) e.

Definition sub (x y : float) : float :=
  let e := Z.min (expo x) (expo y) in
  round (scaled x e - scaled y e) e.

Definition mul (x y : float) : float :=
  round (mant x * mant y) (expo x + expo y).

(** Correctly rounded quotient ([mant y <> 0]): the integer quotient is
    taken with at least two bits more than the precision and a sticky bit
    records an inexact division. *)
Definition div (x y : float) : float :=
  let a := Z.abs (mant x) in
  let b := Z.abs (mant y) in
  let k := Z.max 0 (prec + 2 + digits b - digits a) in
  let n := a * 2 ^ k in
  let q := n / b in
  let sticky := if n mod b =? 0 then 0 else 1 in
  round (Z.sgn (mant x) * Z.sgn (mant y) * (2 * q + sticky))
        (expo x - expo y - k - 1).

Definition leb (x y : float) : bool :=
  let e := Z.min (expo x) (expo y) in scaled x e <=? scaled y e.

Definition ltb (x y : float) : bool :=
  let e := Z.min (expo x) (expo y) in scaled x e <? scaled y e.

Definition eqb (x y : float) : bool :=
  let e := Z.min (expo x) (expo y) in scaled x e =? scaled y e.

(** Order and equality of values (not of representations). *)
Definition le (x y : float) : Prop := leb x y = true.
Definition lt (x y : float) : Prop := ltb x y = true.
Definition veq (x y : float) : Prop := eqb x y = true.

Definition is_zero (x : float) : bool := mant x =? 0.

Definition zero : float := mk 0 0.
Definition one : float := of_Z 1.

(** The literals of the source. *)
Definition lit_0_5 : float := mk 1 (-1).
Definition lit_0_1 : float := mk 3602879701896397 (-55).

(** Bridge to the IEEE 754 specification of the Standard Library, used
    by the [ieee_*] examples only: the binary64 number nearest to
    [mant * 2 ^ expo]. *)
Definition to_spec (x : float) : spec_float :=
  binary_normalize 53 1024 (mant x) (expo x) false.

Definition agrees (x : float) (y : spec_float) : bool :=
  match y with
  | S754_zero _ => is_zero x
  | S754_finite s m e => eqb x (mk (if s then Z.neg m else Z.pos m) e)
  | _ => false
  end.

End Float.

(* ================================================================== *)
(** * Python values, exceptions, JSON *)
(* ================================================================== *)

(** An exception object: its class and the text [str(error)] returns.
    Only classes derived from [Exception] occur. *)
Record exn := mkExn { exn_class : string; exn_str : string }.

Definition Exception (msg : string) : exn := mkExn "Exception" msg.
Definition ValueError (msg : string) : exn := mkExn "ValueError" msg.
Definition NotFound : exn :=
  mkExn "NotFound"
    "404 Not Found: The requested URL was not found on the server. If you entered the URL manually please check your spelling and try again.".

(** What [None._asdict()] raises. *)
Definition AttributeError : exn :=
  mkExn "AttributeError" "'NoneType' object has no attribute '_asdict'".

Definition str (error : exn) : string := exn_str error.

Inductive result (A : Type) : Type :=
| Ok (a : A)
| Raise (e : exn).
Arguments Ok {A} a.
Arguments Raise {A} e.

(** The argument of [jsonify]: a dict literal keeps its insertion order. *)
#[local] Set Warnings "-register-all".
Inductive json : Type :=
| JStr (s : string)
| JInt (n : Z)
| JFloat (x : Float.float)
| JObj (fields : list (string * json)).

Fixpoint assoc {A : Type} (key : string) (l : list (string * A)) : option A :=
  match l with
  | [] => None
  | (k, v) :: rest => if String.eqb k key then Some v else assoc key rest
  end.

Definition json_get (key : string) (j : json) : option json :=
  match j with
  | JObj fields => assoc key fields
  | _ => None
  end.

Record Response := mkResponse { status : Z; body : json }.

(* ================================================================== *)
(** * [datetime] and [isoformat] *)
(* ================================================================== *)

Definition is_leap (y : Z) : bool :=
  (y mod 4 =? 0) && (negb (y mod 100 =? 0) || (y mod 400 =? 0)).

Definition days_in_month (y m : Z) : Z :=
  if m =? 2 then (if is_leap y then 29 else 28)
  else if (m =? 4) || (m =? 6) || (m =? 9) || (m =? 11) then 30
  else 31.

Definition between (lo x hi : Z) : bool := (lo <=? x) && (x <=? hi).

(** The checks of the [datetime] constructor (MINYEAR = 1, MAXYEAR = 9999). *)
Definition check_fields (y mo d h mi s us : Z) : bool :=
  between 1 y 9999 && between 1 mo 12 && between 1 d (days_in_month y mo)
  && between 0 h 23 && between 0 mi 59 && between 0 s 59
  && between 0 us 999999.

(** A naive [datetime] object, as [datetime.now()] returns it.  The
    constructor rejects out-of-range fields, hence the invariant.  [fold]
    tells the two passages of a repeated wall-clock hour apart (the second
    one has [fold = 1], here [true]); [isoformat] does not print it. *)
Record datetime := mkDatetime {
  year : Z; month : Z; day : Z;
  hour : Z; minute : Z; second : Z; microsecond : Z;
  fold : bool;
  datetime_ok : check_fields year month day hour minute second microsecond
                = true
}.

Definition digit (n : Z) : ascii := ascii_of_nat (Z.to_nat (48 + n mod 10)).

(** Decimal digits of [n >= 0], most significant first. *)
Fixpoint dec_digits (fuel : nat) (n : Z) (acc : string) : string :=
  match fuel with
  | O => acc
  | S fuel' =>
      let acc' := String (digit n) acc in
      if n <? 10 then acc' else dec_digits fuel' (n / 10) acc'
  end.

Definition str_of_nonneg (n : Z) : string :=
  dec_digits (S (Z.to_nat (Z.log2 n))) n EmptyString.

Fixpoint zero_pad (k : nat) (s : string) : string :=
  match k with
  | O => s
  | S k' => String "0" (zero_pad k' s)
  end.

(** ["%0<width>d" % n] for [n >= 0]. *)
Definition format_0d (width : nat) (n : Z) : string :=
  let s := str_of_nonneg n in
  zero_pad (width - String.length s) s.

(** [_format_time] with [timespec='auto']. *)
Definition format_time (h mi s us : Z) : string :=
  let hms := format_0d 2 h ++ ":" ++ format_0d 2 mi ++ ":" ++ format_0d 2 s in
  if us =? 0 then hms else hms ++ "." ++ format_0d 6 us.

(** [datetime.isoformat()] of a naive datetime, [sep='T']. *)
Definition isoformat (d : datetime) : string :=
  format_0d 4 (year d) ++ "-" ++ format_0d 2 (month d) ++ "-"
  ++ format_0d 2 (day d) ++ "T"
  ++ format_time (hour d) (minute d) (second d) (microsecond d).

(** The characters of a zero-padded field of two, four and six digits. *)
Definition two_chars (n : Z) : string :=
  String (digit (n / 10)) (String (digit n) EmptyString).
Definition four_chars (n : Z) : string :=
  String (digit (n / 10 / 10 / 10)) (String (digit (n / 10 / 10)) (two_chars n)).
Definition six_chars (n : Z) : string :=
  String (digit (n / 10 / 10 / 10 / 10 / 10))
    (String (digit (n / 10 / 10 / 10 / 10)) (four_chars n)).

(** ** A recogniser of ISO-8601 extended date-times

    [YYYY-MM-DDThh:mm:ss] with an optional fraction [.f+], no zone
    designator; the calendar date and the time of day must exist.  It
    returns the fields it read. *)

Definition is_digit (c : ascii) : bool :=
  let n := Z.of_nat (nat_of_ascii c) in (48 <=? n) && (n <=? 57).

Definition digit_val (c : ascii) : Z := Z.of_nat (nat_of_ascii c) - 48.

Fixpoint read_number (s : string) (acc : Z) : option Z :=
  match s with
  | EmptyString => Some acc
  | String c rest =>
      if is_digit c then read_number rest (10 * acc + digit_val c) else None
  end.

Definition two_digits (a b : ascii) : option Z :=
  if is_digit a && is_digit b then Some (10 * digit_val a + digit_val b)
  else None.

Definition four_digits (a b c d : ascii) : option Z :=
  if is_digit a && is_digit b && is_digit c && is_digit d
  then Some (1000 * digit_val a + 100 * digit_val b + 10 * digit_val c
             + digit_val d)
  else None.

(** The fraction of a second, as (numerator, number of digits). *)
Definition read_fraction (s : string) : option (Z * nat) :=
  match s with
  | EmptyString => Some (0, O)
  | String "." (String c rest) =>
      match read_number (String c rest) 0 with
      | Some n => Some (n, String.length (String c rest))
      | None => None
      end
  | _ => None
  end.

Record iso_fields := mkIso {
  iso_year : Z; iso_month : Z; iso_day : Z;
  iso_hour : Z; iso_minute : Z; iso_second : Z;
  iso_fraction : Z * nat
}.

Definition parse_iso8601 (s : string) : option iso_fields :=
  match s with
  | String y1 (String y2 (String y3 (String y4 (String "-"
    (String m1 (String m2 (String "-"
    (String d1 (String d2 (String "T"
    (String h1 (String h2 (String ":"
    (String n1 (String n2 (String ":"
    (String s1 (String s2 rest)))))))))))))))))) =>
      match four_digits y1 y2 y3 y4, two_digits m1 m2, two_digits d1 d2,
            two_digits h1 h2, two_digits n1 n2, two_digits s1 s2,
            read_fraction rest with
      | Some y, Some mo, Some d, Some h, Some mi, Some se, Some fr =>
          if between 1 mo 12 && between 1 d (days_in_month y mo)
             && between 0 h 23 && between 0 mi 59 && between 0 se 59
          then Some (mkIso y mo d h mi se fr)
          else None
      | _, _, _, _, _, _, _ => None
      end
  | _ => None
  end.

Definition iso8601_well_formed (s : string) : bool :=
  match parse_iso8601 s with Some _ => true | None => false end.

(** What the recogniser must read back from [isoformat d]. *)
Definition fields_of (d : datetime) : iso_fields :=
  mkIso (year d) (month d) (day d) (hour d) (minute d) (second d)
        (if microsecond d =? 0 then (0, O) else (microsecond d, 6%nat)).

(* ================================================================== *)
(** * Environment, state and the monad of views *)
(* ================================================================== *)

(** One sample of the CPU clocks, as [Process.cpu_percent] takes it:
    the system timer and the user and system times of the process. *)
Record cpu_sample := mkSample {
  sys_timer : Float.float;
  proc_user : Float.float;
  proc_system : Float.float
}.

(** [psutil]'s named tuple [svmem]: the total physical memory comes first,
    the other fields are those of the platform. *)
Record svmem := mkSvmem {
  vm_total : Z;
  vm_others : list (string * json)
}.

(** [psutil]'s named tuple [snetio]: the eight counters of a network
    interface. *)
Record snetio := mkSnetio {
  bytes_sent : Z; bytes_recv : Z; packets_sent : Z; packets_recv : Z;
  errin : Z; errout : Z; dropin : Z; dropout : Z
}.

(** [psutil]'s named tuple [scputimes]: the system-wide CPU times (user,
    system, idle and the other fields of the platform). *)
Definition scputimes : Type := list Float.float.

(** What the platform reports for the network: the counters of every
    interface, by name (the names are distinct). *)
Definition nic_counters : Type := list (string * snetio).

(** What the outside world answers during one request.  A sensor that
    cannot be read answers with the exception [psutil] raises. *)
Record Env := mkEnv {
  clock_time : Float.float;               (* time.time() *)
  clock_now : datetime;                   (* datetime.now() *)
  os_getpid : Z;
  sensor_create_time : result Float.float;
  sensor_memory_rss : result Z;           (* memory_info().rss, bytes *)
  sensor_cpu_times : result cpu_sample;
  sensor_sys_cpu_times : result scputimes;        (* cpu_times() *)
  sensor_sys_cpu_times_after : result scputimes;  (* cpu_times(), after the block *)
  sensor_virtual_memory : result svmem;   (* _psplatform.virtual_memory() *)
  sensor_disk_usage : string -> result (list (string * json));
  sensor_net_io_counters : result nic_counters  (* _psplatform.net_io_counters() *)
}.

(** The amounts [psutil] adds to the counters that wrapped around, by
    interface name and position in the tuple; an absent entry counts as 0
    (a [defaultdict(int)]). *)
Definition reminders : Type := list ((string * nat) * Z).

(** What persists from one request to the next:
    - the generator of the [random] module, as the tape of the raw outcomes
      of its future calls and the number of calls made so far;
    - the log of the blocking sleeps;
    - [psutil._TOTAL_PHYMEM], the total physical memory cached by the last
      call of [psutil.virtual_memory()] ([None] at import);
    - the memory of [psutil]'s wrap-around correction for
      [net_io_counters]: the raw counters of the previous call and the
      reminders accumulated so far. *)
Record St := mkSt {
  rng_tape : nat -> Z;
  rng_pos : nat;
  slept : list Float.float;
  TOTAL_PHYMEM : option Z;
  wrap_cache : option nic_counters;
  wrap_reminders : reminders
}.

Definition M (A : Type) : Type := Env -> St -> result A * St.

Definition ret {A : Type} (a : A) : M A := fun _ st => (Ok a, st).

Definition bind {A B : Type} (m : M A) (f : A -> M B) : M B :=
  fun env st =>
    match m env st with
    | (Ok a, st') => f a env st'
    | (Raise e, st') => (Raise e, st')
    end.

Definition raise {A : Type} (e : exn) : M A := fun _ st => (Raise e, st).

Definition try_except {A : Type} (m : M A) (handler : exn -> M A) : M A :=
  fun env st =>
    match m env st with
    | (Ok a, st') => (Ok a, st')
    | (Raise e, st') => handler e env st'
    end.

Definition ask {A : Type} (f : Env -> A) : M A := fun env st => (Ok (f env), st).

Definition sense {A : Type} (f : Env -> result A) : M A :=
  fun env st => (f env, st).

Notation "x <- m ;; k" := (bind m (fun x => k))
  (at level 61, m at next level, right associativity).
Notation "m ;;; k" := (bind m (fun _ => k))
  (at level 61, right associativity).

(* ================================================================== *)
(** * The collaborators *)
(* ================================================================== *)

(** ** [random] *)

(** The state after one more call to the generator, after a sleep, and
    after [psutil] updated what it remembers. *)
Definition consume (st : St) : St :=
  mkSt (rng_tape st) (S (rng_pos st)) (slept st)
       (TOTAL_PHYMEM st) (wrap_cache st) (wrap_reminders st).

Definition log_sleep (st : St) (secs : Float.float) : St :=
  mkSt (rng_tape st) (rng_pos st) (slept st ++ [secs])
       (TOTAL_PHYMEM st) (wrap_cache st) (wrap_reminders st).

Definition cache_total (st : St) (total : Z) : St :=
  mkSt (rng_tape st) (rng_pos st) (slept st)
       (Some total) (wrap_cache st) (wrap_reminders st).

Definition remember_counters (st : St) (raw : nic_counters) (rem : reminders)
  : St :=
  mkSt (rng_tape st) (rng_pos st) (slept st)
       (TOTAL_PHYMEM st) (Some raw) rem.

(** The raw outcome of one call to the generator.  The tape lists the
    outcomes call by call: the cursor counts calls to the [random] module,
    not the 32-bit words of the Mersenne Twister behind it. *)
Definition next_word : M Z :=
  fun _ st => (Ok (rng_tape st (rng_pos st)), consume st).

(** [random.random()]: a 53-bit numerator [k] over [2^53], each numerator
    equally likely; the result lies in [[0, 1)]. *)
Definition numerator (word : Z) : Z := word mod 2 ^ 53.

Definition random_random : M Float.float :=
  w <- next_word ;; ret (Float.mk (numerator w) (-53)).

(** [random.uniform(a, b)] is [a + (b - a) * self.random()]. *)
Definition random_uniform (a b : Float.float) : M Float.float :=
  r <- random_random ;; ret (Float.add a (Float.mul (Float.sub b a) r)).

(** [_randbelow(n)] for [n > 0]: an integer of [[0, n)].  CPython draws
    [n.bit_length()] bits again and again until the value is below [n]; the
    model takes the outcome of the whole call from one entry of the tape and
    maps it onto [[0, n)], so that every value of the range, and nothing
    else, can come out.  How far the Mersenne Twister itself advances
    during a call is not modelled. *)
Definition randbelow (n : Z) : M Z :=
  w <- next_word ;; ret (w mod n).

Definition repr_int (n : Z) : string :=
  if n <? 0 then "-" ++ str_of_nonneg (- n) else str_of_nonneg n.

(** [random.randint(a, b)] is [randrange(a, b + 1)]. *)
Definition random_randint (a b : Z) : M Z :=
  let width := b + 1 - a in
  if 0 <? width then r <- randbelow width ;; ret (a + r)
  else raise (ValueError ("empty range in randrange(" ++ repr_int a ++ ", "
                          ++ repr_int (b + 1) ++ ")")).

(** ** [time] and [datetime] *)

Definition time_time : M Float.float := ask clock_time.

Definition datetime_now : M datetime := ask clock_now.

Definition time_sleep (secs : Float.float) : M unit :=
  if Float.ltb secs Float.zero
  then raise (ValueError "sleep length must be non-negative")
  else fun _ st => (Ok tt, log_sleep st secs).

(** ** [psutil] *)

(** A [Process] object remembers the CPU sample of its last
    [cpu_percent] call; a new object has none. *)
Record Process := mkProcess {
  pid : Z;
  last_cpu_times : option cpu_sample
}.

(** [psutil.Process()]: the current process. *)
Definition psutil_Process : M Process :=
  p <- ask os_getpid ;; ret (mkProcess p None).

Definition Process_create_time (self : Process) : M Float.float :=
  sense sensor_create_time.

(** [psutil.virtual_memory()]: reads the platform and caches the total in
    [_TOTAL_PHYMEM], for [Process.memory_percent]. *)
Definition psutil_virtual_memory : M svmem :=
  fun env st =>
    match sensor_virtual_memory env with
    | Ok vm => (Ok vm, cache_total st (vm_total vm))
    | Raise e => (Raise e, st)
    end.

(** [_TOTAL_PHYMEM or virtual_memory().total]: the cached total when there
    is one (and it is not 0), a fresh reading otherwise. *)
Definition total_phymem_or_read : M Z :=
  fun env st =>
    match TOTAL_PHYMEM st with
    | Some total =>
        if total =? 0
        then (vm <- psutil_virtual_memory ;; ret (vm_total vm)) env st
        else (Ok total, st)
    | None => (vm <- psutil_virtual_memory ;; ret (vm_total vm)) env st
    end.

(** [Process.memory_percent()]: the resident set size compared to the
    total physical memory, [(rss / float(total)) * 100]. *)
Definition Process_memory_percent (self : Process) : M Float.float :=
  value <- sense sensor_memory_rss ;;
  total_phymem <- total_phymem_or_read ;;
  if negb (0 <? total_phymem)
  then raise (ValueError
                ("can't calculate process memory percent because total physical system memory is not positive ("
                 ++ repr_int total_phymem ++ ")"))
  else ret (Float.mul (Float.div (Float.of_Z value) (Float.of_Z total_phymem))
                      (Float.of_Z 100)).

(** ** [psutil]'s named tuples as dicts *)

Definition svmem_asdict (vm : svmem) : list (string * json) :=
  ("total", JInt (vm_total vm)) :: vm_others vm.

Definition snetio_asdict (t : snetio) : list (string * json) :=
  [("bytes_sent", JInt (bytes_sent t)); ("bytes_recv", JInt (bytes_recv t));
   ("packets_sent", JInt (packets_sent t));
   ("packets_recv", JInt (packets_recv t));
   ("errin", JInt (errin t)); ("errout", JInt (errout t));
   ("dropin", JInt (dropin t)); ("dropout", JInt (dropout t))].

(** ** [psutil]'s memory of the network counters

    [_WrapNumbers.run] of [psutil._common]: a counter that comes back
    smaller than at the previous call has wrapped around; its previous value
    is added to the reminder of that counter, and every counter is reported
    with its reminder added. *)

Definition counters (t : snetio) : list Z :=
  [bytes_sent t; bytes_recv t; packets_sent t; packets_recv t;
   errin t; errout t; dropin t; dropout t].

Definition snetio_of (l : list Z) : snetio :=
  mkSnetio (nth 0 l 0) (nth 1 l 0) (nth 2 l 0) (nth 3 l 0)
           (nth 4 l 0) (nth 5 l 0) (nth 6 l 0) (nth 7 l 0).

Definition remkey_eqb (a b : string * nat) : bool :=
  String.eqb (fst a) (fst b) && Nat.eqb (snd a) (snd b).

Fixpoint reminder (rem : reminders) (remkey : string * nat) : Z :=
  match rem with
  | [] => 0
  | (k, v) :: rest => if remkey_eqb k remkey then v else reminder rest remkey
  end.

(** [reminders[remkey] += old_value]. *)
Fixpoint add_reminder (rem : reminders) (remkey : string * nat) (old_value : Z)
  : reminders :=
  match rem with
  | [] => [(remkey, old_value)]
  | (k, v) :: rest =>
      if remkey_eqb k remkey then (k, v + old_value) :: rest
      else (k, v) :: add_reminder rest remkey old_value
  end.

Definition has_key {A : Type} (key : string) (d : list (string * A)) : bool :=
  match assoc key d with Some _ => true | None => false end.

(** [_remove_dead_reminders]: the reminders of an interface that was there
    at the previous call and is gone are dropped. *)
Definition remove_dead_reminders (old_dict input_dict : nic_counters)
    (rem : reminders) : reminders :=
  filter (fun entry =>
            negb (has_key (fst (fst entry)) old_dict
                  && negb (has_key (fst (fst entry)) input_dict)))
         rem.

(** The counters of one interface, position by position from [i] on. *)
Fixpoint wrap_tuple (key : string) (i : nat) (input_tuple old_tuple : list Z)
    (rem : reminders) : list Z * reminders :=
  match input_tuple, old_tuple with
  | input_value :: input_rest, old_value :: old_rest =>
      let rem1 := if input_value <? old_value
                  then add_reminder rem (key, i) old_value
                  else rem in
      let (bits, rem2) := wrap_tuple key (S i) input_rest old_rest rem1 in
      ((input_value + reminder rem1 (key, i)) :: bits, rem2)
  | _, _ => ([], rem)
  end.

(** The loop over the interfaces of the new reading; an interface that was
    not there at the previous call is reported as it is. *)
Fixpoint wrap_dict (old_dict input_dict : nic_counters) (rem : reminders)
  : nic_counters * reminders :=
  match input_dict with
  | [] => ([], rem)
  | (key, input_tuple) :: rest =>
      match assoc key old_dict with
      | None =>
          let (new_dict, rem') := wrap_dict old_dict rest rem in
          ((key, input_tuple) :: new_dict, rem')
      | Some old_tuple =>
          let (bits, rem1) :=
            wrap_tuple key 0 (counters input_tuple) (counters old_tuple) rem in
          let (new_dict, rem2) := wrap_dict old_dict rest rem1 in
          ((key, snetio_of bits) :: new_dict, rem2)
      end
  end.

(** [_WrapNumbers.run]: the first call only stores the reading. *)
Definition run_wrap_numbers (st : St) (input_dict : nic_counters)
  : nic_counters * St :=
  match wrap_cache st with
  | None => (input_dict, remember_counters st input_dict [])
  | Some old_dict =>
      let rem :=
        remove_dead_reminders old_dict input_dict (wrap_reminders st) in
      let (new_dict, rem') := wrap_dict old_dict input_dict rem in
      (new_dict, remember_counters st input_dict rem')
  end.

(** [_wrap_numbers(rawdict, 'psutil.net_io_counters')]. *)
Definition wrap_numbers (input_dict : nic_counters) : M nic_counters :=
  fun _ st =>
    let (new_dict, st') := run_wrap_numbers st input_dict in (Ok new_dict, st').

Definition snetio_add (a b : snetio) : snetio :=
  mkSnetio (bytes_sent a + bytes_sent b) (bytes_recv a + bytes_recv b)
           (packets_sent a + packets_sent b) (packets_recv a + packets_recv b)
           (errin a + errin b) (errout a + errout b)
           (dropin a + dropin b) (dropout a + dropout b).

(** The sums of the columns, over the interfaces. *)
Definition sum_counters (d : nic_counters) : snetio :=
  fold_right (fun entry acc => snetio_add (snd entry) acc)
             (mkSnetio 0 0 0 0 0 0 0 0) d.

(** The percentages [psutil] computes from two samples: for one [Process]
    object (a quotient of time differences, scaled by the number of CPUs
    and rounded to one decimal) and for the whole system (the share of the
    busy time, rounded to one decimal). *)
Record cpu_usage := mkUsage {
  process_usage : cpu_sample -> cpu_sample -> Float.float;
  system_usage : scputimes -> scputimes -> Float.float
}.

Section Views.

(** That arithmetic of [psutil] is a parameter of the views; they never
    reach the one of [Process] objects, since they sample each object
    once. *)
Variable cpu_usage_between : cpu_usage.

(** [Process.cpu_percent()] with [interval=None]: compares the CPU times
    with those of the previous call on the same object and returns
    immediately; the first call on an object only stores the sample and
    returns [0.0]. *)
Definition Process_cpu_percent (self : Process) : M (Float.float * Process) :=
  now <- sense sensor_cpu_times ;;
  match last_cpu_times self with
  | None => ret (Float.zero, mkProcess (pid self) (Some now))
  | Some before =>
      ret (process_usage cpu_usage_between before now,
           mkProcess (pid self) (Some now))
  end.

(** [psutil.cpu_percent(interval=1)]: takes a system-wide sample,
    blocks for the interval, takes a second sample and compares the
    two. *)
Definition psutil_cpu_percent (interval : Float.float) : M Float.float :=
  t1 <- sense sensor_sys_cpu_times ;;
  time_sleep interval ;;;
  t2 <- sense sensor_sys_cpu_times_after ;;
  ret (system_usage cpu_usage_between t1 t2).

Definition psutil_disk_usage (path : string) : M (list (string * json)) :=
  sense (fun env => sensor_disk_usage env path).

(** [psutil.net_io_counters()] ([pernic=False], [nowrap=True]): the raw
    counters of every interface go through [wrap_numbers], then the
    columns are summed over the interfaces; [None] when the platform
    reports no interface. *)
Definition psutil_net_io_counters : M (option snetio) :=
  rawdict <- sense sensor_net_io_counters ;;
  match rawdict with
  | [] => ret None
  | _ :: _ =>
      wrapped <- wrap_numbers rawdict ;;
      ret (Some (sum_counters wrapped))
  end.

(** [psutil.net_io_counters()._asdict()]. *)
Definition net_io_asdict (network : option snetio)
  : M (list (string * json)) :=
  match network with
  | Some t => ret (snetio_asdict t)
  | None => raise AttributeError
  end.

(** ** Flask *)

(** [jsonify(d)]: a response with status 200. *)
Definition jsonify (d : json) : M Response := ret (mkResponse 200 d).

(** A view returning [(response, code)]. *)
Definition with_status (r : Response) (code : Z) : Response :=
  mkResponse code (body r).

(* ================================================================ *)
(** * The views of app.py *)
(* ================================================================ *)

Definition home : M Response :=
  now <- datetime_now ;;
  jsonify (JObj [("message", JStr "Hello from Cliente 3 - Flask App!");
                 ("timestamp", JStr (isoformat now));
                 ("project", JStr "cliente3")]).

Definition health : M Response :=
  t <- time_time ;;
  p1 <- psutil_Process ;;
  created <- Process_create_time p1 ;;
  p2 <- psutil_Process ;;
  mem <- Process_memory_percent p2 ;;
  p3 <- psutil_Process ;;
  cpu <- Process_cpu_percent p3 ;;
  now <- datetime_now ;;
  jsonify (JObj [("status", JStr "healthy");
                 ("uptime", JFloat (Float.sub t created));
                 ("memory_percent", JFloat mem);
                 ("cpu_percent", JFloat (fst cpu));
                 ("timestamp", JStr (isoformat now))]).

Definition get_data : M Response :=
  d <- random_uniform Float.lit_0_1 Float.lit_0_5 ;;
  time_sleep d ;;;
  customers <- random_randint 100 1000 ;;
  sales <- random_randint 50 500 ;;
  profit <- random_randint 1000 10000 ;;
  now <- datetime_now ;;
  let data := JObj [("customers", JInt customers);
                    ("sales", JInt sales);
                    ("profit", JInt profit);
                    ("timestamp", JStr (isoformat now))] in
  jsonify data.

Definition slow_endpoint : M Response :=
  d <- random_uniform (Float.of_Z 1) (Float.of_Z 3) ;;
  time_sleep d ;;;
  now <- datetime_now ;;
  jsonify (JObj [("message", JStr "This was a slow request from Flask");
                 ("timestamp", JStr (isoformat now))]).

Definition error_endpoint : M Response :=
  x <- random_random ;;
  if Float.ltb Float.lit_0_5 x
  then raise (Exception "Random error for testing from Flask")
  else jsonify (JObj [("message", JStr "Success from Flask!")]).

Definition system_info : M Response :=
  cpu <- psutil_cpu_percent (Float.of_Z 1) ;;
  memory <- psutil_virtual_memory ;;
  disk <- psutil_disk_usage "/" ;;
  counters <- psutil_net_io_counters ;;
  network <- net_io_asdict counters ;;
  now <- datetime_now ;;
  jsonify (JObj [("cpu_percent", JFloat cpu);
                 ("memory", JObj (svmem_asdict memory));
                 ("disk", JObj disk);
                 ("network", JObj network);
                 ("timestamp", JStr (isoformat now))]).

(** [@app.errorhandler(Exception)] *)
Definition handle_error (error : exn) : M Response :=
  r <- jsonify (JObj [("error", JStr (str error))]) ;;
  ret (with_status r 500).

(* ================================================================ *)
(** * Routing and dispatch *)
(* ================================================================ *)

Inductive endpoint : Type :=
| ep_home | ep_health | ep_get_data | ep_slow_endpoint
| ep_error_endpoint | ep_system_info.

(** The [@app.route] table. *)
Definition url_map (path : string) : option endpoint :=
  if String.eqb path "/" then Some ep_home
  else if String.eqb path "/health" then Some ep_health
  else if String.eqb path "/api/data" then Some ep_get_data
  else if String.eqb path "/api/slow" then Some ep_slow_endpoint
  else if String.eqb path "/api/error" then Some ep_error_endpoint
  else if String.eqb path "/api/system" then Some ep_system_info
  else None.

Definition view_functions (ep : endpoint) : M Response :=
  match ep with
  | ep_home => home
  | ep_health => health
  | ep_get_data => get_data
  | ep_slow_endpoint => slow_endpoint
  | ep_error_endpoint => error_endpoint
  | ep_system_info => system_info
  end.

(** A GET request for [path].  Flask runs the matched view once; an
    exception it raises goes to the handler registered for its class, here
    [handle_error] for every [Exception].  What the router does before
    any view runs for other requests (another method, the automatic
    OPTIONS answer, the redirect of a path with repeated slashes, the
    static files) is outside the model. *)
Definition dispatch_request (path : string) : M Response :=
  match url_map path with
  | Some ep => view_functions ep
  | None => raise NotFound
  end.

Definition full_dispatch_request (path : string) : M Response :=
  try_except (dispatch_request path) handle_error.

(** The response a client receives and the state left behind;
    [full_dispatch_request] never raises (lemma [dispatch_never_raises]),
    the last branch is the server's own 500 page. *)
Definition serve_one (path : string) (env : Env) (st : St) : Response * St :=
  match full_dispatch_request path env st with
  | (Ok r, st') => (r, st')
  | (Raise e, st') => (mkResponse 500 (JStr "Internal Server Error"), st')
  end.

(** A run of the server over successive requests, each with the
    environment in force while it is handled. *)
Fixpoint serve (requests : list (string * Env)) (st : St)
  : list Response * St :=
  match requests with
  | [] => ([], st)
  | (path, env) :: rest =>
      let (r, st1) := serve_one path env st in
      let (rs, st2) := serve rest st1 in
      (r :: rs, st2)
  end.

End Views.

(* ================================================================== *)
(** * Module load and start-up *)
(* ================================================================== *)

(** The two kinds of value [os.getenv('PORT', 5000)] can return. *)
Inductive pyval : Type :=
| PyStr (s : string)
| PyInt (n : Z).

(** [os.environ], a mapping from names to strings. *)
Definition environ := list (string * string).

Definition os_getenv (env : environ) (key : string) (default : pyval) : pyval :=
  match assoc key env with
  | Some v => PyStr v
  | None => default
  end.

(** ** [int(s)] in base 10

    Characters are code points below 256.  Surrounding whitespace is
    dropped (the ASCII whitespace of C, and the two spaces above 127, which
    [int] turns into blanks first), one sign is allowed, then decimal
    digits, where single underscores may separate digits; a literal of more
    than 4300 digits is refused ([sys.get_int_max_str_digits()], which the
    program leaves at its default). *)
Definition is_space (c : ascii) : bool :=
  let n := Z.of_nat (nat_of_ascii c) in
  between 9 n 13 || (n =? 32) || (n =? 133) || (n =? 160).

Fixpoint lstrip (s : string) : string :=
  match s with
  | String c rest => if is_space c then lstrip rest else s
  | EmptyString => EmptyString
  end.

(** [rstrip s] drops the trailing whitespace: a character stays when it is
    not a space or something stays after it. *)
Fixpoint rstrip (s : string) : string :=
  match s with
  | EmptyString => EmptyString
  | String c rest =>
      match rstrip rest with
      | EmptyString => if is_space c then EmptyString else String c EmptyString
      | rest' => String c rest'
      end
  end.

Definition strip (s : string) : string := rstrip (lstrip s).

(** Digits with single underscores between them; [after_digit] tells
    whether the previous character was a digit. *)
Fixpoint int_digits (s : string) (acc : Z) (after_digit : bool) : option Z :=
  match s with
  | EmptyString => if after_digit then Some acc else None
  | String c rest =>
      if is_digit c then int_digits rest (10 * acc + digit_val c) true
      else if Ascii.eqb c "_"
           then (if after_digit then int_digits rest acc false else None)
           else None
  end.

Definition int_of_string (s : string) : option Z :=
  match strip s with
  | String "+" rest => int_digits rest 0 false
  | String "-" rest => option_map Z.opp (int_digits rest 0 false)
  | unsigned => int_digits unsigned 0 false
  end.

(** ** [repr] of a string *)

Definition ord (c : ascii) : Z := Z.of_nat (nat_of_ascii c).

Definition single_quote : ascii := ascii_of_nat 39.
Definition double_quote : ascii := ascii_of_nat 34.
Definition backslash : ascii := ascii_of_nat 92.

Definition is_printable (c : ascii) : bool :=
  between 32 (ord c) 126
  || (between 161 (ord c) 255 && negb (ord c =? 173)).

Definition hex_digit (n : Z) : ascii :=
  ascii_of_nat (Z.to_nat (if n <? 10 then 48 + n else 87 + n)).

Definition repr_char (quote c : ascii) : string :=
  if Ascii.eqb c quote || Ascii.eqb c backslash
  then String backslash (String c EmptyString)
  else if ord c =? 9 then String backslash "t"
  else if ord c =? 10 then String backslash "n"
  else if ord c =? 13 then String backslash "r"
  else if is_printable c then String c EmptyString
  else String backslash
         (String "x" (String (hex_digit (ord c / 16))
                        (String (hex_digit (ord c mod 16)) EmptyString))).

Fixpoint repr_chars (quote : ascii) (s : string) : string :=
  match s with
  | EmptyString => EmptyString
  | String c rest => repr_char quote c ++ repr_chars quote rest
  end.

Fixpoint contains (c : ascii) (s : string) : bool :=
  match s with
  | EmptyString => false
  | String c' rest => Ascii.eqb c' c || contains c rest
  end.

(** Single quotes, unless the string holds a single quote and no double
    quote. *)
Definition py_repr (s : string) : string :=
  let quote := if contains single_quote s && negb (contains double_quote s)
               then double_quote else single_quote in
  String quote (repr_chars quote s ++ String quote EmptyString).

Fixpoint truncate (n : nat) (s : string) : string :=
  match n, s with
  | S n', String c rest => String c (truncate n' rest)
  | _, _ => EmptyString
  end.

(** The conversion [%.200R] of the error message of [int]: the [repr] of
    the string, cut after 200 characters. *)
Definition repr_str (s : string) : string := truncate 200 (py_repr s).

(** The number of decimal digits in a string. *)
Fixpoint digit_count (s : string) : Z :=
  match s with
  | EmptyString => 0
  | String c rest => (if is_digit c then 1 else 0) + digit_count rest
  end.

Definition max_str_digits : Z := 4300.

Definition int (v : pyval) : result Z :=
  match v with
  | PyInt n => Ok n
  | PyStr s =>
      match int_of_string s with
      | Some n =>
          if max_str_digits <? digit_count s
          then Raise (ValueError
                        ("Exceeds the limit (4300 digits) for integer string conversion: value has "
                         ++ repr_int (digit_count s)
                         ++ " digits; use sys.set_int_max_str_digits() to increase the limit"))
          else Ok n
      | None =>
          Raise (ValueError ("invalid literal for int() with base 10: "
                             ++ repr_str s))
      end
  end.

(** Line 11: [PORT = int(os.getenv('PORT', 5000))]. *)
Definition PORT (env : environ) : result Z :=
  int (os_getenv env "PORT" (PyInt 5000)).

(** A run of the program: the module body is executed top to bottom
    ([PORT] is bound before any route is registered and before [app.run]),
    then the server handles the incoming requests. *)
Inductive outcome : Type :=
| Crashed (e : exn)
| Served (host : string) (port : Z) (responses : list Response) (st : St).

Definition main (usage : cpu_usage)
    (env : environ) (requests : list (string * Env)) (st : St) : outcome :=
  match PORT env with
  | Raise e => Crashed e
  | Ok port =>
      let (rs, st') := serve usage requests st in
      Served "0.0.0.0" port rs st'
  end.

(* ================================================================== *)
(** * Counting draws *)
(* ================================================================== *)

(** The number of [k] in [[0, n)] that satisfy [P]. *)
Fixpoint count_below (P : Z -> bool) (n : nat) : nat :=
  match n with
  | O => O
  | S n' => ((if P (Z.of_nat n') then 1 else 0) + count_below P n')%nat
  end.

(** The state [st] with [word] as the next word of its generator. *)
Definition with_next_word (st : St) (word : Z) : St :=
  mkSt (fun i => if Nat.eqb i (rng_pos st) then word else rng_tape st i)
       (rng_pos st) (slept st)
       (TOTAL_PHYMEM st) (wrap_cache st) (wrap_reminders st).

(** The state [st] whose generator continues with the words of [l]. *)
Definition with_next_words (st : St) (l : list Z) : St :=
  mkSt (fun i => if Nat.ltb i (rng_pos st) then rng_tape st i
                 else nth (i - rng_pos st) l (rng_tape st i))
       (rng_pos st) (slept st)
       (TOTAL_PHYMEM st) (wrap_cache st) (wrap_reminders st).

Definition raises {A : Type} (r : result A * St) : bool :=
  match fst r with Raise _ => true | Ok _ => false end.

(** Two states agree on the words their generators will produce. *)
Definition same_draws (st1 st2 : St) : Prop :=
  forall i : nat,
    rng_tape st1 (rng_pos st1 + i)%nat = rng_tape st2 (rng_pos st2 + i)%nat.


(* ================================================================== *)
(** * Closed forms and sample inputs used by the statements *)
(* ================================================================== *)

(** The numerator of the next [random.random()] draw in state [st]. *)
Definition next_numerator (st : St) : Z := numerator (rng_tape st (rng_pos st)).

(** The [i]-th word the generator will produce from state [st]. *)
Definition word_at (st : St) (i : nat) : Z := rng_tape st (i + rng_pos st).

(** The state after [n] more words have been consumed. *)
Definition advance (st : St) (n : nat) : St :=
  mkSt (rng_tape st) (n + rng_pos st) (slept st)
       (TOTAL_PHYMEM st) (wrap_cache st) (wrap_reminders st).

(** The value of [random.uniform(a, b)] when the generator yields [word]. *)
Definition uniform_of (a b : Float.float) (word : Z) : Float.float :=
  Float.add a (Float.mul (Float.sub b a) (Float.mk (numerator word) (-53))).

(** The value of [random.randint(a, b)] when the generator yields [word]. *)
Definition randint_of (a b word : Z) : Z := a + word mod (b + 1 - a).

(** [(rss / float(total)) * 100]. *)
Definition memory_percent_of (rss total : Z) : Float.float :=
  Float.mul (Float.div (Float.of_Z rss) (Float.of_Z total)) (Float.of_Z 100).

Definition success_response : Response :=
  mkResponse 200 (JObj [("message", JStr "Success from Flask!")]).

Definition error_response (e : exn) : Response :=
  mkResponse 500 (JObj [("error", JStr (str e))]).

Definition data_response (customers sales profit : Z) (now : datetime)
  : Response :=
  mkResponse 200 (JObj [("customers", JInt customers);
                        ("sales", JInt sales);
                        ("profit", JInt profit);
                        ("timestamp", JStr (isoformat now))]).

Definition slow_response (now : datetime) : Response :=
  mkResponse 200 (JObj [("message", JStr "This was a slow request from Flask");
                        ("timestamp", JStr (isoformat now))]).

Definition health_response (t created mem cpu : Float.float) (now : datetime)
  : Response :=
  mkResponse 200 (JObj [("status", JStr "healthy");
                        ("uptime", JFloat (Float.sub t created));
                        ("memory_percent", JFloat mem);
                        ("cpu_percent", JFloat cpu);
                        ("timestamp", JStr (isoformat now))]).

(** Two states agree on what [psutil] remembers. *)
Definition same_caches (st1 st2 : St) : Prop :=
  TOTAL_PHYMEM st1 = TOTAL_PHYMEM st2
  /\ wrap_cache st1 = wrap_cache st2
  /\ wrap_reminders st1 = wrap_reminders st2.

(** A computation whose result depends only on the environment, on the
    outcomes its generator will produce and on what [psutil] remembers, and
    which leaves states that still agree on both. *)
Definition determined {A : Type} (m : M A) : Prop :=
  forall (env : Env) (st1 st2 : St),
    same_draws st1 st2 -> same_caches st1 st2 ->
    fst (m env st1) = fst (m env st2)
    /\ same_draws (snd (m env st1)) (snd (m env st2))
    /\ same_caches (snd (m env st1)) (snd (m env st2)).

(** The total physical memory [Process.memory_percent] divides by: the
    cached one when there is one (and it is not 0), the reading of the
    platform otherwise. *)
Definition total_in_use (env : Env) (st : St) : result Z :=
  match TOTAL_PHYMEM st with
  | Some total =>
      if total =? 0
      then match sensor_virtual_memory env with
           | Ok vm => Ok (vm_total vm)
           | Raise e => Raise e
           end
      else Ok total
  | None =>
      match sensor_virtual_memory env with
      | Ok vm => Ok (vm_total vm)
      | Raise e => Raise e
      end
  end.

(** The cache is warm: [Process.memory_percent] will not read the
    platform. *)
Definition cache_warm (st : St) : bool :=
  match TOTAL_PHYMEM st with
  | Some total => negb (total =? 0)
  | None => false
  end.

(** The state [Process.memory_percent] leaves when it used [total]: a cold
    cache has been filled. *)
Definition after_memory_percent (st : St) (total : Z) : St :=
  if cache_warm st then st else cache_total st total.

(** The views that call [psutil]. *)
Definition uses_psutil (ep : endpoint) : bool :=
  match ep with
  | ep_health | ep_system_info => true
  | ep_home | ep_get_data | ep_slow_endpoint | ep_error_endpoint => false
  end.

(** Two clock readings that show the same date and time of day; they can
    differ in [fold]. *)
Definition same_wall_time (d1 d2 : datetime) : Prop :=
  year d1 = year d2 /\ month d1 = month d2 /\ day d1 = day d2
  /\ hour d1 = hour d2 /\ minute d1 = minute d2 /\ second d1 = second d2
  /\ microsecond d1 = microsecond d2.

(** What [psutil.net_io_counters()] reports for the raw reading [raw] in
    state [st]: the sums of the corrected counters, and the memory it
    leaves. *)
Definition net_io_report (st : St) (raw : nic_counters) : snetio * St :=
  let (wrapped, st') := run_wrap_numbers st raw in
  (sum_counters wrapped, st').

(** ** Sample inputs *)

Definition sample_now : datetime :=
  mkDatetime 2024 2 29 7 5 9 0 false eq_refl.

(** A machine at wall-clock time [t], with a process of [rss] resident
    bytes, [total] bytes of physical memory and one network interface that
    has sent [sent] bytes. *)
Definition sample_machine (t : Float.float) (rss total sent : Z) : Env :=
  mkEnv t sample_now 4242
        (Ok (Float.mk 7130316000000000 (-22)))
        (Ok rss)
        (Ok (mkSample (Float.mk 5 0) (Float.mk 1 (-2)) (Float.mk 1 (-3))))
        (Ok [Float.mk 40 0; Float.mk 10 0; Float.mk 350 0])
        (Ok [Float.mk 41 0; Float.mk 10 0; Float.mk 353 0])
        (Ok (mkSvmem total [("percent", JFloat (Float.mk 25 (-1)))]))
        (fun _ => Ok [("total", JInt 500107862016)])
        (Ok [("eth0", mkSnetio sent 20 3 2 0 0 0 0)]).

Definition sample_env_at (t : Float.float) : Env :=
  sample_machine t 35000320 8589934592 3.

(** Two moments of one process: the wall clock reads 1.7e9 s, then one
    tick of the float later. *)
Definition sample_env : Env :=
  sample_env_at (Float.mk 7130316800000000 (-22)).
Definition sample_env_later : Env :=
  sample_env_at (Float.mk 7130316800000001 (-22)).

(** The wall clock set to one tick before the creation of the process. *)
Definition sample_env_early : Env :=
  sample_env_at (Float.mk 7130315999999999 (-22)).

(** The same machine with 4 GiB of memory, before 4 GiB more were plugged
    in, and afterwards, when the process has grown to 6 GiB. *)
Definition sample_env_4GiB : Env :=
  sample_machine (Float.mk 7130316800000000 (-22)) 35000320 4294967296 3.
Definition sample_env_grown : Env :=
  sample_machine (Float.mk 7130316800000001 (-22)) 6442450944 8589934592 3.

(** The same machine when its interface had sent close to [2^32] bytes,
    before the counter wrapped around. *)
Definition sample_env_before_wrap : Env :=
  sample_machine (Float.mk 7130316800000000 (-22)) 35000320 8589934592
                 4294967000.

(** Two states of a process that has not called [psutil] yet, with
    different pasts and the same future of their generators. *)
Definition sample_st : St := mkSt (fun i => Z.of_nat i) 0 [] None None [].
Definition sample_st_later : St :=
  mkSt (fun i => Z.of_nat i - 2) 2 [Float.one] None None [].

Definition no_usage : cpu_usage :=
  mkUsage (fun _ _ => Float.zero) (fun _ _ => Float.zero).

(** Numerators and byte counts on which the float model is compared with
    the IEEE specification. *)
Definition sample_numerators : list Z :=
  [0; 1; 2; 3; 4503599627370495; 4503599627370496; 4503599627370497;
   6004799503160661; 1234567890123457; 9007199254740989; 9007199254740990;
   9007199254740991].

Definition sample_byte_counts : list (Z * Z) :=
  [(0, 5); (1, 3); (2, 3); (5, 5); (7, 10); (1, 10);
   (35000320, 8589934592); (123456789, 16777216000);
   (9007199254740993, 9007199254740995); (1, 9007199254740993);
   (12345678901234567890, 98765432109876543210)].

Definition ieee_uniform (a b : Float.float) (word : Z) : spec_float :=
  SFadd 53 1024 (Float.to_spec a)
    (SFmul 53 1024 (SFsub 53 1024 (Float.to_spec b) (Float.to_spec a))
       (Float.to_spec (Float.mk (numerator word) (-53)))).

(** [float(n)]: the binary64 number nearest to the integer [n]. *)
Definition ieee_of_Z (n : Z) : spec_float :=
  binary_normalize 53 1024 n 0 false.

Definition ieee_memory_percent (rss total : Z) : spec_float :=
  SFmul 53 1024 (SFdiv 53 1024 (ieee_of_Z rss) (ieee_of_Z total))
        (ieee_of_Z 100).

(* ================================================================== *)
(** * Footprints of the views and character classes *)
(* ================================================================== *)

(** The number of calls to the [random] module a view makes:
    [get_data] calls [uniform] once and [randint] three times,
    [slow_endpoint] calls [uniform] once, [error_endpoint] calls
    [random] once. *)
Definition draws_of (ep : endpoint) : nat :=
  match ep with
  | ep_get_data => 4
  | ep_slow_endpoint => 1
  | ep_error_endpoint => 1
  | ep_home | ep_health | ep_system_info => 0
  end.

Fixpoint string_forall (P : ascii -> bool) (s : string) : bool :=
  match s with
  | EmptyString => true
  | String c rest => P c && string_forall P rest
  end.

Fixpoint string_exists (P : ascii -> bool) (s : string) : bool :=
  match s with
  | EmptyString => false
  | String c rest => P c || string_exists P rest
  end.

(** The characters an integer literal is made of. *)
Definition int_char (c : ascii) : bool :=
  is_digit c || is_space c || Ascii.eqb c "+" || Ascii.eqb c "-"
  || Ascii.eqb c "_".

Definition system_response (cpu : Float.float)
    (memory disk network : list (string * json)) (now : datetime) : Response :=
  mkResponse 200 (JObj [("cpu_percent", JFloat cpu);
                        ("memory", JObj memory);
                        ("disk", JObj disk);
                        ("network", JObj network);
                        ("timestamp", JStr (isoformat now))]).

(** A computation that leaves the state related to the one it found. *)
Definition keeps {A : Type} (R : St -> St -> Prop) (m : M A) : Prop :=
  forall (env : Env) (st : St), R st (snd (m env st)).

Definition same_generator (st st' : St) : Prop :=
  rng_tape st' = rng_tape st /\ rng_pos st' = rng_pos st.

Definition same_generator_and_log (st st' : St) : Prop :=
  same_generator st st' /\ slept st' = slept st.

(** A computation whose results are JSON objects with status 200. *)
Definition returns_200 (m : M Response) : Prop :=
  forall (env : Env) (st st' : St) (r : Response),
    m env st = (Ok r, st') ->
    status r = 200 /\ exists fields, body r = JObj fields.

(** ** Sample failures of the sensors *)

Definition AccessDenied : exn :=
  mkExn "AccessDenied" "psutil.AccessDenied (pid=4242)".

(** The creation time and the CPU times of the process cannot be read,
    and the platform reports no network interface. *)
Definition sample_env_denied : Env :=
  mkEnv (clock_time sample_env) sample_now 4242
        (Raise AccessDenied)
        (Ok 35000320)
        (Raise AccessDenied)
        (Ok [Float.mk 40 0; Float.mk 10 0; Float.mk 350 0])
        (Ok [Float.mk 41 0; Float.mk 10 0; Float.mk 353 0])
        (Ok (mkSvmem 8589934592 []))
        (fun _ => Ok [("total", JInt 500107862016)])
        (Ok []).
(* ================================================================== *)
(** * Facts about floats *)
(* ================================================================== *)

Module FloatFacts.
Import Float.

Lemma pow2_pos (n : Z) : 0 <= n -> 0 < 2 ^ n.
Proof. intros; apply Z.pow_pos_nonneg; lia. Qed.

Lemma pow2_split (a b : Z) : 0 <= a -> 0 <= b -> 2 ^ (a + b) = 2 ^ a * 2 ^ b.
Proof. intros; apply Z.pow_add_r; lia. Qed.

Lemma scaled_lower (x : float) (e e0 : Z) :
  e0 <= e -> e <= expo x -> scaled x e0 = scaled x e * 2 ^ (e - e0).
Proof.
  intros H0 H1. unfold scaled.
  replace (expo x - e0) with ((expo x - e) + (e - e0)) by lia.
  rewrite pow2_split by lia. ring.
Qed.

Lemma le_scaled (x y : float) (e0 : Z) :
  e0 <= expo x -> e0 <= expo y ->
  (le x y <-> scaled x e0 <= scaled y e0).
Proof.
  intros Hx Hy. unfold le, leb.
  set (e := Z.min (expo x) (expo y)).
  rewrite Z.leb_le.
  rewrite (scaled_lower x e e0), (scaled_lower y e e0) by (unfold e; lia).
  assert (0 < 2 ^ (e - e0)) by (apply pow2_pos; unfold e; lia).
  split; intros; nia.
Qed.

Lemma lt_scaled (x y : float) (e0 : Z) :
  e0 <= expo x -> e0 <= expo y ->
  (lt x y <-> scaled x e0 < scaled y e0).
Proof.
  intros Hx Hy. unfold lt, ltb.
  set (e := Z.min (expo x) (expo y)).
  rewrite Z.ltb_lt.
  rewrite (scaled_lower x e e0), (scaled_lower y e e0) by (unfold e; lia).
  assert (0 < 2 ^ (e - e0)) by (apply pow2_pos; unfold e; lia).
  split; intros; nia.
Qed.

Lemma le_refl (x : float) : le x x.
Proof. apply (le_scaled x x (expo x)); lia. Qed.

Lemma le_trans (x y z : float) : le x y -> le y z -> le x z.
Proof.
  intros Hxy Hyz.
  pose (e0 := Z.min (expo x) (Z.min (expo y) (expo z))).
  assert (Hx : e0 <= expo x) by (unfold e0; lia).
  assert (Hy : e0 <= expo y) by (unfold e0; lia).
  assert (Hz : e0 <= expo z) by (unfold e0; lia).
  apply (le_scaled x y e0 Hx Hy) in Hxy.
  apply (le_scaled y z e0 Hy Hz) in Hyz.
  apply (le_scaled x z e0 Hx Hz). lia.
Qed.

Lemma digits_pos (m : Z) :
  0 < m -> 0 < digits m /\ 2 ^ (digits m - 1) <= m < 2 ^ digits m.
Proof.
  intros Hm. unfold digits.
  destruct (Z.eqb_spec m 0) as [->|_]; [lia|].
  rewrite Z.abs_eq by lia.
  pose proof (Z.log2_nonneg m).
  pose proof (Z.log2_spec m Hm) as [H1 H2].
  replace (Z.log2 m + 1 - 1) with (Z.log2 m) by lia.
  replace (Z.log2 m + 1) with (Z.succ (Z.log2 m)) by lia.
  lia.
Qed.

Lemma digits_0 : digits 0 = 0.
Proof. reflexivity. Qed.

Lemma digits_nonneg (m : Z) : 0 <= digits m.
Proof.
  unfold digits. destruct (m =? 0); [lia|].
  pose proof (Z.log2_nonneg (Z.abs m)). lia.
Qed.

Lemma digits_le (m1 m2 : Z) : 0 <= m1 <= m2 -> digits m1 <= digits m2.
Proof.
  intros H. unfold digits.
  destruct (Z.eqb_spec m1 0) as [->|N1].
  - destruct (m2 =? 0); [lia|]. pose proof (Z.log2_nonneg (Z.abs m2)). lia.
  - destruct (Z.eqb_spec m2 0) as [->|N2]; [lia|].
    rewrite !Z.abs_eq by lia.
    pose proof (Z.log2_le_mono m1 m2). lia.
Qed.

Lemma digits_shift (m k : Z) : 0 < m -> 0 <= k -> digits (m * 2 ^ k) = digits m + k.
Proof.
  intros Hm Hk. unfold digits.
  pose proof (pow2_pos k Hk).
  destruct (Z.eqb_spec (m * 2 ^ k) 0) as [E|_]; [nia|].
  destruct (Z.eqb_spec m 0) as [E|_]; [lia|].
  rewrite !Z.abs_eq by nia.
  rewrite Z.log2_mul_pow2 by lia. lia.
Qed.

(** ** Rounding to nearest, ties to even *)

Lemma rne_bounds (m s : Z) :
  m / 2 ^ s <= rne m s <= m / 2 ^ s + 1.
Proof.
  unfold rne.
  destruct (m mod 2 ^ s <? 2 ^ (s - 1)); [lia|].
  destruct (2 ^ (s - 1) <? m mod 2 ^ s); [lia|].
  destruct (Z.even (m / 2 ^ s)); lia.
Qed.

Lemma rne_exact (q s : Z) : 0 < s -> rne (q * 2 ^ s) s = q.
Proof.
  intros Hs. unfold rne.
  pose proof (pow2_pos s ltac:(lia)).
  pose proof (pow2_pos (s - 1) ltac:(lia)).
  rewrite Z.div_mul, Z.mod_mul by lia.
  destruct (Z.ltb_spec 0 (2 ^ (s - 1))); lia.
Qed.

Lemma rne_mono (m1 m2 s : Z) :
  0 <= s -> m1 <= m2 -> rne m1 s <= rne m2 s.
Proof.
  intros Hs Hm.
  pose proof (pow2_pos s Hs) as Hp.
  pose proof (Z.div_le_mono m1 m2 (2 ^ s) Hp Hm) as Hq.
  destruct (Z.eq_dec (m1 / 2 ^ s) (m2 / 2 ^ s)) as [E|N].
  - pose proof (Z.div_mod m1 (2 ^ s) ltac:(lia)) as D1.
    pose proof (Z.div_mod m2 (2 ^ s) ltac:(lia)) as D2.
    assert (m1 mod 2 ^ s <= m2 mod 2 ^ s) by (rewrite E in D1; lia).
    unfold rne. rewrite E.
    destruct (Z.ltb_spec (m1 mod 2 ^ s) (2 ^ (s - 1)));
      destruct (Z.ltb_spec (m2 mod 2 ^ s) (2 ^ (s - 1)));
      destruct (Z.ltb_spec (2 ^ (s - 1)) (m1 mod 2 ^ s));
      destruct (Z.ltb_spec (2 ^ (s - 1)) (m2 mod 2 ^ s));
      destruct (Z.even (m2 / 2 ^ s)); lia.
  - pose proof (rne_bounds m1 s). pose proof (rne_bounds m2 s). lia.
Qed.

Lemma rne_shift (m s k : Z) :
  0 < s -> 0 <= k -> rne (m * 2 ^ k) (s + k) = rne m s.
Proof.
  intros Hs Hk. unfold rne.
  pose proof (pow2_pos s ltac:(lia)) as Hps.
  pose proof (pow2_pos k Hk) as Hpk.
  pose proof (pow2_pos (s - 1) ltac:(lia)) as Hph.
  rewrite (pow2_split s k) by lia.
  replace (s + k - 1) with ((s - 1) + k) by lia.
  rewrite (pow2_split (s - 1) k) by lia.
  rewrite Z.div_mul_cancel_r by lia.
  rewrite Z.mul_mod_distr_r by lia.
  set (r := m mod 2 ^ s). set (h := 2 ^ (s - 1)).
  destruct (Z.ltb_spec r h); destruct (Z.ltb_spec (r * 2 ^ k) (h * 2 ^ k));
    try nia.
  destruct (Z.ltb_spec h r); destruct (Z.ltb_spec (h * 2 ^ k) (r * 2 ^ k));
    try nia; reflexivity.
Qed.

(** ** [round] *)

Lemma round_small (m e : Z) : digits m <= prec -> round m e = mk m e.
Proof.
  intros H. unfold round.
  destruct (Z.leb_spec (digits m - prec) 0); [reflexivity | lia].
Qed.

Lemma round_big (m e : Z) :
  0 < m -> prec < digits m ->
  round m e = mk (rne m (digits m - prec)) (e + (digits m - prec)).
Proof.
  intros Hm H. unfold round.
  destruct (Z.leb_spec (digits m - prec) 0); [lia|].
  rewrite Z.sgn_pos, Z.abs_eq by lia. f_equal. lia.
Qed.

Lemma rne_range (m : Z) :
  0 < m -> prec < digits m ->
  2 ^ (prec - 1) <= rne m (digits m - prec) <= 2 ^ prec.
Proof.
  intros Hm H.
  destruct (digits_pos m Hm) as [_ [Hlo Hhi]].
  set (s := digits m - prec) in *.
  pose proof (pow2_pos s ltac:(unfold s; lia)) as Hps.
  assert (E1 : 2 ^ (digits m - 1) = 2 ^ (prec - 1) * 2 ^ s).
  { replace (digits m - 1) with ((prec - 1) + s) by (unfold s; lia).
    apply pow2_split; unfold s, prec in *; lia. }
  assert (E2 : 2 ^ digits m = 2 ^ prec * 2 ^ s).
  { replace (digits m) with (prec + s) at 1 by (unfold s; lia).
    apply pow2_split; unfold s, prec in *; lia. }
  assert (2 ^ (prec - 1) <= m / 2 ^ s).
  { apply Z.div_le_lower_bound; lia. }
  assert (m / 2 ^ s < 2 ^ prec).
  { apply Z.div_lt_upper_bound; lia. }
  pose proof (rne_bounds m s). lia.
Qed.

Lemma round_nonneg (m e : Z) : 0 <= m -> 0 <= mant (round m e).
Proof.
  intros Hm. unfold round.
  destruct (Z.leb_spec (digits m - prec) 0); simpl; [lia|].
  assert (0 < m).
  { destruct (Z.eq_dec m 0) as [->|]; [rewrite digits_0 in *; unfold prec in *; lia | lia]. }
  rewrite Z.sgn_pos, Z.abs_eq by lia.
  pose proof (rne_bounds m (digits m - prec)).
  pose proof (pow2_pos (digits m - prec) ltac:(lia)).
  pose proof (Z.div_pos m (2 ^ (digits m - prec)) ltac:(lia) ltac:(lia)).
  lia.
Qed.

Lemma round_expo (m e : Z) : e <= expo (round m e).
Proof.
  unfold round. destruct (Z.leb_spec (digits m - prec) 0); simpl; lia.
Qed.

(** Rounding does not depend on the representation of the exact value. *)
Lemma round_scale (m e k : Z) :
  0 <= m -> 0 <= k ->
  scaled (round (m * 2 ^ k) (e - k)) (e - k) = scaled (round m e) (e - k).
Proof.
  intros Hm Hk.
  pose proof (pow2_pos k Hk) as Hpk.
  destruct (Z.eq_dec m 0) as [->|Hm0].
  { rewrite Z.mul_0_l. rewrite !round_small by (rewrite digits_0; unfold prec; lia).
    unfold scaled; simpl; lia. }
  assert (Hmp : 0 < m) by lia.
  pose proof (digits_shift m k Hmp Hk) as Hd.
  destruct (digits_pos m Hmp) as [Hdp _].
  destruct (Z.le_gt_cases (digits m) prec) as [Hs|Hs].
  - rewrite (round_small m e Hs).
    destruct (Z.le_gt_cases (digits m + k) prec) as [Hs'|Hs'].
    + rewrite round_small by lia. unfold scaled; simpl.
      replace (e - k - (e - k)) with 0 by lia.
      replace (e - (e - k)) with k by lia. rewrite Z.pow_0_r. lia.
    + rewrite round_big by nia || lia.
      rewrite Hd. set (s := digits m + k - prec).
      assert (Hsk : 0 < s <= k) by (unfold s; lia).
      replace (m * 2 ^ k) with ((m * 2 ^ (k - s)) * 2 ^ s).
      2:{ rewrite <- Z.mul_assoc, <- pow2_split by lia. do 2 f_equal; lia. }
      rewrite rne_exact by lia.
      unfold scaled; simpl.
      replace (e - k + s - (e - k)) with s by lia.
      replace (e - (e - k)) with k by lia.
      rewrite <- Z.mul_assoc, <- pow2_split by lia. do 2 f_equal; lia.
  - rewrite (round_big m e) by lia.
    rewrite round_big by nia || lia.
    rewrite Hd.
    replace (digits m + k - prec) with ((digits m - prec) + k) by lia.
    rewrite rne_shift by lia.
    unfold scaled; simpl. do 2 f_equal. lia.
Qed.

Lemma round_mono_same_expo (m1 m2 e : Z) :
  0 <= m1 <= m2 -> le (round m1 e) (round m2 e).
Proof.
  intros [H1 H12].
  pose proof (round_expo m1 e) as X1. pose proof (round_expo m2 e) as X2.
  apply (le_scaled _ _ e X1 X2).
  destruct (Z.eq_dec m1 0) as [->|Hm0].
  { rewrite (round_small 0) by (rewrite digits_0; unfold prec; lia).
    unfold scaled at 1; simpl.
    pose proof (round_nonneg m2 e H12).
    unfold scaled. pose proof (pow2_pos (expo (round m2 e) - e) ltac:(lia)). nia. }
  assert (P1 : 0 < m1) by lia. assert (P2 : 0 < m2) by lia.
  pose proof (digits_le m1 m2 ltac:(lia)) as Hd.
  destruct (digits_pos m1 P1) as [_ [L1 U1]].
  destruct (digits_pos m2 P2) as [_ [L2 U2]].
  destruct (Z.le_gt_cases (digits m2) prec) as [S2|S2].
  - rewrite !round_small by lia. unfold scaled; simpl.
    rewrite Z.sub_diag, Z.pow_0_r. lia.
  - rewrite (round_big m2 e P2 S2).
    pose proof (rne_range m2 P2 S2) as R2.
    set (s2 := digits m2 - prec) in *.
    assert (E2 : 2 ^ (digits m2 - 1) = 2 ^ (prec - 1) * 2 ^ s2).
    { replace (digits m2 - 1) with ((prec - 1) + s2) by (unfold s2; lia).
      apply pow2_split; unfold s2, prec in *; lia. }
    pose proof (pow2_pos s2 ltac:(unfold s2; lia)) as Hp2.
    destruct (Z.le_gt_cases (digits m1) prec) as [S1|S1].
    + rewrite (round_small m1 e S1). unfold scaled; simpl.
      rewrite Z.sub_diag, Z.pow_0_r.
      replace (e + s2 - e) with s2 by lia.
      assert (m1 < 2 ^ (digits m2 - 1)).
      { apply Z.lt_le_trans with (2 ^ digits m1); [lia|].
        apply Z.pow_le_mono_r; lia. }
      nia.
    + rewrite (round_big m1 e P1 S1).
      pose proof (rne_range m1 P1 S1) as R1.
      set (s1 := digits m1 - prec) in *.
      pose proof (pow2_pos s1 ltac:(unfold s1; lia)) as Hp1.
      unfold scaled; simpl.
      replace (e + s1 - e) with s1 by lia.
      replace (e + s2 - e) with s2 by lia.
      destruct (Z.eq_dec (digits m1) (digits m2)) as [E|N].
      * assert (s1 = s2) as -> by (unfold s1, s2; lia).
        pose proof (rne_mono m1 m2 s2 ltac:(lia) H12). nia.
      * assert (s1 + 1 <= s2) by (unfold s1, s2; lia).
        assert (2 ^ s1 * 2 <= 2 ^ s2).
        { replace (2 ^ s1 * 2) with (2 ^ (s1 + 1)) by (rewrite pow2_split by lia; lia).
          apply Z.pow_le_mono_r; lia. }
        assert (E3 : 2 ^ prec = 2 ^ (prec - 1) * 2) by reflexivity.
        nia.
Qed.

Lemma round_mono (x y : float) :
  0 <= mant x -> le x y ->
  le (round (mant x) (expo x)) (round (mant y) (expo y)).
Proof.
  intros Hx Hxy.
  pose (e := Z.min (expo x) (expo y)).
  assert (Ex : e <= expo x) by (unfold e; lia).
  assert (Ey : e <= expo y) by (unfold e; lia).
  apply (le_scaled x y e Ex Ey) in Hxy. unfold scaled in Hxy.
  pose proof (pow2_pos (expo x - e) ltac:(lia)) as Px.
  pose proof (pow2_pos (expo y - e) ltac:(lia)) as Py.
  assert (Hy : 0 <= mant y) by nia.
  pose proof (round_scale (mant x) (expo x) (expo x - e) Hx ltac:(lia)) as Sx.
  pose proof (round_scale (mant y) (expo y) (expo y - e) Hy ltac:(lia)) as Sy.
  replace (expo x - (expo x - e)) with e in Sx by lia.
  replace (expo y - (expo y - e)) with e in Sy by lia.
  pose proof (round_mono_same_expo (mant x * 2 ^ (expo x - e))
                (mant y * 2 ^ (expo y - e)) e ltac:(nia)) as Hm.
  apply (le_scaled _ _ e (round_expo _ _) (round_expo _ _)) in Hm.
  pose proof (round_expo (mant x) (expo x)).
  pose proof (round_expo (mant y) (expo y)).
  apply (le_scaled _ _ e); lia.
Qed.

Lemma round_pos (m e : Z) : 0 < m -> 0 < mant (round m e).
Proof.
  intros Hm.
  destruct (Z.le_gt_cases (digits m) prec) as [S|S].
  - rewrite round_small by lia. simpl. lia.
  - rewrite round_big by lia. simpl.
    pose proof (rne_range m Hm S).
    pose proof (pow2_pos (prec - 1) ltac:(unfold prec; lia)). lia.
Qed.

Lemma nonneg_le_zero (x : float) : 0 <= mant x <-> le zero x.
Proof.
  pose (e := Z.min 0 (expo x)).
  assert (E0 : e <= expo zero) by (simpl; unfold e; lia).
  assert (Ex : e <= expo x) by (unfold e; lia).
  rewrite (le_scaled zero x e E0 Ex). unfold scaled. simpl.
  pose proof (pow2_pos (expo x - e) ltac:(lia)). split; intros; nia.
Qed.

Lemma ltb_zero_nonneg (x : float) : 0 <= mant x -> ltb x zero = false.
Proof.
  intros H. unfold ltb, scaled. simpl.
  apply Z.ltb_ge.
  pose proof (pow2_pos (expo x - Z.min (expo x) 0) ltac:(lia)). nia.
Qed.

(** ** The operations are monotone on non-negative values *)

Lemma add_nonneg (x y : float) :
  0 <= mant x -> 0 <= mant y -> 0 <= mant (add x y).
Proof.
  intros Hx Hy. unfold add. apply round_nonneg. unfold scaled.
  pose proof (pow2_pos (expo x - Z.min (expo x) (expo y)) ltac:(lia)).
  pose proof (pow2_pos (expo y - Z.min (expo x) (expo y)) ltac:(lia)).
  nia.
Qed.

Lemma add_mono (x y x' y' : float) :
  0 <= mant x -> 0 <= mant y -> le x x' -> le y y' ->
  le (add x y) (add x' y').
Proof.
  intros Hx Hy Lx Ly. unfold add.
  set (e := Z.min (expo x) (expo y)). set (e' := Z.min (expo x') (expo y')).
  pose (e0 := Z.min e e').
  apply (le_scaled x x' e0) in Lx; try (unfold e0, e, e'; lia).
  apply (le_scaled y y' e0) in Ly; try (unfold e0, e, e'; lia).
  apply (round_mono (mk (scaled x e + scaled y e) e)
                    (mk (scaled x' e' + scaled y' e') e')).
  - simpl. unfold scaled.
    pose proof (pow2_pos (expo x - e) ltac:(unfold e; lia)).
    pose proof (pow2_pos (expo y - e) ltac:(unfold e; lia)). nia.
  - apply (le_scaled _ _ e0); simpl; try (unfold e0; lia).
    unfold scaled at 1 4. simpl.
    rewrite !Z.mul_add_distr_r.
    rewrite <- (scaled_lower x e e0), <- (scaled_lower y e e0),
            <- (scaled_lower x' e' e0), <- (scaled_lower y' e' e0)
      by (unfold e0, e, e'; lia).
    lia.
Qed.

Lemma sub_nonneg (x y : float) : le y x -> 0 <= mant (sub x y).
Proof.
  intros H. unfold sub. apply round_nonneg.
  apply (le_scaled y x (Z.min (expo x) (expo y))) in H; lia.
Qed.

Lemma sub_mono_l (x x' y : float) :
  le y x -> le x x' -> le (sub x y) (sub x' y).
Proof.
  intros Lyx Lx. unfold sub.
  set (e := Z.min (expo x) (expo y)). set (e' := Z.min (expo x') (expo y)).
  pose (e0 := Z.min e e').
  apply (le_scaled x x' e0) in Lx; try (unfold e0, e, e'; lia).
  apply (round_mono (mk (scaled x e - scaled y e) e)
                    (mk (scaled x' e' - scaled y e') e')).
  - simpl. apply (le_scaled y x e) in Lyx; [lia | unfold e; lia ..].
  - apply (le_scaled _ _ e0); simpl; try (unfold e0; lia).
    unfold scaled at 1 4. simpl.
    rewrite !Z.mul_sub_distr_r.
    rewrite <- (scaled_lower x e e0), <- !(scaled_lower y e e0),
            <- (scaled_lower x' e' e0), <- (scaled_lower y e' e0)
      by (unfold e0, e, e'; lia).
    lia.
Qed.

Lemma mul_nonneg (x y : float) :
  0 <= mant x -> 0 <= mant y -> 0 <= mant (mul x y).
Proof. intros. unfold mul. apply round_nonneg. nia. Qed.

Lemma mul_mono (x y x' y' : float) :
  0 <= mant x -> 0 <= mant y -> le x x' -> le y y' ->
  le (mul x y) (mul x' y').
Proof.
  intros Hx Hy Lx Ly. unfold mul.
  pose (a := Z.min (expo x) (expo x')). pose (b := Z.min (expo y) (expo y')).
  apply (le_scaled x x' a) in Lx; try (unfold a; lia).
  apply (le_scaled y y' b) in Ly; try (unfold b; lia).
  unfold scaled in Lx, Ly.
  pose proof (pow2_pos (expo x - a) ltac:(unfold a; lia)) as P1.
  pose proof (pow2_pos (expo y - b) ltac:(unfold b; lia)) as P2.
  pose proof (pow2_pos (expo x' - a) ltac:(unfold a; lia)) as P3.
  pose proof (pow2_pos (expo y' - b) ltac:(unfold b; lia)) as P4.
  apply (round_mono (mk (mant x * mant y) (expo x + expo y))
                    (mk (mant x' * mant y') (expo x' + expo y'))).
  - simpl. nia.
  - apply (le_scaled _ _ (a + b)); simpl; try (unfold a, b; lia).
    unfold scaled. simpl.
    replace (expo x + expo y - (a + b)) with ((expo x - a) + (expo y - b)) by lia.
    replace (expo x' + expo y' - (a + b)) with ((expo x' - a) + (expo y' - b)) by lia.
    rewrite !pow2_split by (unfold a, b; lia).
    set (A := mant x * 2 ^ (expo x - a)) in *.
    set (B := mant y * 2 ^ (expo y - b)) in *.
    set (A' := mant x' * 2 ^ (expo x' - a)) in *.
    set (B' := mant y' * 2 ^ (expo y' - b)) in *.
    replace (mant x * mant y * (2 ^ (expo x - a) * 2 ^ (expo y - b))) with (A * B)
      by (unfold A, B; ring).
    replace (mant x' * mant y' * (2 ^ (expo x' - a) * 2 ^ (expo y' - b))) with (A' * B')
      by (unfold A', B'; ring).
    assert (0 <= A) by (unfold A; nia). assert (0 <= B) by (unfold B; nia).
    nia.
Qed.

Lemma one_eq : one = mk 1 0.
Proof. reflexivity. Qed.

(** A quotient of non-negative values, the dividend not above the
    divisor, lies in [[0, 1]]. *)
Lemma div_unit_interval (x y : float) :
  0 <= mant x -> 0 < mant y -> le x y ->
  0 <= mant (div x y) /\ le (div x y) one.
Proof.
  intros Hx Hy Hxy. unfold div.
  rewrite (Z.abs_eq (mant x)), (Z.abs_eq (mant y)), (Z.sgn_pos (mant y)) by lia.
  set (a := mant x) in *. set (b := mant y) in *.
  set (k := Z.max 0 (prec + 2 + digits b - digits a)).
  set (n := a * 2 ^ k). set (q := n / b).
  set (sticky := if n mod b =? 0 then 0 else 1).
  set (E := expo x - expo y - k - 1).
  assert (Hk : 0 <= k) by (unfold k; lia).
  pose proof (pow2_pos k Hk) as Pk.
  assert (Hq : 0 <= q) by (apply Z.div_pos; unfold n; nia).
  assert (Hs : 0 <= sticky <= 1) by (unfold sticky; destruct (n mod b =? 0); lia).
  destruct (Z.eq_dec a 0) as [A0|A0].
  { rewrite A0. rewrite Z.sgn_0, !Z.mul_0_l. rewrite round_small by (rewrite digits_0; unfold prec; lia).
    cbn [mant expo]. split; [lia|]. rewrite one_eq.
    apply (le_scaled _ _ (Z.min E 0)); cbn [mant expo]; try lia.
    unfold scaled; cbn [mant expo].
    pose proof (pow2_pos (0 - Z.min E 0) ltac:(lia)). lia. }
  assert (Ap : 0 < a) by lia.
  rewrite Z.sgn_pos by lia.
  replace (1 * 1 * (2 * q + sticky)) with (2 * q + sticky) by lia.
  split; [apply round_nonneg; lia|].
  rewrite one_eq. change (mk 1 0) with (round (mant (mk 1 0)) (expo (mk 1 0))).
  apply (round_mono (mk (2 * q + sticky) E) (mk 1 0)); [cbn [mant expo]; lia|].
  (* the exact quotient is at most one *)
  pose (T := k + expo y - expo x).
  destruct (digits_pos a Ap) as [Dap [La Ua]].
  destruct (digits_pos b Hy) as [Db [Lb Ub]].
  pose proof (digits_nonneg a) as Da.
  assert (HT : 0 <= T /\ n <= b * 2 ^ T).
  { destruct (Z.le_gt_cases (expo y) (expo x)) as [C|C].
    - apply (le_scaled x y (expo y)) in Hxy; [|lia..].
      unfold scaled in Hxy. fold a b in Hxy.
      rewrite Z.sub_diag, Z.pow_0_r, Z.mul_1_r in Hxy.
      set (d := expo x - expo y) in *.
      pose proof (pow2_pos d ltac:(unfold d; lia)) as Pd.
      assert (d <= k).
      { destruct (Z.le_gt_cases d k) as [|G]; [assumption|exfalso].
        assert (2 ^ (k + 1) <= 2 ^ d) by (apply Z.pow_le_mono_r; lia).
        assert (2 ^ (digits a - 1) * 2 ^ (k + 1) <= a * 2 ^ d).
        { pose proof (pow2_pos (k + 1) ltac:(lia)).
          pose proof (pow2_pos (digits a - 1) ltac:(lia)).
          nia. }
        assert (G2 : digits b <= digits a - 1 + (k + 1) - 1) by (unfold k, prec; lia).
        rewrite <- pow2_split in * by lia.
        assert (2 ^ digits b <= 2 ^ (digits a - 1 + (k + 1))) by (apply Z.pow_le_mono_r; lia).
        lia. }
      split; [unfold T, d in *; lia|].
      unfold n. replace k with (d + T) by (unfold T, d; lia).
      rewrite pow2_split by (unfold T, d in *; lia).
      pose proof (pow2_pos T ltac:(unfold T, d in *; lia)). nia.
    - apply (le_scaled x y (expo x)) in Hxy; [|lia..].
      unfold scaled in Hxy. fold a b in Hxy.
      rewrite Z.sub_diag, Z.pow_0_r, Z.mul_1_r in Hxy.
      split; [unfold T; lia|].
      unfold n. unfold T.
      replace (k + expo y - expo x) with ((expo y - expo x) + k) by lia.
      rewrite pow2_split by lia. nia. }
  destruct HT as [HT Hn].
  pose proof (pow2_pos T HT) as PT.
  assert (Hq2 : 2 * q + sticky <= 2 * 2 ^ T).
  { assert (q <= 2 ^ T) by (apply Z.div_le_upper_bound; lia).
    destruct (Z.eq_dec q (2 ^ T)) as [Eq|Nq]; [|lia].
    pose proof (Z.div_mod n b ltac:(lia)) as D. fold q in D.
    pose proof (Z.mod_pos_bound n b Hy).
    assert (n mod b = 0) by nia.
    unfold sticky. destruct (Z.eqb_spec (n mod b) 0); lia. }
  assert (EE : E = - T - 1) by (unfold E, T; lia).
  apply (le_scaled _ _ E); cbn [mant expo]; try lia.
  unfold scaled; cbn [mant expo].
  rewrite Z.sub_diag, Z.pow_0_r.
  replace (0 - E) with (1 + T) by lia.
  rewrite pow2_split by lia. change (2 ^ 1) with 2. lia.
Qed.

(** A quotient of a non-negative value by a positive one is not
    negative. *)
Lemma div_nonneg (x y : float) :
  0 <= mant x -> 0 < mant y -> 0 <= mant (div x y).
Proof.
  intros Hx Hy. unfold div.
  rewrite (Z.abs_eq (mant x)), (Z.abs_eq (mant y)), (Z.sgn_pos (mant y)) by lia.
  apply round_nonneg.
  set (k := Z.max 0 (prec + 2 + digits (mant y) - digits (mant x))).
  assert (Hk : 0 <= k) by (unfold k; lia).
  pose proof (pow2_pos k Hk) as Pk.
  assert (Hq : 0 <= mant x * 2 ^ k / mant y) by (apply Z.div_pos; nia).
  assert (Hs : 0 <= (if mant x * 2 ^ k mod mant y =? 0 then 0 else 1))
    by (destruct (mant x * 2 ^ k mod mant y =? 0); lia).
  assert (Hg : 0 <= Z.sgn (mant x)) by (apply Z.sgn_nonneg; exact Hx).
  nia.
Qed.

(** A quotient of a value by a positive one not above it is at least
    one. *)
Lemma div_ge_one (x y : float) :
  0 < mant y -> le y x -> le one (div x y).
Proof.
  intros Hy Hyx.
  assert (Ap : 0 < mant x).
  { pose (e := Z.min (expo y) (expo x)).
    apply (le_scaled y x e) in Hyx; [|unfold e; lia..].
    unfold scaled in Hyx.
    pose proof (pow2_pos (expo y - e) ltac:(unfold e; lia)).
    pose proof (pow2_pos (expo x - e) ltac:(unfold e; lia)).
    nia. }
  unfold div.
  rewrite (Z.abs_eq (mant x)), (Z.abs_eq (mant y)), (Z.sgn_pos (mant y)),
    (Z.sgn_pos (mant x)) by lia.
  set (a := mant x) in *. set (b := mant y) in *.
  set (k := Z.max 0 (prec + 2 + digits b - digits a)).
  set (n := a * 2 ^ k). set (q := n / b).
  set (sticky := if n mod b =? 0 then 0 else 1).
  set (E := expo x - expo y - k - 1).
  assert (Hk : 0 <= k) by (unfold k; lia).
  pose proof (pow2_pos k Hk) as Pk.
  assert (Hn : 0 < n) by (unfold n; nia).
  assert (Hq : 0 <= q) by (apply Z.div_pos; lia).
  assert (Hs : 0 <= sticky <= 1) by (unfold sticky; destruct (n mod b =? 0); lia).
  assert (Hqs : 1 <= 2 * q + sticky).
  { destruct (Z.eq_dec q 0) as [Q0|]; [|lia].
    pose proof (Z.div_mod n b ltac:(lia)) as D. fold q in D. rewrite Q0 in D.
    unfold sticky. destruct (Z.eqb_spec (n mod b) 0); lia. }
  replace (1 * 1 * (2 * q + sticky)) with (2 * q + sticky) by lia.
  rewrite one_eq. change (mk 1 0) with (round (mant (mk 1 0)) (expo (mk 1 0))).
  apply (round_mono (mk 1 0) (mk (2 * q + sticky) E)); [cbn [mant]; lia|].
  pose (T := k + expo y - expo x).
  assert (EE : E = - T - 1) by (unfold E, T; lia).
  destruct (Z.le_gt_cases 0 T) as [HT|HT].
  - (* the quotient has T fractional bits *)
    pose proof (pow2_pos T HT) as PT.
    assert (Hnb : b * 2 ^ T <= n).
    { destruct (Z.le_gt_cases (expo y) (expo x)) as [C|C].
      - apply (le_scaled y x (expo y)) in Hyx; [|lia..].
        unfold scaled in Hyx. fold a b in Hyx.
        rewrite Z.sub_diag, Z.pow_0_r, Z.mul_1_r in Hyx.
        set (d := expo x - expo y) in *.
        unfold n. replace k with (d + T) by (unfold T, d; lia).
        rewrite pow2_split by (unfold d; lia).
        pose proof (pow2_pos d ltac:(unfold d; lia)). nia.
      - apply (le_scaled y x (expo x)) in Hyx; [|lia..].
        unfold scaled in Hyx. fold a b in Hyx.
        rewrite Z.sub_diag, Z.pow_0_r, Z.mul_1_r in Hyx.
        unfold n, T.
        replace (k + expo y - expo x) with ((expo y - expo x) + k) by lia.
        rewrite pow2_split by lia. nia. }
    assert (Hq2 : 2 ^ T <= q) by (apply Z.div_le_lower_bound; lia).
    apply (le_scaled _ _ E); cbn [mant expo]; try lia.
    unfold scaled; cbn [mant expo].
    rewrite Z.sub_diag, Z.pow_0_r.
    replace (0 - E) with (1 + T) by lia.
    rewrite pow2_split by lia. change (2 ^ 1) with 2. lia.
  - apply (le_scaled _ _ 0); cbn [mant expo]; try lia.
    unfold scaled; cbn [mant expo].
    rewrite Z.sub_diag, Z.pow_0_r.
    pose proof (pow2_pos (E - 0) ltac:(lia)). nia.
Qed.

Lemma of_Z_mono (a b : Z) : 0 <= a <= b -> le (of_Z a) (of_Z b).
Proof. intros H. unfold of_Z. apply round_mono_same_expo. exact H. Qed.
End FloatFacts.

(* ================================================================== *)
(** * [isoformat] produces well-formed ISO-8601 *)
(* ================================================================== *)

Lemma dec_digits_fuel (f1 : nat) :
  forall (f2 : nat) (n : Z) (acc : string),
    0 <= n < 2 ^ Z.of_nat (S f1) -> 0 <= n < 2 ^ Z.of_nat (S f2) ->
    dec_digits (S f1) n acc = dec_digits (S f2) n acc.
Proof.
  induction f1 as [|f1 IH]; intros f2 n acc H1 H2.
  - change (2 ^ Z.of_nat 1) with 2 in H1.
    cbn [dec_digits]. destruct (Z.ltb_spec n 10); [reflexivity | lia].
  - cbn [dec_digits]. destruct (Z.ltb_spec n 10) as [|G]; [reflexivity|].
    destruct f2 as [|f2].
    { change (2 ^ Z.of_nat 1) with 2 in H2. lia. }
    rewrite Nat2Z.inj_succ, Z.pow_succ_r in H1, H2 by lia.
    apply IH; split; try (apply Z.div_pos; lia);
      apply Z.div_lt_upper_bound; lia.
Qed.

Lemma str_of_nonneg_fuel (f : nat) (n : Z) :
  0 <= n < 2 ^ Z.of_nat (S f) -> str_of_nonneg n = dec_digits (S f) n EmptyString.
Proof.
  intros H. unfold str_of_nonneg. apply dec_digits_fuel; [|exact H].
  split; [lia|].
  destruct (Z.eq_dec n 0) as [->|N]; [reflexivity|].
  pose proof (Z.log2_nonneg n).
  rewrite Nat2Z.inj_succ, Z2Nat.id by lia.
  apply Z.log2_spec. lia.
Qed.

Lemma div10_small (n : Z) : 0 <= n < 10 -> n / 10 = 0.
Proof. intros; apply Z.div_small; lia. Qed.

Lemma div10_bounds (n b : Z) : 0 <= n < 10 * b -> 0 <= n / 10 < b.
Proof.
  intros H. split; [apply Z.div_pos; lia | apply Z.div_lt_upper_bound; lia].
Qed.

Ltac peel n :=
  cbn [dec_digits];
  destruct (Z.ltb_spec n 10);
  [ rewrite ?(div10_small n) by lia; rewrite ?Zdiv_0_l; reflexivity | ].

Lemma format_2 (n : Z) : 0 <= n < 100 -> format_0d 2 n = two_chars n.
Proof.
  intros H. unfold format_0d, two_chars.
  rewrite (str_of_nonneg_fuel 6) by (change (2 ^ Z.of_nat 7) with 128; lia).
  pose proof (div10_bounds n 10 ltac:(lia)).
  peel n. peel (n / 10). lia.
Qed.

Lemma format_4 (n : Z) : 0 <= n < 10000 -> format_0d 4 n = four_chars n.
Proof.
  intros H. unfold format_0d, four_chars, two_chars.
  rewrite (str_of_nonneg_fuel 13) by (change (2 ^ Z.of_nat 14) with 16384; lia).
  pose proof (div10_bounds n 1000 ltac:(lia)).
  pose proof (div10_bounds (n / 10) 100 ltac:(lia)).
  pose proof (div10_bounds (n / 10 / 10) 10 ltac:(lia)).
  peel n. peel (n / 10). peel (n / 10 / 10). peel (n / 10 / 10 / 10). lia.
Qed.

Lemma format_6 (n : Z) : 0 <= n < 1000000 -> format_0d 6 n = six_chars n.
Proof.
  intros H. unfold format_0d, six_chars, four_chars, two_chars.
  rewrite (str_of_nonneg_fuel 19) by (change (2 ^ Z.of_nat 20) with 1048576; lia).
  pose proof (div10_bounds n 100000 ltac:(lia)).
  pose proof (div10_bounds (n / 10) 10000 ltac:(lia)).
  pose proof (div10_bounds (n / 10 / 10) 1000 ltac:(lia)).
  pose proof (div10_bounds (n / 10 / 10 / 10) 100 ltac:(lia)).
  pose proof (div10_bounds (n / 10 / 10 / 10 / 10) 10 ltac:(lia)).
  peel n. peel (n / 10). peel (n / 10 / 10). peel (n / 10 / 10 / 10).
  peel (n / 10 / 10 / 10 / 10). peel (n / 10 / 10 / 10 / 10 / 10). lia.
Qed.

Lemma digit_cases (n : Z) :
  is_digit (digit n) = true /\ digit_val (digit n) = n mod 10.
Proof.
  unfold digit. pose proof (Z.mod_pos_bound n 10 ltac:(lia)) as B.
  set (k := n mod 10) in *.
  assert (C : k = 0 \/ k = 1 \/ k = 2 \/ k = 3 \/ k = 4 \/ k = 5 \/ k = 6
              \/ k = 7 \/ k = 8 \/ k = 9) by lia.
  repeat (destruct C as [C|C]; [rewrite C; split; reflexivity|]).
  rewrite C; split; reflexivity.
Qed.

Lemma two_digits_of (n : Z) :
  0 <= n < 100 ->
  two_digits (digit (n / 10)) (digit n) = Some n.
Proof.
  intros H. unfold two_digits.
  destruct (digit_cases (n / 10)) as [-> ->].
  destruct (digit_cases n) as [-> ->].
  cbn [andb]. f_equal.
  pose proof (div10_bounds n 10 ltac:(lia)).
  rewrite (Z.mod_small (n / 10) 10) by lia.
  pose proof (Z.div_mod n 10 ltac:(lia)). lia.
Qed.

Lemma four_digits_of (n : Z) :
  0 <= n < 10000 ->
  four_digits (digit (n / 10 / 10 / 10)) (digit (n / 10 / 10))
              (digit (n / 10)) (digit n) = Some n.
Proof.
  intros H. unfold four_digits.
  destruct (digit_cases (n / 10 / 10 / 10)) as [-> ->].
  destruct (digit_cases (n / 10 / 10)) as [-> ->].
  destruct (digit_cases (n / 10)) as [-> ->].
  destruct (digit_cases n) as [-> ->].
  cbn [andb]. f_equal.
  pose proof (div10_bounds n 1000 ltac:(lia)).
  pose proof (div10_bounds (n / 10) 100 ltac:(lia)).
  pose proof (div10_bounds (n / 10 / 10) 10 ltac:(lia)).
  rewrite (Z.mod_small (n / 10 / 10 / 10) 10) by lia.
  pose proof (Z.div_mod n 10 ltac:(lia)).
  pose proof (Z.div_mod (n / 10) 10 ltac:(lia)).
  pose proof (Z.div_mod (n / 10 / 10) 10 ltac:(lia)).
  lia.
Qed.

Lemma read_six (n : Z) :
  0 <= n < 1000000 -> read_number (six_chars n) 0 = Some n.
Proof.
  intros H. unfold six_chars, four_chars, two_chars. cbn [read_number].
  destruct (digit_cases (n / 10 / 10 / 10 / 10 / 10)) as [-> ->].
  destruct (digit_cases (n / 10 / 10 / 10 / 10)) as [-> ->].
  destruct (digit_cases (n / 10 / 10 / 10)) as [-> ->].
  destruct (digit_cases (n / 10 / 10)) as [-> ->].
  destruct (digit_cases (n / 10)) as [-> ->].
  destruct (digit_cases n) as [-> ->].
  f_equal.
  pose proof (div10_bounds n 100000 ltac:(lia)).
  pose proof (div10_bounds (n / 10) 10000 ltac:(lia)).
  pose proof (div10_bounds (n / 10 / 10) 1000 ltac:(lia)).
  pose proof (div10_bounds (n / 10 / 10 / 10) 100 ltac:(lia)).
  pose proof (div10_bounds (n / 10 / 10 / 10 / 10) 10 ltac:(lia)).
  rewrite (Z.mod_small (n / 10 / 10 / 10 / 10 / 10) 10) by lia.
  pose proof (Z.div_mod n 10 ltac:(lia)).
  pose proof (Z.div_mod (n / 10) 10 ltac:(lia)).
  pose proof (Z.div_mod (n / 10 / 10) 10 ltac:(lia)).
  pose proof (Z.div_mod (n / 10 / 10 / 10) 10 ltac:(lia)).
  pose proof (Z.div_mod (n / 10 / 10 / 10 / 10) 10 ltac:(lia)).
  lia.
Qed.

Lemma check_fields_bounds (y mo d h mi s us : Z) :
  check_fields y mo d h mi s us = true ->
  1 <= y <= 9999 /\ 1 <= mo <= 12 /\ 1 <= d <= days_in_month y mo
  /\ 0 <= h <= 23 /\ 0 <= mi <= 59 /\ 0 <= s <= 59 /\ 0 <= us <= 999999.
Proof.
  unfold check_fields, between. rewrite !andb_true_iff, !Z.leb_le. tauto.
Qed.

Lemma days_in_month_le (y m : Z) : days_in_month y m <= 31.
Proof.
  unfold days_in_month.
  destruct (m =? 2); [destruct (is_leap y); lia|].
  destruct ((m =? 4) || (m =? 6) || (m =? 9) || (m =? 11)); lia.
Qed.

Lemma isoformat_parses (d : datetime) :
  parse_iso8601 (isoformat d) = Some (fields_of d).
Proof.
  destruct d as [y mo dd h mi s us fo ok]. unfold isoformat, fields_of, format_time.
  cbn [year month day hour minute second microsecond].
  pose proof (check_fields_bounds _ _ _ _ _ _ _ ok) as (By & Bmo & Bd & Bh & Bmi & Bs & Bus).
  pose proof (days_in_month_le y mo).
  rewrite (format_4 y), (format_2 mo), (format_2 dd), (format_2 h),
          (format_2 mi), (format_2 s) by lia.
  assert (T : between 1 mo 12 && between 1 dd (days_in_month y mo)
              && between 0 h 23 && between 0 mi 59 && between 0 s 59 = true).
  { unfold between. rewrite !andb_true_iff, !Z.leb_le. lia. }
  destruct (Z.eqb_spec us 0) as [->|Nz].
  - unfold four_chars, two_chars. cbn [append parse_iso8601].
    rewrite four_digits_of, !two_digits_of by lia.
    cbn [read_fraction]. rewrite T. reflexivity.
  - rewrite (format_6 us) by lia.
    unfold four_chars at 1, two_chars at 1 2 3 4 5 6. cbn [append parse_iso8601].
    rewrite four_digits_of, !two_digits_of by lia.
    unfold six_chars at 1. cbn [read_fraction].
    change (String (digit (us / 10 / 10 / 10 / 10 / 10))
              (String (digit (us / 10 / 10 / 10 / 10)) (four_chars us)))
      with (six_chars us).
    rewrite read_six by lia. rewrite T. reflexivity.
Qed.

(* ================================================================== *)
(** * The float model against the IEEE specification *)
(* ================================================================== *)

Example ieee_uniform_1_3 :
  forallb (fun w => Float.agrees (uniform_of (Float.of_Z 1) (Float.of_Z 3) w)
                      (ieee_uniform (Float.of_Z 1) (Float.of_Z 3) w))
          sample_numerators = true.
Proof. vm_compute. reflexivity. Qed.

Example ieee_uniform_01_05 :
  forallb (fun w => Float.agrees (uniform_of Float.lit_0_1 Float.lit_0_5 w)
                      (ieee_uniform Float.lit_0_1 Float.lit_0_5 w))
          sample_numerators = true.
Proof. vm_compute. reflexivity. Qed.

Example ieee_memory_percent_agrees :
  forallb (fun p => Float.agrees (memory_percent_of (fst p) (snd p))
                      (ieee_memory_percent (fst p) (snd p)))
          sample_byte_counts = true.
Proof. vm_compute. reflexivity. Qed.

Example ieee_of_Z_agrees :
  forallb (fun p => Float.agrees (Float.of_Z (fst p)) (ieee_of_Z (fst p))
                    && Float.agrees (Float.of_Z (snd p)) (ieee_of_Z (snd p)))
          sample_byte_counts = true.
Proof. vm_compute. reflexivity. Qed.

Example ieee_uptime :
  Float.agrees (Float.sub (clock_time sample_env_later)
                          (Float.mk 7130316000000000 (-22)))
               (SFsub 53 1024 (Float.to_spec (clock_time sample_env_later))
                      (Float.to_spec (Float.mk 7130316000000000 (-22))))
  = true.
Proof. vm_compute. reflexivity. Qed.

(** Both ends of [[1, 3]] are reached: the largest numerator rounds up
    to [3.0]. *)
Example uniform_1_3_endpoints :
  Float.veq (uniform_of (Float.of_Z 1) (Float.of_Z 3) 0) (Float.of_Z 1)
  /\ Float.veq (uniform_of (Float.of_Z 1) (Float.of_Z 3) (2 ^ 53 - 1))
               (Float.of_Z 3).
Proof. split; vm_compute; reflexivity. Qed.

(* ================================================================== *)
(** * Running the collaborators *)
(* ================================================================== *)

Lemma numerator_bounds (w : Z) : 0 <= numerator w < 2 ^ 53.
Proof. unfold numerator. apply Z.mod_pos_bound. reflexivity. Qed.

Lemma numerator_small (k : Z) : 0 <= k < 2 ^ 53 -> numerator k = k.
Proof. intros H. unfold numerator. apply Z.mod_small. exact H. Qed.

Lemma next_numerator_with (st : St) (word : Z) :
  next_numerator (with_next_word st word) = numerator word.
Proof.
  unfold next_numerator, with_next_word. cbn [rng_tape rng_pos].
  rewrite Nat.eqb_refl. reflexivity.
Qed.

Lemma word_at_with_next_words (st : St) (l : list Z) (i : nat) :
  (i < List.length l)%nat ->
  word_at (with_next_words st l) i = nth i l 0.
Proof.
  intros H. unfold word_at, with_next_words. cbn [rng_tape rng_pos].
  destruct (Nat.ltb_spec (i + rng_pos st) (rng_pos st)); [lia|].
  replace (i + rng_pos st - rng_pos st)%nat with i by lia.
  apply nth_indep. exact H.
Qed.

Lemma ltb_half (k : Z) :
  Float.ltb Float.lit_0_5 (Float.mk k (-53)) = (2 ^ 52 <? k).
Proof.
  unfold Float.ltb, Float.scaled, Float.lit_0_5. cbn [Float.mant Float.expo].
  change (Z.min (-1) (-53)) with (-53).
  change (-1 - -53) with 52. change (-53 - -53) with 0.
  rewrite Z.pow_0_r, Z.mul_1_l, Z.mul_1_r. reflexivity.
Qed.

Lemma eqb_half (k : Z) :
  Float.eqb (Float.mk k (-53)) Float.lit_0_5 = (k =? 2 ^ 52).
Proof.
  unfold Float.eqb, Float.scaled, Float.lit_0_5. cbn [Float.mant Float.expo].
  change (Z.min (-53) (-1)) with (-53).
  change (-1 - -53) with 52. change (-53 - -53) with 0.
  rewrite Z.pow_0_r, Z.mul_1_l, Z.mul_1_r. reflexivity.
Qed.

Lemma uniform_nonneg (a b : Float.float) (word : Z) :
  0 <= Float.mant a -> Float.le a b ->
  0 <= Float.mant (uniform_of a b word).
Proof.
  intros Ha Hab. unfold uniform_of.
  apply FloatFacts.add_nonneg; [exact Ha|].
  apply FloatFacts.mul_nonneg; [|apply numerator_bounds].
  apply FloatFacts.sub_nonneg. exact Hab.
Qed.

(** [time.sleep(random.uniform(a, b))] for [0 <= a <= b]: one word is
    consumed and the duration is logged. *)
Lemma sleep_uniform (a b : Float.float) (env : Env) (st : St) :
  0 <= Float.mant a -> Float.le a b ->
  (d <- random_uniform a b ;; time_sleep d) env st
  = (Ok tt, log_sleep (consume st) (uniform_of a b (word_at st 0))).
Proof.
  intros Ha Hab.
  unfold random_uniform, random_random, next_word, bind, ret, time_sleep.
  fold (uniform_of a b (rng_tape st (rng_pos st))).
  rewrite FloatFacts.ltb_zero_nonneg by (apply uniform_nonneg; assumption).
  reflexivity.
Qed.

Lemma randint_eq (a b : Z) (env : Env) (st : St) :
  a <= b ->
  random_randint a b env st
  = (Ok (randint_of a b (word_at st 0)), consume st).
Proof.
  intros H. unfold random_randint.
  destruct (Z.ltb_spec 0 (b + 1 - a)); [reflexivity | lia].
Qed.

Lemma randint_range (a b word : Z) :
  a <= b -> a <= randint_of a b word <= b.
Proof.
  intros H. unfold randint_of.
  pose proof (Z.mod_pos_bound word (b + 1 - a) ltac:(lia)). lia.
Qed.

(** A [Process] object that is used twice does remember: its second
    [cpu_percent] is computed from the first sample.  The views create a
    new object for every call and never get here. *)
Remark cpu_percent_second_call (usage : cpu_usage) (self : Process)
    (before now : cpu_sample) (env : Env) (st : St) :
  last_cpu_times self = Some before ->
  sensor_cpu_times env = Ok now ->
  fst (Process_cpu_percent usage self env st)
  = Ok (process_usage usage before now, mkProcess (pid self) (Some now)).
Proof.
  intros H1 H2. unfold Process_cpu_percent, bind, sense, ret.
  rewrite H2, H1. reflexivity.
Qed.

(* ================================================================== *)
(** * The views in closed form *)
(* ================================================================== *)

Lemma error_endpoint_eq (env : Env) (st : St) :
  error_endpoint env st =
  (if 2 ^ 52 <? next_numerator st
   then Raise (Exception "Random error for testing from Flask")
   else Ok success_response,
   advance st 1).
Proof.
  unfold error_endpoint, random_random, next_word, bind, ret, raise, jsonify.
  rewrite ltb_half. unfold next_numerator.
  destruct (2 ^ 52 <? numerator (rng_tape st (rng_pos st))); reflexivity.
Qed.

Lemma lit_0_1_le_0_5 : Float.le Float.lit_0_1 Float.lit_0_5.
Proof. reflexivity. Qed.

Lemma one_le_three : Float.le (Float.of_Z 1) (Float.of_Z 3).
Proof. reflexivity. Qed.

Lemma get_data_eq (env : Env) (st : St) :
  get_data env st
  = (Ok (data_response (randint_of 100 1000 (word_at st 1))
                       (randint_of 50 500 (word_at st 2))
                       (randint_of 1000 10000 (word_at st 3))
                       (clock_now env)),
     log_sleep (advance st 4)
               (uniform_of Float.lit_0_1 Float.lit_0_5 (word_at st 0))).
Proof.
  unfold get_data.
  pose proof (sleep_uniform Float.lit_0_1 Float.lit_0_5 env st
                ltac:(cbn [Float.mant Float.lit_0_1]; lia) lit_0_1_le_0_5) as S.
  unfold bind in *.
  destruct (random_uniform Float.lit_0_1 Float.lit_0_5 env st) as [[d|e] st1];
    [|discriminate S].
  rewrite S.
  rewrite !randint_eq by lia.
  reflexivity.
Qed.

Lemma slow_endpoint_eq (env : Env) (st : St) :
  slow_endpoint env st
  = (Ok (slow_response (clock_now env)),
     log_sleep (advance st 1)
               (uniform_of (Float.of_Z 1) (Float.of_Z 3) (word_at st 0))).
Proof.
  unfold slow_endpoint.
  pose proof (sleep_uniform (Float.of_Z 1) (Float.of_Z 3) env st
                ltac:(apply FloatFacts.round_nonneg; lia) one_le_three) as S.
  unfold bind in *.
  destruct (random_uniform (Float.of_Z 1) (Float.of_Z 3) env st) as [[d|e] st1];
    [|discriminate S].
  rewrite S. reflexivity.
Qed.

(** [_TOTAL_PHYMEM or virtual_memory().total] in closed form. *)
Lemma total_phymem_or_read_eq (env : Env) (st : St) :
  total_phymem_or_read env st
  = match total_in_use env st with
    | Ok total => (Ok total, after_memory_percent st total)
    | Raise e => (Raise e, st)
    end.
Proof.
  unfold total_phymem_or_read, total_in_use, after_memory_percent, cache_warm,
    psutil_virtual_memory, bind, ret.
  destruct (TOTAL_PHYMEM st) as [t|]; [destruct (t =? 0)|];
    try reflexivity; destruct (sensor_virtual_memory env); reflexivity.
Qed.

Ltac unfold_health :=
  cbv beta iota zeta delta
    [health bind ret time_time psutil_Process Process_create_time
     Process_memory_percent Process_cpu_percent datetime_now jsonify
     ask sense raise last_cpu_times fst memory_percent_of health_response].

(** A successful [/health]: every sensor it reads answered, and the
    response is built from the readings and the cached total. *)
Lemma health_success (usage : cpu_usage) (env : Env) (st st' : St)
    (r : Response) :
  health usage env st = (Ok r, st') ->
  exists (created : Float.float) (rss total : Z) (smp : cpu_sample),
    sensor_create_time env = Ok created
    /\ sensor_memory_rss env = Ok rss
    /\ total_in_use env st = Ok total
    /\ 0 < total
    /\ sensor_cpu_times env = Ok smp
    /\ st' = after_memory_percent st total
    /\ r = health_response (clock_time env) created
                           (memory_percent_of rss total) Float.zero
                           (clock_now env).
Proof.
  unfold_health.
  destruct (sensor_create_time env) as [created|e]; cbv beta iota;
    [|discriminate].
  destruct (sensor_memory_rss env) as [rss|e]; cbv beta iota; [|discriminate].
  rewrite total_phymem_or_read_eq.
  destruct (total_in_use env st) as [total|e]; cbv beta iota;
    [|discriminate].
  destruct (Z.ltb_spec 0 total) as [Ht|Ht]; cbn [negb]; cbv beta iota;
    [|discriminate].
  destruct (sensor_cpu_times env) as [smp|e]; cbv beta iota; [|discriminate].
  intros E. injection E as <- <-.
  exists created, rss, total, smp. repeat split; try reflexivity. exact Ht.
Qed.

(** Conversely [/health] succeeds as soon as the sensors it reads answer. *)
Lemma health_runs (usage : cpu_usage) (env : Env) (st : St)
    (created : Float.float) (rss total : Z) (smp : cpu_sample) :
  sensor_create_time env = Ok created ->
  sensor_memory_rss env = Ok rss ->
  total_in_use env st = Ok total ->
  0 < total ->
  sensor_cpu_times env = Ok smp ->
  health usage env st
  = (Ok (health_response (clock_time env) created
                         (memory_percent_of rss total) Float.zero
                         (clock_now env)), after_memory_percent st total).
Proof.
  intros H1 H2 H3 H4 H5. unfold_health.
  rewrite H1, H2. cbv beta iota. rewrite total_phymem_or_read_eq, H3.
  cbv beta iota.
  destruct (Z.ltb_spec 0 total); [|lia]. cbn [negb]. cbv beta iota.
  rewrite H5. reflexivity.
Qed.

Lemma handle_error_eq (e : exn) (env : Env) (st : St) :
  handle_error e env st = (Ok (error_response e), st).
Proof. reflexivity. Qed.

Lemma dispatch_never_raises (usage : cpu_usage) (path : string) (env : Env)
    (st : St) :
  exists r st', full_dispatch_request usage path env st = (Ok r, st').
Proof.
  unfold full_dispatch_request, try_except.
  destruct (dispatch_request usage path env st) as [[r|e] st'].
  - eauto.
  - rewrite handle_error_eq. eauto.
Qed.

(* ================================================================== *)
(** * Ranges of the computed floats *)
(* ================================================================== *)

Lemma fraction_le_one (k : Z) :
  0 <= k < 2 ^ 53 -> Float.le (Float.mk k (-53)) Float.one.
Proof.
  intros H. rewrite FloatFacts.one_eq.
  apply (FloatFacts.le_scaled _ _ (-53)); cbn [Float.expo]; try lia.
  unfold Float.scaled. cbn [Float.mant Float.expo].
  change (-53 - -53) with 0. change (0 - -53) with 53.
  rewrite Z.pow_0_r. lia.
Qed.

(** [uniform(1, 3)] stays in [[1, 3]], rounding included. *)
Lemma uniform_1_3_range (word : Z) :
  Float.le (Float.of_Z 1) (uniform_of (Float.of_Z 1) (Float.of_Z 3) word)
  /\ Float.le (uniform_of (Float.of_Z 1) (Float.of_Z 3) word) (Float.of_Z 3).
Proof.
  unfold uniform_of.
  pose proof (numerator_bounds word) as B.
  set (x := Float.mk (numerator word) (-53)).
  change (Float.sub (Float.of_Z 3) (Float.of_Z 1)) with (Float.mk 2 0).
  change (Float.of_Z 1) with (Float.mk 1 0).
  change (Float.of_Z 3) with (Float.mk 3 0).
  assert (Hx : 0 <= Float.mant x) by (cbn [Float.mant x]; lia).
  assert (Hy : 0 <= Float.mant (Float.mul (Float.mk 2 0) x))
    by (apply FloatFacts.mul_nonneg; [cbn [Float.mant]; lia | exact Hx]).
  assert (Ly : Float.le (Float.mul (Float.mk 2 0) x) (Float.mk 2 0)).
  { change (Float.mk 2 0) with (Float.mul (Float.mk 2 0) Float.one) at 2.
    apply FloatFacts.mul_mono;
      [cbn [Float.mant]; lia | exact Hx | apply FloatFacts.le_refl |].
    apply fraction_le_one. exact B. }
  split.
  - change (Float.mk 1 0) with (Float.add (Float.mk 1 0) Float.zero) at 1.
    apply FloatFacts.add_mono;
      [cbn [Float.mant]; lia | cbn [Float.mant Float.zero]; lia
      | apply FloatFacts.le_refl |].
    apply FloatFacts.nonneg_le_zero. exact Hy.
  - change (Float.mk 3 0) with (Float.add (Float.mk 1 0) (Float.mk 2 0)).
    apply FloatFacts.add_mono;
      [cbn [Float.mant]; lia | exact Hy | apply FloatFacts.le_refl | exact Ly].
Qed.

Lemma hundred_eq : Float.of_Z 100 = Float.mk 100 0.
Proof. reflexivity. Qed.

(** [(rss / float(total)) * 100] stays in [[0, 100]], rounding included. *)
Lemma memory_percent_range (rss total : Z) :
  0 <= rss <= total -> 0 < total ->
  Float.le Float.zero (memory_percent_of rss total)
  /\ Float.le (memory_percent_of rss total) (Float.of_Z 100).
Proof.
  intros Hr Ht. unfold memory_percent_of.
  assert (Hx : 0 <= Float.mant (Float.of_Z rss))
    by (apply FloatFacts.round_nonneg; lia).
  assert (Hy : 0 < Float.mant (Float.of_Z total))
    by (apply FloatFacts.round_pos; lia).
  destruct (FloatFacts.div_unit_interval (Float.of_Z rss) (Float.of_Z total)
              Hx Hy (FloatFacts.of_Z_mono rss total Hr)) as [Q0 Q1].
  split.
  - apply FloatFacts.nonneg_le_zero. apply FloatFacts.mul_nonneg; [exact Q0|].
    rewrite hundred_eq. cbn [Float.mant]. lia.
  - replace (Float.of_Z 100) with (Float.mul Float.one (Float.of_Z 100)) at 2
      by reflexivity.
    apply FloatFacts.mul_mono; [exact Q0 | | exact Q1 | apply FloatFacts.le_refl].
    rewrite hundred_eq. cbn [Float.mant]. lia.
Qed.

(** It is not negative as soon as the resident set is not, whatever the
    total. *)
Lemma memory_percent_nonneg (rss total : Z) :
  0 <= rss -> 0 < total ->
  Float.le Float.zero (memory_percent_of rss total).
Proof.
  intros Hr Ht. unfold memory_percent_of.
  apply FloatFacts.nonneg_le_zero. apply FloatFacts.mul_nonneg.
  - apply FloatFacts.div_nonneg;
      [apply FloatFacts.round_nonneg; lia | apply FloatFacts.round_pos; lia].
  - rewrite hundred_eq. cbn [Float.mant]. lia.
Qed.

(** It is at least 100 as soon as the resident set is not below the
    total. *)
Lemma memory_percent_at_least_100 (rss total : Z) :
  0 < total <= rss ->
  Float.le (Float.of_Z 100) (memory_percent_of rss total).
Proof.
  intros H. unfold memory_percent_of.
  replace (Float.of_Z 100) with (Float.mul Float.one (Float.of_Z 100)) at 1
    by reflexivity.
  apply FloatFacts.mul_mono.
  - rewrite FloatFacts.one_eq. cbn [Float.mant]. lia.
  - rewrite hundred_eq. cbn [Float.mant]. lia.
  - apply FloatFacts.div_ge_one;
      [apply FloatFacts.round_pos; lia | apply FloatFacts.of_Z_mono; lia].
  - apply FloatFacts.le_refl.
Qed.

(* ================================================================== *)
(** * Counting the draws of [/api/error] *)
(* ================================================================== *)

Lemma count_below_ext (P Q : Z -> bool) (n : nat) :
  (forall k, 0 <= k < Z.of_nat n -> P k = Q k) ->
  count_below P n = count_below Q n.
Proof.
  induction n as [|n IH]; intros H; [reflexivity|].
  cbn [count_below]. rewrite (H (Z.of_nat n)) by lia.
  rewrite IH; [reflexivity|]. intros k Hk. apply H. lia.
Qed.

Lemma count_below_gt (t : Z) (n : nat) :
  0 <= t ->
  Z.of_nat (count_below (fun k => t <? k) n) = Z.max 0 (Z.of_nat n - 1 - t).
Proof.
  intros Ht. induction n as [|n IH]; [cbn [count_below]; lia|].
  cbn [count_below]. rewrite Nat2Z.inj_add, IH.
  destruct (Z.ltb_spec t (Z.of_nat n)); lia.
Qed.

(** Of the [2^53] numerators, [2^52 - 1] make [/api/error] raise: those
    strictly between [2^52] and [2^53]. *)
Lemma raising_draws (env : Env) (st : St) :
  Z.of_nat (count_below
              (fun k => raises (error_endpoint env (with_next_word st k)))
              (Z.to_nat (2 ^ 53)))
  = 2 ^ 52 - 1.
Proof.
  rewrite (count_below_ext _ (fun k => 2 ^ 52 <? k)).
  - rewrite count_below_gt by lia. rewrite Z2Nat.id by lia. lia.
  - intros k Hk. rewrite Z2Nat.id in Hk by lia.
    rewrite error_endpoint_eq, next_numerator_with, numerator_small by exact Hk.
    unfold raises. cbn [fst]. destruct (2 ^ 52 <? k); reflexivity.
Qed.

(* ================================================================== *)
(** * Responses depend on the inputs only *)
(* ================================================================== *)

Section Determined.
Context {A B : Type}.

Lemma determined_ret (a : A) : determined (ret a).
Proof. intros env st1 st2 D C. split; [reflexivity | split; assumption]. Qed.

Lemma determined_raise (e : exn) : determined (@raise A e).
Proof. intros env st1 st2 D C. split; [reflexivity | split; assumption]. Qed.

Lemma determined_ask (f : Env -> A) : determined (ask f).
Proof. intros env st1 st2 D C. split; [reflexivity | split; assumption]. Qed.

Lemma determined_sense (f : Env -> result A) : determined (sense f).
Proof. intros env st1 st2 D C. split; [reflexivity | split; assumption]. Qed.

Lemma determined_bind (m : M A) (f : A -> M B) :
  determined m -> (forall a, determined (f a)) -> determined (bind m f).
Proof.
  intros Hm Hf env st1 st2 D C. unfold bind.
  destruct (Hm env st1 st2 D C) as (E & D' & C').
  destruct (m env st1) as [r1 s1], (m env st2) as [r2 s2].
  cbn [fst snd] in E, D', C'. subst r2.
  destruct r1 as [a|e];
    [apply Hf; assumption | split; [reflexivity | split; assumption]].
Qed.

Lemma determined_try_except (m : M A) (h : exn -> M A) :
  determined m -> (forall e, determined (h e)) -> determined (try_except m h).
Proof.
  intros Hm Hh env st1 st2 D C. unfold try_except.
  destruct (Hm env st1 st2 D C) as (E & D' & C').
  destruct (m env st1) as [r1 s1], (m env st2) as [r2 s2].
  cbn [fst snd] in E, D', C'. subst r2.
  destruct r1 as [a|e];
    [split; [reflexivity | split; assumption] | apply Hh; assumption].
Qed.
End Determined.

Lemma determined_next_word : determined next_word.
Proof.
  intros env st1 st2 D C. unfold next_word. cbn [fst snd]. split; [|split].
  - f_equal. specialize (D O). rewrite !Nat.add_0_r in D. exact D.
  - intros i. cbn [consume rng_tape rng_pos].
    specialize (D (S i)). rewrite !Nat.add_succ_r in D. exact D.
  - exact C.
Qed.

Lemma determined_time_sleep (secs : Float.float) : determined (time_sleep secs).
Proof.
  unfold time_sleep. destruct (Float.ltb secs Float.zero).
  - apply determined_raise.
  - intros env st1 st2 D C. split; [reflexivity | split; assumption].
Qed.

Lemma determined_virtual_memory : determined psutil_virtual_memory.
Proof.
  intros env st1 st2 D C. unfold psutil_virtual_memory.
  destruct (sensor_virtual_memory env) as [vm|e]; cbn [fst snd];
    (split; [reflexivity|]); [|split; assumption].
  split; [exact D|]. destruct C as (_ & C2 & C3).
  unfold same_caches. cbn [cache_total TOTAL_PHYMEM wrap_cache wrap_reminders].
  repeat split; assumption.
Qed.

Lemma determined_total_phymem_or_read : determined total_phymem_or_read.
Proof.
  intros env st1 st2 D C. rewrite !total_phymem_or_read_eq.
  assert (T : total_in_use env st1 = total_in_use env st2)
    by (unfold total_in_use; rewrite (proj1 C); reflexivity).
  assert (W : cache_warm st1 = cache_warm st2)
    by (unfold cache_warm; rewrite (proj1 C); reflexivity).
  rewrite T. destruct (total_in_use env st2) as [total|e]; cbn [fst snd];
    (split; [reflexivity|]); [|split; assumption].
  unfold after_memory_percent. rewrite W.
  destruct (cache_warm st2); [split; assumption|].
  split; [exact D|]. destruct C as (_ & C2 & C3).
  unfold same_caches. cbn [cache_total TOTAL_PHYMEM wrap_cache wrap_reminders].
  repeat split; assumption.
Qed.

Lemma determined_wrap_numbers (raw : nic_counters) :
  determined (wrap_numbers raw).
Proof.
  intros env st1 st2 D C. destruct C as (C1 & C2 & C3).
  unfold wrap_numbers, run_wrap_numbers. rewrite C2, C3.
  destruct (wrap_cache st2) as [old|].
  - destruct (wrap_dict old raw (remove_dead_reminders old raw (wrap_reminders st2)))
      as [new rem'].
    cbn [fst snd]. split; [reflexivity|]. split; [exact D|].
    unfold same_caches.
    cbn [remember_counters TOTAL_PHYMEM wrap_cache wrap_reminders].
    repeat split; assumption.
  - cbn [fst snd]. split; [reflexivity|]. split; [exact D|].
    unfold same_caches.
    cbn [remember_counters TOTAL_PHYMEM wrap_cache wrap_reminders].
    repeat split; assumption.
Qed.

Ltac determined_step :=
  first
    [ apply determined_bind; [|intro]
    | apply determined_ret
    | apply determined_raise
    | apply determined_ask
    | apply determined_sense
    | apply determined_next_word
    | apply determined_time_sleep
    | apply determined_virtual_memory
    | apply determined_total_phymem_or_read
    | apply determined_wrap_numbers
    | match goal with
      | |- determined (if ?b then _ else _) => destruct b
      | |- determined (match ?o with Some _ => _ | None => _ end) => destruct o
      | |- determined (match ?l with [] => _ | _ :: _ => _ end) => destruct l
      end ].

Ltac determined_auto := repeat determined_step.

Lemma determined_random_uniform (a b : Float.float) :
  determined (random_uniform a b).
Proof. unfold random_uniform, random_random. determined_auto. Qed.

Lemma determined_random_randint (a b : Z) : determined (random_randint a b).
Proof. unfold random_randint, randbelow. determined_auto. Qed.

Lemma determined_view (usage : cpu_usage) (ep : endpoint) :
  determined (view_functions usage ep).
Proof.
  destruct ep; cbn [view_functions].
  - unfold home, datetime_now, jsonify. determined_auto.
  - unfold health, time_time, psutil_Process, Process_create_time,
      Process_memory_percent, Process_cpu_percent, datetime_now, jsonify.
    determined_auto.
  - unfold get_data, datetime_now, jsonify.
    repeat first [apply determined_random_uniform
                 | apply determined_random_randint | determined_step].
  - unfold slow_endpoint, datetime_now, jsonify.
    repeat first [apply determined_random_uniform | determined_step].
  - unfold error_endpoint, random_random, jsonify. determined_auto.
  - unfold system_info, psutil_cpu_percent, psutil_disk_usage,
      psutil_net_io_counters, net_io_asdict, datetime_now, jsonify.
    determined_auto.
Qed.

Lemma determined_dispatch (usage : cpu_usage) (path : string) :
  determined (full_dispatch_request usage path).
Proof.
  unfold full_dispatch_request, dispatch_request.
  apply determined_try_except.
  - destruct (url_map path); [apply determined_view | apply determined_raise].
  - intros e. unfold handle_error, jsonify. determined_auto.
Qed.

Lemma word_at_same_draws (st1 st2 : St) (i : nat) :
  same_draws st1 st2 -> word_at st1 i = word_at st2 i.
Proof.
  intros D. unfold word_at. specialize (D i).
  rewrite (Nat.add_comm i (rng_pos st1)), (Nat.add_comm i (rng_pos st2)).
  exact D.
Qed.

(** The views that do not call [psutil] look at the clock and at the
    draws only. *)
Lemma draws_only_view (usage : cpu_usage) (ep : endpoint) (env1 env2 : Env)
    (st1 st2 : St) :
  uses_psutil ep = false ->
  clock_now env1 = clock_now env2 ->
  same_draws st1 st2 ->
  fst (view_functions usage ep env1 st1)
  = fst (view_functions usage ep env2 st2).
Proof.
  intros Hep Hclock D.
  destruct ep; try discriminate Hep; cbn [view_functions].
  - unfold home, datetime_now, jsonify, bind, ask, ret. cbn [fst].
    rewrite Hclock. reflexivity.
  - rewrite !get_data_eq. cbn [fst].
    rewrite !(word_at_same_draws st1 st2) by exact D.
    rewrite Hclock. reflexivity.
  - rewrite !slow_endpoint_eq. cbn [fst]. rewrite Hclock. reflexivity.
  - rewrite !error_endpoint_eq. cbn [fst]. unfold next_numerator.
    pose proof (word_at_same_draws st1 st2 O D) as W. unfold word_at in W.
    cbn [Nat.add] in W. rewrite W. reflexivity.
Qed.

(* ================================================================== *)
(** * Sample runs *)
(* ================================================================== *)

Example home_sample :
  fst (home sample_env sample_st)
  = Ok (mkResponse 200
          (JObj [("message", JStr "Hello from Cliente 3 - Flask App!");
                 ("timestamp", JStr "2024-02-29T07:05:09");
                 ("project", JStr "cliente3")])).
Proof. reflexivity. Qed.

Example get_data_sample :
  fst (get_data sample_env (with_next_words sample_st [7; 900; 1353; 9001]))
  = Ok (data_response 1000 50 1000 sample_now).
Proof. reflexivity. Qed.

(** A success, an unknown path and an error, one after the other. *)
Example serve_sample :
  fst (serve no_usage
         [("/api/error", sample_env); ("/nope", sample_env);
          ("/api/error", sample_env)]
         (with_next_words sample_st [2 ^ 52; 2 ^ 52 + 1]))
  = [success_response;
     error_response NotFound;
     error_response (Exception "Random error for testing from Flask")].
Proof. reflexivity. Qed.

Lemma sample_same_draws : same_draws sample_st sample_st_later.
Proof.
  intros i. cbn [sample_st sample_st_later rng_tape rng_pos]. lia.
Defined.

(* ================================================================== *)
(** * The claims *)
(* ================================================================== *)

(** C1 (amended).  For every request to [/api/error], the view raises
    exactly when its draw [random.random() = k / 2^53] is greater than
    [0.5]; this is the case for [2^52 - 1] of the [2^53] equally likely
    numerators [k], a probability of [1/2 - 2^-53].  The error is a generic
    [Exception] carrying the message "Random error for testing from Flask";
    otherwise the view returns the fixed body
    [{"message": "Success from Flask!"}] with status 200. *)
Theorem error_endpoint_coin (env : Env) (st : St) :
  (forall word : Z,
      error_endpoint env (with_next_word st word)
      = (if Float.ltb Float.lit_0_5 (Float.mk (numerator word) (-53))
         then Raise (Exception "Random error for testing from Flask")
         else Ok success_response,
         advance (with_next_word st word) 1))
  /\ Z.of_nat (count_below
                 (fun k => raises (error_endpoint env (with_next_word st k)))
                 (Z.to_nat (2 ^ 53)))
     = 2 ^ 52 - 1
  /\ status success_response = 200
  /\ json_get "message" (body success_response)
     = Some (JStr "Success from Flask!").
Proof.
  split; [|split; [apply raising_draws | split; reflexivity]].
  intros word.
  rewrite error_endpoint_eq, next_numerator_with, ltb_half. reflexivity.
Qed.

(** C1 as stated fails: with the largest draw the view raises, and the
    message of the error is not "Random error for testing"; and the
    raising draws are not half of all draws. *)
Lemma error_message_differs :
  fst (error_endpoint sample_env (with_next_word sample_st (2 ^ 53 - 1)))
  = Raise (Exception "Random error for testing from Flask")
  /\ str (Exception "Random error for testing from Flask")
     <> "Random error for testing"
  /\ 2 * Z.of_nat (count_below
                     (fun k => raises (error_endpoint sample_env
                                         (with_next_word sample_st k)))
                     (Z.to_nat (2 ^ 53)))
     <> 2 ^ 53.
Proof.
  split; [|split].
  - rewrite error_endpoint_eq, next_numerator_with. reflexivity.
  - discriminate.
  - rewrite raising_draws. discriminate.
Qed.

(** C2.  Whenever a view raises an error, the one handler registered for
    [Exception] turns it into the body [{"error": str(error)}] with status
    500.  The view has run once: the state left behind is the state of that
    single run, so nothing was retried or recovered. *)
Theorem errors_become_500 (usage : cpu_usage) (path : string) (ep : endpoint)
    (env : Env) (st st' : St) (e : exn) :
  url_map path = Some ep ->
  view_functions usage ep env st = (Raise e, st') ->
  full_dispatch_request usage path env st = (Ok (error_response e), st')
  /\ serve_one usage path env st = (error_response e, st')
  /\ status (error_response e) = 500
  /\ body (error_response e) = JObj [("error", JStr (str e))].
Proof.
  intros Hpath Hview.
  assert (F : full_dispatch_request usage path env st
              = (Ok (error_response e), st')).
  { unfold full_dispatch_request, try_except, dispatch_request.
    rewrite Hpath, Hview. apply handle_error_eq. }
  split; [exact F|]. split; [|split; reflexivity].
  unfold serve_one. rewrite F. reflexivity.
Qed.

Lemma errors_become_500_witness :
  url_map "/api/error" = Some ep_error_endpoint
  /\ view_functions no_usage ep_error_endpoint sample_env
       (with_next_word sample_st (2 ^ 53 - 1))
     = (Raise (Exception "Random error for testing from Flask"),
        advance (with_next_word sample_st (2 ^ 53 - 1)) 1)
  /\ full_dispatch_request no_usage "/api/error" sample_env
       (with_next_word sample_st (2 ^ 53 - 1))
     = (Ok (error_response (Exception "Random error for testing from Flask")),
        advance (with_next_word sample_st (2 ^ 53 - 1)) 1).
Proof.
  split; [reflexivity|]. split; [reflexivity|].
  apply (errors_become_500 no_usage "/api/error" ep_error_endpoint sample_env
           (with_next_word sample_st (2 ^ 53 - 1)) _
           (Exception "Random error for testing from Flask"));
    reflexivity.
Defined.

(** C3.  [/api/data] always succeeds; its [customers], [sales] and
    [profit] fields are integers of [[100, 1000]], [[50, 500]] and
    [[1000, 10000]], bounds included.  Each field comes from a draw of its
    own (the second, third and fourth word after the one of the sleep), and
    every triple of the three ranges is produced by some draws. *)
Theorem get_data_ranges (env : Env) (st : St) :
  (exists (r : Response) (st' : St) (customers sales profit : Z),
      get_data env st = (Ok r, st')
      /\ status r = 200
      /\ json_get "customers" (body r) = Some (JInt customers)
      /\ json_get "sales" (body r) = Some (JInt sales)
      /\ json_get "profit" (body r) = Some (JInt profit)
      /\ 100 <= customers <= 1000
      /\ 50 <= sales <= 500
      /\ 1000 <= profit <= 10000
      /\ customers = randint_of 100 1000 (word_at st 1)
      /\ sales = randint_of 50 500 (word_at st 2)
      /\ profit = randint_of 1000 10000 (word_at st 3))
  /\ (forall c s p w0 : Z,
         100 <= c <= 1000 -> 50 <= s <= 500 -> 1000 <= p <= 10000 ->
         fst (get_data env
                (with_next_words st [w0; c - 100; s - 50; p - 1000]))
         = Ok (data_response c s p (clock_now env))).
Proof.
  split.
  - do 5 eexists. rewrite get_data_eq.
    split; [reflexivity|]. split; [reflexivity|].
    split; [reflexivity|]. split; [reflexivity|]. split; [reflexivity|].
    split; [apply randint_range; lia|].
    split; [apply randint_range; lia|].
    split; [apply randint_range; lia|].
    repeat split.
  - intros c s p w0 Hc Hs Hp. rewrite get_data_eq. cbn [fst].
    rewrite !word_at_with_next_words by (cbn [List.length]; lia).
    cbn [nth]. unfold randint_of.
    rewrite !Z.mod_small by lia.
    f_equal. f_equal; lia.
Qed.

(** C4 (amended).  In every successful response of [/health],
    [cpu_percent] is [0.0], the first sample of a new [Process] object, and
    [memory_percent] is [(rss / float(total)) * 100], where [rss] is the
    resident set read now and [total] is the total physical memory that
    [psutil] has cached (the platform is read only when nothing is cached).
    The handler passes the value on as computed: it is not negative when
    [rss] is not, it is at most 100 when [rss] does not exceed that total,
    and at least 100 when [rss] is not below it. *)
Theorem health_percentages (usage : cpu_usage) (env : Env) (st st' : St)
    (r : Response) :
  health usage env st = (Ok r, st') ->
  exists (rss total : Z) (mem cpu : Float.float),
    sensor_memory_rss env = Ok rss
    /\ total_in_use env st = Ok total
    /\ json_get "memory_percent" (body r) = Some (JFloat mem)
    /\ json_get "cpu_percent" (body r) = Some (JFloat cpu)
    /\ mem = memory_percent_of rss total
    /\ cpu = Float.zero
    /\ Float.le Float.zero cpu /\ Float.le cpu (Float.of_Z 100)
    /\ (0 <= rss -> Float.le Float.zero mem)
    /\ (0 <= rss <= total -> Float.le mem (Float.of_Z 100))
    /\ (total <= rss -> Float.le (Float.of_Z 100) mem).
Proof.
  intros Hrun.
  destruct (health_success usage env st st' r Hrun)
    as (created & rss & total & smp & H1 & H2 & H3 & H4 & H5 & _ & ->).
  exists rss, total, (memory_percent_of rss total), Float.zero.
  split; [exact H2|]. split; [exact H3|].
  split; [reflexivity|]. split; [reflexivity|].
  split; [reflexivity|]. split; [reflexivity|].
  split; [reflexivity|]. split; [reflexivity|].
  split; [|split].
  - intros Hr. apply memory_percent_nonneg; assumption.
  - intros Hr. apply memory_percent_range; assumption.
  - intros Hr. apply memory_percent_at_least_100. lia.
Qed.

Lemma health_percentages_witness :
  health no_usage sample_env sample_st
  = (Ok (health_response (clock_time sample_env)
                         (Float.mk 7130316000000000 (-22))
                         (memory_percent_of 35000320 8589934592)
                         Float.zero sample_now),
     cache_total sample_st 8589934592)
  /\ exists (rss total : Z) (mem cpu : Float.float),
      sensor_memory_rss sample_env = Ok rss
      /\ total_in_use sample_env sample_st = Ok total
      /\ json_get "memory_percent"
           (body (health_response (clock_time sample_env)
                    (Float.mk 7130316000000000 (-22))
                    (memory_percent_of 35000320 8589934592)
                    Float.zero sample_now)) = Some (JFloat mem)
      /\ json_get "cpu_percent"
           (body (health_response (clock_time sample_env)
                    (Float.mk 7130316000000000 (-22))
                    (memory_percent_of 35000320 8589934592)
                    Float.zero sample_now)) = Some (JFloat cpu)
      /\ mem = memory_percent_of rss total
      /\ cpu = Float.zero
      /\ Float.le Float.zero cpu /\ Float.le cpu (Float.of_Z 100)
      /\ (0 <= rss -> Float.le Float.zero mem)
      /\ (0 <= rss <= total -> Float.le mem (Float.of_Z 100))
      /\ (total <= rss -> Float.le (Float.of_Z 100) mem).
Proof.
  split; [reflexivity|].
  apply (health_percentages no_usage sample_env sample_st
           (cache_total sample_st 8589934592)).
  reflexivity.
Defined.

(** C4 as stated fails: [/api/system] is served while the machine has
    4 GiB of memory, which [psutil] caches; memory is added and the process
    grows to 6 GiB; [/health] then succeeds with a [memory_percent] of
    [150.0]. *)
Lemma memory_percent_above_100 :
  exists (r : Response) (st' : St),
    health no_usage sample_env_grown
      (snd (serve_one no_usage "/api/system" sample_env_4GiB sample_st))
    = (Ok r, st')
    /\ fst (serve no_usage
              [("/api/system", sample_env_4GiB); ("/health", sample_env_grown)]
              sample_st)
       = [fst (serve_one no_usage "/api/system" sample_env_4GiB sample_st); r]
    /\ status r = 200
    /\ json_get "memory_percent" (body r)
       = Some (JFloat (memory_percent_of 6442450944 4294967296))
    /\ Float.veq (memory_percent_of 6442450944 4294967296) (Float.of_Z 150)
    /\ Float.leb (memory_percent_of 6442450944 4294967296) (Float.of_Z 100)
       = false.
Proof.
  eexists. eexists. split; [reflexivity|].
  split; [reflexivity|]. split; [reflexivity|]. split; [reflexivity|].
  split; vm_compute; reflexivity.
Qed.

(** C5 (amended).  For two successful [/health] responses of one process
    (the same creation time is read both times), each [uptime] is
    [time.time() - create_time] in float arithmetic.  When the wall clock
    reads no earlier than the creation time at the first request, and no
    earlier at the second request than at the first, both [uptime] fields
    are non-negative and the later one is greater than or equal to the
    earlier one.  The states of the two requests are arbitrary, so any
    requests may have been served in between. *)
Theorem uptime_monotone (usage : cpu_usage) (env1 env2 : Env)
    (st1 st1' st2 st2' : St) (r1 r2 : Response) (created : Float.float) :
  sensor_create_time env1 = Ok created ->
  sensor_create_time env2 = Ok created ->
  Float.le created (clock_time env1) ->
  Float.le (clock_time env1) (clock_time env2) ->
  health usage env1 st1 = (Ok r1, st1') ->
  health usage env2 st2 = (Ok r2, st2') ->
  exists up1 up2 : Float.float,
    json_get "uptime" (body r1) = Some (JFloat up1)
    /\ json_get "uptime" (body r2) = Some (JFloat up2)
    /\ up1 = Float.sub (clock_time env1) created
    /\ up2 = Float.sub (clock_time env2) created
    /\ Float.le Float.zero up1
    /\ Float.le Float.zero up2
    /\ Float.le up1 up2.
Proof.
  intros C1 C2 Hborn Hclock R1 R2.
  destruct (health_success usage env1 st1 st1' r1 R1)
    as (c1 & rss1 & total1 & smp1 & H1 & _ & _ & _ & _ & _ & ->).
  destruct (health_success usage env2 st2 st2' r2 R2)
    as (c2 & rss2 & total2 & smp2 & H2 & _ & _ & _ & _ & _ & ->).
  assert (c1 = created) by congruence. assert (c2 = created) by congruence.
  subst c1 c2.
  exists (Float.sub (clock_time env1) created),
         (Float.sub (clock_time env2) created).
  split; [reflexivity|]. split; [reflexivity|].
  split; [reflexivity|]. split; [reflexivity|].
  assert (Hborn2 : Float.le created (clock_time env2))
    by (eapply FloatFacts.le_trans; eassumption).
  split; [apply FloatFacts.nonneg_le_zero, FloatFacts.sub_nonneg; exact Hborn|].
  split; [apply FloatFacts.nonneg_le_zero, FloatFacts.sub_nonneg; exact Hborn2|].
  apply FloatFacts.sub_mono_l; assumption.
Qed.

Lemma uptime_monotone_witness :
  sensor_create_time sample_env = Ok (Float.mk 7130316000000000 (-22))
  /\ sensor_create_time sample_env_later
     = Ok (Float.mk 7130316000000000 (-22))
  /\ Float.le (Float.mk 7130316000000000 (-22)) (clock_time sample_env)
  /\ Float.le (clock_time sample_env) (clock_time sample_env_later)
  /\ exists up1 up2 : Float.float,
      json_get "uptime"
        (body (health_response (clock_time sample_env)
                 (Float.mk 7130316000000000 (-22))
                 (memory_percent_of 35000320 8589934592)
                 Float.zero sample_now)) = Some (JFloat up1)
      /\ json_get "uptime"
           (body (health_response (clock_time sample_env_later)
                    (Float.mk 7130316000000000 (-22))
                    (memory_percent_of 35000320 8589934592)
                    Float.zero sample_now)) = Some (JFloat up2)
      /\ up1 = Float.sub (clock_time sample_env)
                         (Float.mk 7130316000000000 (-22))
      /\ up2 = Float.sub (clock_time sample_env_later)
                         (Float.mk 7130316000000000 (-22))
      /\ Float.le Float.zero up1
      /\ Float.le Float.zero up2
      /\ Float.le up1 up2.
Proof.
  split; [reflexivity|]. split; [reflexivity|].
  split; [reflexivity|]. split; [reflexivity|].
  apply (uptime_monotone no_usage sample_env sample_env_later
           sample_st (cache_total sample_st 8589934592)
           sample_st_later (cache_total sample_st_later 8589934592)
           _ _ (Float.mk 7130316000000000 (-22))); reflexivity.
Defined.

(** C5 as stated fails: [time.time()] is the wall clock.  When it is set
    back by one tick between two [/health] requests served in a row, the
    second [uptime] is smaller than the first; when it reads one tick
    before the creation time of the process, the [uptime] is negative. *)
Lemma uptime_follows_the_wall_clock :
  (exists (r1 r2 : Response) (st' : St),
      serve no_usage [("/health", sample_env_later); ("/health", sample_env)]
            sample_st = ([r1; r2], st')
      /\ status r1 = 200 /\ status r2 = 200
      /\ json_get "uptime" (body r1) = Some (JFloat (Float.mk 800000001 (-22)))
      /\ json_get "uptime" (body r2) = Some (JFloat (Float.mk 800000000 (-22)))
      /\ Float.lt (Float.mk 800000000 (-22)) (Float.mk 800000001 (-22)))
  /\ (exists (r : Response) (st' : St),
         serve_one no_usage "/health" sample_env_early sample_st = (r, st')
         /\ status r = 200
         /\ json_get "uptime" (body r) = Some (JFloat (Float.mk (-1) (-22)))
         /\ Float.lt (Float.mk (-1) (-22)) Float.zero).
Proof.
  split.
  - do 3 eexists. split; [reflexivity|].
    split; [reflexivity|]. split; [reflexivity|]. split; [reflexivity|].
    split; reflexivity.
  - do 2 eexists. split; [reflexivity|].
    split; [reflexivity|]. split; reflexivity.
Qed.

(** C6.  [/] cannot fail: for every request it returns status 200 with a
    non-empty message, a timestamp that is well-formed ISO-8601 (it reads
    back as the date and time of the clock) and the project identifier
    "cliente3"; the server sends that response unchanged. *)
Theorem home_never_fails (env : Env) (st : St) :
  exists r : Response,
    home env st = (Ok r, st)
    /\ (forall usage : cpu_usage, serve_one usage "/" env st = (r, st))
    /\ status r = 200
    /\ (exists msg, json_get "message" (body r) = Some (JStr msg) /\ msg <> EmptyString)
    /\ (exists ts, json_get "timestamp" (body r) = Some (JStr ts)
                   /\ iso8601_well_formed ts = true
                   /\ parse_iso8601 ts = Some (fields_of (clock_now env)))
    /\ json_get "project" (body r) = Some (JStr "cliente3").
Proof.
  eexists. split; [reflexivity|]. split; [reflexivity|].
  split; [reflexivity|].
  split; [eexists; split; [reflexivity | discriminate]|].
  split; [|reflexivity].
  eexists. split; [reflexivity|].
  unfold iso8601_well_formed. rewrite isoformat_parses. split; reflexivity.
Qed.

(** C7.  For every request, [/api/slow] passes to [time.sleep] exactly
    one duration, [uniform(1, 3)] of its draw, which lies in [[1, 3]];
    then it returns status 200 with the message
    "This was a slow request from Flask". *)
Theorem slow_endpoint_sleeps_1_to_3 (env : Env) (st : St) :
  exists (r : Response) (st' : St) (d : Float.float),
    slow_endpoint env st = (Ok r, st')
    /\ slept st' = (slept st ++ [d])%list
    /\ d = uniform_of (Float.of_Z 1) (Float.of_Z 3) (word_at st 0)
    /\ Float.le (Float.of_Z 1) d /\ Float.le d (Float.of_Z 3)
    /\ status r = 200
    /\ json_get "message" (body r)
       = Some (JStr "This was a slow request from Flask").
Proof.
  do 3 eexists. rewrite slow_endpoint_eq.
  split; [reflexivity|]. split; [reflexivity|]. split; [reflexivity|].
  split; [apply uniform_1_3_range|]. split; [apply uniform_1_3_range|].
  split; reflexivity.
Qed.

(** C8 (amended).  Two invocations of [home], [get_data], [slow_endpoint]
    or [error_endpoint] with the same clock reading and the same draws
    return the same result, whatever the two states have been through and
    whatever the sensors read.  Two invocations of any view in the same
    environment (sensor readings and clock values), with the same draws and
    with the same memory of [psutil] (the total physical memory it cached
    and its wrap-around memory of the network counters) return the same
    result, and the server sends the same response.  That memory comes from
    earlier requests: it is the one way in which the result of [health] and
    of [system_info] depends on them. *)
Theorem responses_determined_by_inputs (usage : cpu_usage) (env : Env)
    (st1 st2 : St) :
  same_draws st1 st2 ->
  (forall (ep : endpoint) (env' : Env),
      uses_psutil ep = false ->
      clock_now env' = clock_now env ->
      fst (view_functions usage ep env st1)
      = fst (view_functions usage ep env' st2))
  /\ (same_caches st1 st2 ->
      (forall ep : endpoint,
          fst (view_functions usage ep env st1)
          = fst (view_functions usage ep env st2))
      /\ (forall path : string,
             fst (serve_one usage path env st1)
             = fst (serve_one usage path env st2))).
Proof.
  intros D. split.
  - intros ep env' Hep Hclock.
    apply draws_only_view; [exact Hep | symmetry; exact Hclock | exact D].
  - intros C. split.
    + intros ep. apply (determined_view usage ep env st1 st2 D C).
    + intros path. unfold serve_one.
      destruct (determined_dispatch usage path env st1 st2 D C) as (E & _ & _).
      destruct (full_dispatch_request usage path env st1) as [r1 s1],
               (full_dispatch_request usage path env st2) as [r2 s2].
      cbn [fst] in E. subst r2. destruct r1; reflexivity.
Qed.

Lemma responses_determined_witness :
  same_draws sample_st sample_st_later
  /\ (forall (ep : endpoint) (env' : Env),
         uses_psutil ep = false ->
         clock_now env' = clock_now sample_env ->
         fst (view_functions no_usage ep sample_env sample_st)
         = fst (view_functions no_usage ep env' sample_st_later))
  /\ (same_caches sample_st sample_st_later ->
      (forall ep : endpoint,
          fst (view_functions no_usage ep sample_env sample_st)
          = fst (view_functions no_usage ep sample_env sample_st_later))
      /\ (forall path : string,
             fst (serve_one no_usage path sample_env sample_st)
             = fst (serve_one no_usage path sample_env sample_st_later))).
Proof.
  split; [exact sample_same_draws|].
  apply (responses_determined_by_inputs no_usage sample_env
           sample_st sample_st_later).
  exact sample_same_draws.
Defined.

(** C8 as stated fails.  The same [/health] request (same sensor readings,
    same clock, no draw) is answered with a [memory_percent] of [75.0] by a
    process that has not called [psutil] before, and of [150.0] by a process
    that served [/api/system] when the machine had half the memory.  The
    same [/api/system] request reports 3 bytes sent in the first process and
    4294967003 in a process that served [/api/system] before the counter of
    the interface wrapped around. *)
Lemma responses_depend_on_earlier_requests :
  same_draws sample_st
    (snd (serve_one no_usage "/api/system" sample_env_4GiB sample_st))
  /\ fst (serve_one no_usage "/health" sample_env_grown sample_st)
     = health_response (clock_time sample_env_grown)
         (Float.mk 7130316000000000 (-22))
         (memory_percent_of 6442450944 8589934592) Float.zero sample_now
  /\ fst (serve_one no_usage "/health" sample_env_grown
            (snd (serve_one no_usage "/api/system" sample_env_4GiB sample_st)))
     = health_response (clock_time sample_env_grown)
         (Float.mk 7130316000000000 (-22))
         (memory_percent_of 6442450944 4294967296) Float.zero sample_now
  /\ fst (serve_one no_usage "/health" sample_env_grown sample_st)
     <> fst (serve_one no_usage "/health" sample_env_grown
               (snd (serve_one no_usage "/api/system" sample_env_4GiB
                       sample_st)))
  /\ Float.eqb (memory_percent_of 6442450944 8589934592)
               (memory_percent_of 6442450944 4294967296) = false
  /\ same_draws sample_st
       (snd (serve_one no_usage "/api/system" sample_env_before_wrap
               sample_st))
  /\ json_get "network"
       (body (fst (serve_one no_usage "/api/system" sample_env sample_st)))
     = Some (JObj (snetio_asdict (mkSnetio 3 20 3 2 0 0 0 0)))
  /\ json_get "network"
       (body (fst (serve_one no_usage "/api/system" sample_env
                     (snd (serve_one no_usage "/api/system"
                             sample_env_before_wrap sample_st)))))
     = Some (JObj (snetio_asdict (mkSnetio 4294967003 20 3 2 0 0 0 0)))
  /\ fst (serve_one no_usage "/api/system" sample_env sample_st)
     <> fst (serve_one no_usage "/api/system" sample_env
               (snd (serve_one no_usage "/api/system" sample_env_before_wrap
                       sample_st))).
Proof.
  assert (A : fst (serve_one no_usage "/health" sample_env_grown sample_st)
              = health_response (clock_time sample_env_grown)
                  (Float.mk 7130316000000000 (-22))
                  (memory_percent_of 6442450944 8589934592) Float.zero
                  sample_now) by reflexivity.
  assert (B : fst (serve_one no_usage "/health" sample_env_grown
                     (snd (serve_one no_usage "/api/system" sample_env_4GiB
                             sample_st)))
              = health_response (clock_time sample_env_grown)
                  (Float.mk 7130316000000000 (-22))
                  (memory_percent_of 6442450944 4294967296) Float.zero
                  sample_now) by reflexivity.
  assert (N1 : json_get "network"
                 (body (fst (serve_one no_usage "/api/system" sample_env
                               sample_st)))
               = Some (JObj (snetio_asdict (mkSnetio 3 20 3 2 0 0 0 0))))
    by reflexivity.
  assert (N2 : json_get "network"
                 (body (fst (serve_one no_usage "/api/system" sample_env
                               (snd (serve_one no_usage "/api/system"
                                       sample_env_before_wrap sample_st)))))
               = Some (JObj (snetio_asdict
                               (mkSnetio 4294967003 20 3 2 0 0 0 0))))
    by reflexivity.
  split; [intros i; reflexivity|].
  split; [exact A|]. split; [exact B|].
  split.
  { intros E.
    pose proof (f_equal (fun r => json_get "memory_percent" (body r)) E) as F.
    vm_compute in F. discriminate F. }
  split; [vm_compute; reflexivity|].
  split; [intros i; reflexivity|].
  split; [exact N1|]. split; [exact N2|].
  intros E.
  pose proof (f_equal (fun r => json_get "network" (body r)) E) as F.
  vm_compute in F. discriminate F.
Qed.

(** C9.  [/api/error] raises if and only if its draw is strictly greater
    than [0.5]; a draw equal to [0.5] returns the success message. *)
Theorem error_endpoint_raises_iff (env : Env) (st : St) :
  let x := Float.mk (next_numerator st) (-53) in
  fst (random_random env st) = Ok x
  /\ (raises (error_endpoint env st) = true <-> Float.lt Float.lit_0_5 x)
  /\ (Float.veq x Float.lit_0_5 ->
      fst (error_endpoint env st) = Ok success_response).
Proof.
  intros x. split; [reflexivity|].
  rewrite error_endpoint_eq. unfold raises, Float.lt, Float.veq, x.
  rewrite ltb_half, eqb_half. cbn [fst].
  split.
  - destruct (2 ^ 52 <? next_numerator st); split; congruence.
  - intros E%Z.eqb_eq. rewrite E, Z.ltb_irrefl. reflexivity.
Qed.



(** With [PORT] unset or set to an integer literal the module loads. *)
Example PORT_samples :
  PORT [] = Ok 5000
  /\ PORT [("PORT", "8080")] = Ok 8080
  /\ PORT [("PORT", " 8_080 ")] = Ok 8080
  /\ map int_of_string ["abc"; EmptyString; "80x"; "1__0"; "_1"; "0x1F"; "- 1"]
     = [None; None; None; None; None; None; None].
Proof. repeat split. Qed.

(* ================================================================== *)
(** * Further properties of the views *)
(* ================================================================== *)

(** [uniform(0.1, 0.5)] stays in [[0.1, 0.5]], rounding included. *)
Lemma uniform_01_05_range (word : Z) :
  Float.le Float.lit_0_1 (uniform_of Float.lit_0_1 Float.lit_0_5 word)
  /\ Float.le (uniform_of Float.lit_0_1 Float.lit_0_5 word) Float.lit_0_5.
Proof.
  unfold uniform_of.
  pose proof (numerator_bounds word) as B.
  set (x := Float.mk (numerator word) (-53)).
  change (Float.sub Float.lit_0_5 Float.lit_0_1)
    with (Float.mk 7205759403792794 (-54)).
  set (w := Float.mk 7205759403792794 (-54)).
  assert (Hx : 0 <= Float.mant x) by (cbn [Float.mant x]; lia).
  assert (Hw : 0 <= Float.mant w) by (cbn [Float.mant w]; lia).
  assert (Ha : 0 <= Float.mant Float.lit_0_1)
    by (cbn [Float.mant Float.lit_0_1]; lia).
  assert (Hy : 0 <= Float.mant (Float.mul w x))
    by (apply FloatFacts.mul_nonneg; assumption).
  assert (Ly : Float.le (Float.mul w x) w).
  { change w with (Float.mul w Float.one) at 2.
    apply FloatFacts.mul_mono;
      [exact Hw | exact Hx | apply FloatFacts.le_refl |].
    apply fraction_le_one. exact B. }
  split.
  - change Float.lit_0_1 with (Float.add Float.lit_0_1 Float.zero) at 1.
    apply FloatFacts.add_mono;
      [exact Ha | cbn [Float.mant Float.zero]; lia
      | apply FloatFacts.le_refl |].
    apply FloatFacts.nonneg_le_zero. exact Hy.
  - apply FloatFacts.le_trans with (Float.add Float.lit_0_1 w).
    + apply FloatFacts.add_mono;
        [exact Ha | exact Hy | apply FloatFacts.le_refl | exact Ly].
    + reflexivity.
Qed.

(** X1.  [/api/data] passes to [time.sleep] exactly one duration,
    [uniform(0.1, 0.5)] of its first draw, and that duration lies between
    the floats [0.1] and [0.5]. *)
Theorem get_data_sleeps_01_to_05 (env : Env) (st : St) :
  exists d : Float.float,
    slept (snd (get_data env st)) = (slept st ++ [d])%list
    /\ d = uniform_of Float.lit_0_1 Float.lit_0_5 (word_at st 0)
    /\ Float.le Float.lit_0_1 d
    /\ Float.le d Float.lit_0_5.
Proof.
  eexists. rewrite get_data_eq. cbn [snd slept].
  split; [reflexivity|]. split; [reflexivity|]. apply uniform_01_05_range.
Qed.

(* ================================================================== *)
(** * Statuses *)
(* ================================================================== *)

Lemma returns_200_jsonify (d : list (string * json)) :
  returns_200 (jsonify (JObj d)).
Proof.
  intros env st st' r H. injection H as <- <-.
  split; [reflexivity | eexists; reflexivity].
Qed.

Lemma returns_200_raise (e : exn) : returns_200 (raise e).
Proof. intros env st st' r H. discriminate H. Qed.

Lemma returns_200_bind {A : Type} (m : M A) (f : A -> M Response) :
  (forall a, returns_200 (f a)) -> returns_200 (bind m f).
Proof.
  intros Hf env st st' r. unfold bind.
  destruct (m env st) as [[a|e] s]; [apply Hf | discriminate].
Qed.

Ltac returns_200_auto :=
  repeat match goal with
         | |- returns_200 (bind _ _) => apply returns_200_bind; intro
         | |- returns_200 (jsonify _) => apply returns_200_jsonify
         | |- returns_200 (raise _) => apply returns_200_raise
         | |- returns_200 (if ?b then _ else _) => destruct b
         | |- returns_200 (let _ := _ in _) => cbv zeta
         end.

Lemma returns_200_view (usage : cpu_usage) (ep : endpoint) :
  returns_200 (view_functions usage ep).
Proof.
  destruct ep; cbn [view_functions];
    unfold home, health, get_data, slow_endpoint, error_endpoint, system_info;
    returns_200_auto.
Qed.

(** X2.  When a view runs, the response is either its own result, which
    has status 200 and a JSON object as body, or, when the view raised, the
    answer of the error handler, which has status 500 and the single-key
    body [{"error": str(error)}]; the handler itself never raises.  (What
    Flask answers without running a view is not covered.) *)
Theorem responses_are_200_or_500 (usage : cpu_usage) (ep : endpoint)
    (env : Env) (st : St) :
  exists (r : Response) (st' : St),
    try_except (view_functions usage ep) handle_error env st = (Ok r, st')
    /\ ((status r = 200
         /\ (exists fields, body r = JObj fields)
         /\ view_functions usage ep env st = (Ok r, st'))
        \/ (status r = 500
            /\ exists e, body r = JObj [("error", JStr (str e))]
                         /\ view_functions usage ep env st = (Raise e, st'))).
Proof.
  unfold try_except.
  destruct (view_functions usage ep env st) as [[r|e] st'] eqn:D.
  - exists r, st'. split; [reflexivity|]. left.
    destruct (returns_200_view usage ep env st st' r D) as [S B].
    split; [exact S|]. split; [exact B | reflexivity].
  - exists (error_response e), st'. rewrite handle_error_eq.
    split; [reflexivity|]. right.
    split; [reflexivity|]. exists e. split; reflexivity.
Qed.

(* ================================================================== *)
(** * What a view does to the state *)
(* ================================================================== *)

Section Keeps.
Context {A B : Type}.
Variable R : St -> St -> Prop.
Hypothesis R_refl : forall st, R st st.
Hypothesis R_trans : forall st1 st2 st3, R st1 st2 -> R st2 st3 -> R st1 st3.

Lemma keeps_ret (a : A) : keeps R (ret a).
Proof. intros env st. apply R_refl. Qed.

Lemma keeps_raise (e : exn) : keeps R (@raise A e).
Proof. intros env st. apply R_refl. Qed.

Lemma keeps_ask (f : Env -> A) : keeps R (ask f).
Proof. intros env st. apply R_refl. Qed.

Lemma keeps_sense (f : Env -> result A) : keeps R (sense f).
Proof. intros env st. apply R_refl. Qed.

Lemma keeps_bind (m : M A) (f : A -> M B) :
keeps R m -> (forall a, keeps R (f a)) -> keeps R (bind m f).
Proof.
intros Hm Hf env st. unfold bind. specialize (Hm env st).
destruct (m env st) as [[a|e] s]; cbn [snd] in Hm; [|exact Hm].
apply (R_trans st s); [exact Hm | apply Hf].
Qed.
End Keeps.

Lemma same_generator_refl (st : St) : same_generator st st.
Proof. split; reflexivity. Qed.

Lemma same_generator_trans (st1 st2 st3 : St) :
  same_generator st1 st2 -> same_generator st2 st3 -> same_generator st1 st3.
Proof. intros [T1 P1] [T2 P2]. split; congruence. Qed.

Lemma same_generator_and_log_refl (st : St) : same_generator_and_log st st.
Proof. repeat split. Qed.

Lemma same_generator_and_log_trans (st1 st2 st3 : St) :
  same_generator_and_log st1 st2 -> same_generator_and_log st2 st3 ->
  same_generator_and_log st1 st3.
Proof. intros [[T1 P1] S1] [[T2 P2] S2]. repeat split; congruence. Qed.

(** [psutil] touches its own memory only. *)
Lemma keeps_virtual_memory : keeps same_generator_and_log psutil_virtual_memory.
Proof.
  intros env st. unfold psutil_virtual_memory.
  destruct (sensor_virtual_memory env); repeat split.
Qed.

Lemma keeps_total_phymem_or_read :
  keeps same_generator_and_log total_phymem_or_read.
Proof.
  intros env st. rewrite total_phymem_or_read_eq.
  destruct (total_in_use env st); [|repeat split].
  unfold after_memory_percent. destruct (cache_warm st); repeat split.
Qed.

Lemma keeps_wrap_numbers (raw : nic_counters) :
  keeps same_generator_and_log (wrap_numbers raw).
Proof.
  intros env st. unfold wrap_numbers, run_wrap_numbers.
  destruct (wrap_cache st) as [old|]; [|repeat split].
  destruct (wrap_dict old raw (remove_dead_reminders old raw (wrap_reminders st))).
  repeat split.
Qed.

Lemma keeps_generator_weaken {A : Type} (m : M A) :
  keeps same_generator_and_log m -> keeps same_generator m.
Proof. intros H env st. apply H. Qed.

Lemma keeps_generator_time_sleep (secs : Float.float) :
  keeps same_generator (time_sleep secs).
Proof.
  intros env st. unfold time_sleep.
  destruct (Float.ltb secs Float.zero); split; reflexivity.
Qed.

Ltac keeps_log_auto :=
  repeat first
    [ apply (keeps_bind _ same_generator_and_log_trans); [|intro]
    | apply (keeps_ret _ same_generator_and_log_refl)
    | apply (keeps_raise _ same_generator_and_log_refl)
    | apply (keeps_ask _ same_generator_and_log_refl)
    | apply (keeps_sense _ same_generator_and_log_refl)
    | apply keeps_total_phymem_or_read
    | apply keeps_virtual_memory
    | apply keeps_wrap_numbers
    | match goal with
      | |- keeps _ (if ?b then _ else _) => destruct b
      | |- keeps _ (match ?o with Some _ => _ | None => _ end) => destruct o
      | |- keeps _ (match ?l with [] => _ | _ :: _ => _ end) => destruct l
      end ].

Ltac keeps_generator_auto :=
  repeat first
    [ apply (keeps_bind _ same_generator_trans); [|intro]
    | apply keeps_generator_time_sleep
    | apply keeps_generator_weaken; solve [keeps_log_auto] ].

Lemma keeps_home : keeps same_generator_and_log home.
Proof. unfold home, datetime_now, jsonify. keeps_log_auto. Qed.

Lemma keeps_health (usage : cpu_usage) :
  keeps same_generator_and_log (health usage).
Proof.
  unfold health, time_time, psutil_Process, Process_create_time,
    Process_memory_percent, Process_cpu_percent, datetime_now, jsonify.
  keeps_log_auto.
Qed.

Lemma one_not_negative : Float.ltb (Float.of_Z 1) Float.zero = false.
Proof. reflexivity. Qed.

Lemma system_info_generator (usage : cpu_usage) :
  keeps same_generator (system_info usage).
Proof.
  unfold system_info, psutil_cpu_percent, psutil_disk_usage,
    psutil_net_io_counters, net_io_asdict, datetime_now, jsonify.
  keeps_generator_auto.
Qed.

Lemma view_footprint (usage : cpu_usage) (ep : endpoint) (env : Env)
    (st : St) :
  rng_tape (snd (view_functions usage ep env st)) = rng_tape st
  /\ rng_pos (snd (view_functions usage ep env st))
     = (draws_of ep + rng_pos st)%nat
  /\ (ep = ep_home \/ ep = ep_health \/ ep = ep_error_endpoint ->
      slept (snd (view_functions usage ep env st)) = slept st).
Proof.
  destruct ep; cbn [view_functions draws_of].
  - destruct (keeps_home env st) as [[T P] S].
    split; [exact T|]. split; [exact P|]. intros _. exact S.
  - destruct (keeps_health usage env st) as [[T P] S].
    split; [exact T|]. split; [exact P|]. intros _. exact S.
  - rewrite get_data_eq. cbn [snd rng_tape rng_pos log_sleep advance].
    split; [reflexivity|]. split; [reflexivity|].
    intros [H|[H|H]]; discriminate H.
  - rewrite slow_endpoint_eq. cbn [snd rng_tape rng_pos log_sleep advance].
    split; [reflexivity|]. split; [reflexivity|].
    intros [H|[H|H]]; discriminate H.
  - rewrite error_endpoint_eq. repeat split.
  - destruct (system_info_generator usage env st) as [T P].
    split; [exact T|]. split; [exact P|].
    intros [H|[H|H]]; discriminate H.
Qed.

(** X5.  Whatever its outcome, a view leaves the generator with the same
    tape and a cursor advanced by a fixed number of calls to the [random]
    module: 4 for [get_data], 1 for [slow_endpoint] and [error_endpoint]
    (raising or not), 0 for the others; and [home], [health] and
    [error_endpoint] never sleep. *)
Theorem views_draw_budget (usage : cpu_usage) (ep : endpoint) (env : Env)
    (st : St) :
  rng_tape (snd (view_functions usage ep env st)) = rng_tape st
  /\ rng_pos (snd (view_functions usage ep env st))
     = (draws_of ep + rng_pos st)%nat
  /\ (ep = ep_home \/ ep = ep_health \/ ep = ep_error_endpoint ->
      slept (snd (view_functions usage ep env st)) = slept st).
Proof. apply view_footprint. Qed.


(* ================================================================== *)
(** * Failing sensors *)
(* ================================================================== *)

Lemma serve_health_eq (usage : cpu_usage) (env : Env) (st : St) :
  serve_one usage "/health" env st
  = match health usage env st with
    | (Ok r, st') => (r, st')
    | (Raise e, st') => (error_response e, st')
    end.
Proof.
  unfold serve_one, full_dispatch_request, try_except, dispatch_request.
  change (url_map "/health") with (Some ep_health). cbn [view_functions].
  destruct (health usage env st) as [[r|e] st']; reflexivity.
Qed.

Lemma total_in_use_warm (env : Env) (st : St) (total : Z) :
  TOTAL_PHYMEM st = Some total -> total <> 0 ->
  total_in_use env st = Ok total /\ after_memory_percent st total = st.
Proof.
  intros H N. unfold total_in_use, after_memory_percent, cache_warm.
  rewrite H. destruct (Z.eqb_spec total 0); [contradiction|]. split; reflexivity.
Qed.

Lemma total_in_use_cold (env : Env) (st : St) :
  cache_warm st = false ->
  total_in_use env st
  = match sensor_virtual_memory env with
    | Ok vm => Ok (vm_total vm)
    | Raise e => Raise e
    end.
Proof.
  unfold cache_warm, total_in_use.
  destruct (TOTAL_PHYMEM st) as [t|]; [|reflexivity].
  destruct (t =? 0); [reflexivity | discriminate].
Qed.

(** X3.  [/health] reads the total memory of the platform only when
    [psutil] has none cached.  When a sensor fails, the client gets status
    500 with the text of the first failure in the order of the source: the
    creation time, then the memory percentage (resident set, then total
    memory if none is cached, then the check that the total is positive),
    then the CPU times.  With a cached total the request succeeds whatever
    the memory sensor of the platform answers, and leaves the state as it
    was; with none cached, a request that gets past the memory percentage
    leaves the total it read in the cache. *)
Theorem health_failure_order (usage : cpu_usage) (env : Env) (st : St) :
  (forall e,
      sensor_create_time env = Raise e ->
      serve_one usage "/health" env st = (error_response e, st))
  /\ (forall created e,
         sensor_create_time env = Ok created ->
         sensor_memory_rss env = Raise e ->
         serve_one usage "/health" env st = (error_response e, st))
  /\ (forall created rss e,
         sensor_create_time env = Ok created ->
         sensor_memory_rss env = Ok rss ->
         cache_warm st = false ->
         sensor_virtual_memory env = Raise e ->
         serve_one usage "/health" env st = (error_response e, st))
  /\ (forall created rss total,
         sensor_create_time env = Ok created ->
         sensor_memory_rss env = Ok rss ->
         total_in_use env st = Ok total ->
         total <= 0 ->
         fst (serve_one usage "/health" env st)
         = error_response
             (ValueError
                ("can't calculate process memory percent because total physical system memory is not positive ("
                 ++ repr_int total ++ ")")))
  /\ (forall created rss total e,
         sensor_create_time env = Ok created ->
         sensor_memory_rss env = Ok rss ->
         total_in_use env st = Ok total ->
         0 < total ->
         sensor_cpu_times env = Raise e ->
         serve_one usage "/health" env st
         = (error_response e, after_memory_percent st total))
  /\ (forall created rss total smp,
         sensor_create_time env = Ok created ->
         sensor_memory_rss env = Ok rss ->
         TOTAL_PHYMEM st = Some total ->
         0 < total ->
         sensor_cpu_times env = Ok smp ->
         serve_one usage "/health" env st
         = (health_response (clock_time env) created
              (memory_percent_of rss total) Float.zero (clock_now env), st))
  /\ (forall created rss vm smp,
         sensor_create_time env = Ok created ->
         sensor_memory_rss env = Ok rss ->
         cache_warm st = false ->
         sensor_virtual_memory env = Ok vm ->
         0 < vm_total vm ->
         sensor_cpu_times env = Ok smp ->
         serve_one usage "/health" env st
         = (health_response (clock_time env) created
              (memory_percent_of rss (vm_total vm)) Float.zero (clock_now env),
            cache_total st (vm_total vm))).
Proof.
  rewrite serve_health_eq.
  split; [|split; [|split; [|split; [|split; [|split]]]]].
  - intros e H1. unfold_health. rewrite H1. reflexivity.
  - intros c e H1 H2. unfold_health. rewrite H1, H2. reflexivity.
  - intros c rss e H1 H2 Hc H3. unfold_health. rewrite H1, H2. cbv beta iota.
    rewrite total_phymem_or_read_eq, (total_in_use_cold env st Hc), H3.
    reflexivity.
  - intros c rss total H1 H2 H3 H4. unfold_health. rewrite H1, H2.
    cbv beta iota. rewrite total_phymem_or_read_eq, H3. cbv beta iota.
    destruct (Z.ltb_spec 0 total); [lia|]. reflexivity.
  - intros c rss total e H1 H2 H3 H4 H5. unfold_health. rewrite H1, H2.
    cbv beta iota. rewrite total_phymem_or_read_eq, H3. cbv beta iota.
    destruct (Z.ltb_spec 0 total); [|lia]. cbn [negb]. cbv beta iota.
    rewrite H5. reflexivity.
  - intros c rss total smp H1 H2 H3 H4 H5.
    destruct (total_in_use_warm env st total H3 ltac:(lia)) as [T A].
    rewrite (health_runs usage env st c rss total smp H1 H2 T H4 H5), A.
    reflexivity.
  - intros c rss vm smp H1 H2 Hc H3 H4 H5.
    assert (T : total_in_use env st = Ok (vm_total vm))
      by (rewrite (total_in_use_cold env st Hc), H3; reflexivity).
    rewrite (health_runs usage env st c rss (vm_total vm) smp H1 H2 T H4 H5).
    unfold after_memory_percent. rewrite Hc. reflexivity.
Qed.

Lemma health_failure_witness :
  sensor_create_time sample_env_denied = Raise AccessDenied
  /\ serve_one no_usage "/health" sample_env_denied sample_st
     = (error_response AccessDenied, sample_st).
Proof.
  split; [reflexivity|].
  apply (proj1 (health_failure_order no_usage sample_env_denied sample_st)).
  reflexivity.
Defined.

Ltac unfold_system_info :=
  cbv beta iota zeta delta
    [system_info psutil_cpu_percent psutil_virtual_memory psutil_disk_usage
     psutil_net_io_counters net_io_asdict wrap_numbers datetime_now jsonify
     bind ret sense ask raise time_sleep system_response];
  rewrite one_not_negative.

(** The correction of the counters looks at the memory of [psutil] only. *)
Lemma run_wrap_numbers_cache (st1 st2 : St) (raw : nic_counters) :
  wrap_cache st1 = wrap_cache st2 ->
  wrap_reminders st1 = wrap_reminders st2 ->
  fst (run_wrap_numbers st1 raw) = fst (run_wrap_numbers st2 raw).
Proof.
  intros C R. unfold run_wrap_numbers. rewrite C, R.
  destruct (wrap_cache st2) as [old|]; [|reflexivity].
  destruct (wrap_dict old raw (remove_dead_reminders old raw (wrap_reminders st2))).
  reflexivity.
Qed.

Lemma net_io_report_cache (st1 st2 : St) (raw : nic_counters) :
  wrap_cache st1 = wrap_cache st2 ->
  wrap_reminders st1 = wrap_reminders st2 ->
  fst (net_io_report st1 raw) = fst (net_io_report st2 raw).
Proof.
  intros C R. unfold net_io_report.
  pose proof (run_wrap_numbers_cache st1 st2 raw C R) as E.
  destruct (run_wrap_numbers st1 raw), (run_wrap_numbers st2 raw).
  cbn [fst] in *. rewrite E. reflexivity.
Qed.

Lemma net_io_report_first (st : St) (raw : nic_counters) :
  wrap_cache st = None -> fst (net_io_report st raw) = sum_counters raw.
Proof.
  intros C. unfold net_io_report, run_wrap_numbers. rewrite C. reflexivity.
Qed.

Lemma net_io_report_eq (st1 st2 : St) (raw : nic_counters) :
  wrap_cache st1 = wrap_cache st2 ->
  wrap_reminders st1 = wrap_reminders st2 ->
  sum_counters (fst (run_wrap_numbers st1 raw)) = fst (net_io_report st2 raw).
Proof.
  intros C R. rewrite (run_wrap_numbers_cache st1 st2 raw C R).
  unfold net_io_report. destruct (run_wrap_numbers st2 raw). reflexivity.
Qed.

(** A successful [/api/system]: the sensors answered, and the response is
    built from the readings. *)
Lemma system_info_success (usage : cpu_usage) (env : Env) (st st' : St)
    (r : Response) :
  system_info usage env st = (Ok r, st') ->
  exists (t1 t2 : scputimes) (memory : svmem) (disk : list (string * json))
         (raw : nic_counters),
    sensor_sys_cpu_times env = Ok t1
    /\ sensor_sys_cpu_times_after env = Ok t2
    /\ sensor_virtual_memory env = Ok memory
    /\ sensor_disk_usage env "/" = Ok disk
    /\ sensor_net_io_counters env = Ok raw
    /\ raw <> []
    /\ r = system_response (system_usage usage t1 t2) (svmem_asdict memory)
             disk (snetio_asdict (fst (net_io_report st raw))) (clock_now env)
    /\ slept st' = (slept st ++ [Float.of_Z 1])%list
    /\ TOTAL_PHYMEM st' = Some (vm_total memory)
    /\ wrap_cache st' = Some raw.
Proof.
  unfold_system_info.
  destruct (sensor_sys_cpu_times env) as [t1|e]; cbv beta iota;
    [|discriminate].
  destruct (sensor_sys_cpu_times_after env) as [t2|e]; cbv beta iota;
    [|discriminate].
  destruct (sensor_virtual_memory env) as [memory|e]; cbv beta iota;
    [|discriminate].
  destruct (sensor_disk_usage env "/") as [disk|e]; cbv beta iota;
    [|discriminate].
  destruct (sensor_net_io_counters env) as [raw|e]; cbv beta iota;
    [|discriminate].
  destruct raw as [|nic raw]; cbv beta iota; [discriminate|].
  pose proof (net_io_report_eq
                (cache_total (log_sleep st (Float.of_Z 1)) (vm_total memory))
                st (nic :: raw) eq_refl eq_refl) as W.
  assert (K : forall s, TOTAL_PHYMEM s = Some (vm_total memory) ->
              slept s = (slept st ++ [Float.of_Z 1])%list ->
              TOTAL_PHYMEM (snd (run_wrap_numbers s (nic :: raw)))
              = Some (vm_total memory)
              /\ slept (snd (run_wrap_numbers s (nic :: raw)))
                 = (slept st ++ [Float.of_Z 1])%list
              /\ wrap_cache (snd (run_wrap_numbers s (nic :: raw)))
                 = Some (nic :: raw)).
  { intros s Ht Hs. unfold run_wrap_numbers.
    destruct (wrap_cache s) as [old|]; [|repeat split; assumption].
    destruct (wrap_dict old (nic :: raw)
                (remove_dead_reminders old (nic :: raw) (wrap_reminders s))).
    repeat split; assumption. }
  specialize (K (cache_total (log_sleep st (Float.of_Z 1)) (vm_total memory))
                eq_refl eq_refl).
  destruct (run_wrap_numbers
              (cache_total (log_sleep st (Float.of_Z 1)) (vm_total memory))
              (nic :: raw)) as [wrapped s1].
  cbn [fst snd] in W, K. cbv beta iota.
  intros E. injection E as <- <-.
  exists t1, t2, memory, disk, (nic :: raw). rewrite <- W.
  repeat split; try reflexivity; try apply K. discriminate.
Qed.

Lemma serve_system_eq (usage : cpu_usage) (env : Env) (st : St) :
  serve_one usage "/api/system" env st
  = match system_info usage env st with
    | (Ok r, st') => (r, st')
    | (Raise e, st') => (error_response e, st')
    end.
Proof.
  unfold serve_one, full_dispatch_request, try_except, dispatch_request.
  change (url_map "/api/system") with (Some ep_system_info).
  cbn [view_functions].
  destruct (system_info usage env st) as [[r|e] st']; reflexivity.
Qed.

(** What [/api/system] answers when the sensors answer and the platform
    reports at least one interface. *)
Lemma system_info_runs (usage : cpu_usage) (env : Env) (st : St)
    (t1 t2 : scputimes) (memory : svmem) (disk : list (string * json))
    (raw : nic_counters) :
  sensor_sys_cpu_times env = Ok t1 ->
  sensor_sys_cpu_times_after env = Ok t2 ->
  sensor_virtual_memory env = Ok memory ->
  sensor_disk_usage env "/" = Ok disk ->
  sensor_net_io_counters env = Ok raw ->
  raw <> [] ->
  fst (system_info usage env st)
  = Ok (system_response (system_usage usage t1 t2) (svmem_asdict memory) disk
          (snetio_asdict (fst (net_io_report st raw))) (clock_now env)).
Proof.
  intros H0 H1 H2 H3 H4 H5. unfold_system_info. rewrite H0, H1, H2, H3, H4.
  cbv beta iota. destruct raw as [|nic raw]; [contradiction H5; reflexivity|].
  cbv beta iota.
  pose proof (net_io_report_eq
                (cache_total (log_sleep st (Float.of_Z 1)) (vm_total memory))
                st (nic :: raw) eq_refl eq_refl) as W.
  destruct (run_wrap_numbers
              (cache_total (log_sleep st (Float.of_Z 1)) (vm_total memory))
              (nic :: raw)) as [wrapped s1].
  cbn [fst snd] in W. rewrite <- W. reflexivity.
Qed.

(** X4.  [/api/system] succeeds only when the system sensors answer (the
    CPU times before and after the block of one second, the memory, the
    disk usage of ["/"], the network counters) and the platform reports at
    least one network interface.  Its body then carries the CPU percentage
    [psutil] computes from the two samples, the memory reading as a dict,
    the disk usage as read, and the network counters summed over the
    interfaces after [psutil]'s wrap-around correction (the plain sums when
    [psutil] has no earlier reading); conversely such readings always give
    that response.  One block of one second has been logged, and [psutil]
    has cached the total memory and the raw counters.  When sensors fail,
    the client gets status 500 with the text of the first failure in the
    order CPU, memory, disk, network: a failure of the first CPU sample
    comes before the block and leaves the state as it was, a failure of the
    second comes after it.  When the platform reports no interface,
    [net_io_counters()] is [None] and the client gets the [AttributeError]
    of [None._asdict()]. *)
Theorem system_info_outcomes (usage : cpu_usage) (env : Env) (st : St) :
  (forall (st' : St) (r : Response),
      system_info usage env st = (Ok r, st') ->
      exists (t1 t2 : scputimes) (memory : svmem)
             (disk : list (string * json)) (raw : nic_counters),
        sensor_sys_cpu_times env = Ok t1
        /\ sensor_sys_cpu_times_after env = Ok t2
        /\ sensor_virtual_memory env = Ok memory
        /\ sensor_disk_usage env "/" = Ok disk
        /\ sensor_net_io_counters env = Ok raw
        /\ raw <> []
        /\ r = system_response (system_usage usage t1 t2)
                 (svmem_asdict memory) disk
                 (snetio_asdict (fst (net_io_report st raw))) (clock_now env)
        /\ (wrap_cache st = None ->
            fst (net_io_report st raw) = sum_counters raw)
        /\ slept st' = (slept st ++ [Float.of_Z 1])%list
        /\ TOTAL_PHYMEM st' = Some (vm_total memory)
        /\ wrap_cache st' = Some raw)
  /\ (forall t1 t2 memory disk raw,
         sensor_sys_cpu_times env = Ok t1 ->
         sensor_sys_cpu_times_after env = Ok t2 ->
         sensor_virtual_memory env = Ok memory ->
         sensor_disk_usage env "/" = Ok disk ->
         sensor_net_io_counters env = Ok raw ->
         raw <> [] ->
         fst (serve_one usage "/api/system" env st)
         = system_response (system_usage usage t1 t2) (svmem_asdict memory)
             disk (snetio_asdict (fst (net_io_report st raw))) (clock_now env))
  /\ (forall e,
         sensor_sys_cpu_times env = Raise e ->
         serve_one usage "/api/system" env st = (error_response e, st))
  /\ (forall t1 e,
         sensor_sys_cpu_times env = Ok t1 ->
         sensor_sys_cpu_times_after env = Raise e ->
         serve_one usage "/api/system" env st
         = (error_response e, log_sleep st (Float.of_Z 1)))
  /\ (forall t1 t2 e,
         sensor_sys_cpu_times env = Ok t1 ->
         sensor_sys_cpu_times_after env = Ok t2 ->
         sensor_virtual_memory env = Raise e ->
         fst (serve_one usage "/api/system" env st) = error_response e)
  /\ (forall t1 t2 memory e,
         sensor_sys_cpu_times env = Ok t1 ->
         sensor_sys_cpu_times_after env = Ok t2 ->
         sensor_virtual_memory env = Ok memory ->
         sensor_disk_usage env "/" = Raise e ->
         fst (serve_one usage "/api/system" env st) = error_response e)
  /\ (forall t1 t2 memory disk e,
         sensor_sys_cpu_times env = Ok t1 ->
         sensor_sys_cpu_times_after env = Ok t2 ->
         sensor_virtual_memory env = Ok memory ->
         sensor_disk_usage env "/" = Ok disk ->
         sensor_net_io_counters env = Raise e ->
         fst (serve_one usage "/api/system" env st) = error_response e)
  /\ (forall t1 t2 memory disk,
         sensor_sys_cpu_times env = Ok t1 ->
         sensor_sys_cpu_times_after env = Ok t2 ->
         sensor_virtual_memory env = Ok memory ->
         sensor_disk_usage env "/" = Ok disk ->
         sensor_net_io_counters env = Ok [] ->
         fst (serve_one usage "/api/system" env st)
         = error_response AttributeError).
Proof.
  split; [|split; [|split; [|split; [|split; [|split; [|split]]]]]].
  - intros st' r H.
    destruct (system_info_success usage env st st' r H)
      as (t1 & t2 & memory & disk & raw
          & H0 & H1 & H2 & H3 & H4 & H5 & -> & S & T & W).
    exists t1, t2, memory, disk, raw.
    repeat split; try assumption. apply net_io_report_first.
  - intros t1 t2 memory disk raw H0 H1 H2 H3 H4 H5. rewrite serve_system_eq.
    pose proof (system_info_runs usage env st t1 t2 memory disk raw
                  H0 H1 H2 H3 H4 H5) as R.
    destruct (system_info usage env st) as [[r|e] st']; cbn [fst] in *;
      congruence.
  - intros e H0. rewrite serve_system_eq. unfold_system_info. rewrite H0.
    reflexivity.
  - intros t1 e H0 H1. rewrite serve_system_eq. unfold_system_info.
    rewrite H0, H1. reflexivity.
  - intros t1 t2 e H0 H1 H2. rewrite serve_system_eq. unfold_system_info.
    rewrite H0, H1, H2. reflexivity.
  - intros t1 t2 memory e H0 H1 H2 H3. rewrite serve_system_eq.
    unfold_system_info. rewrite H0, H1, H2, H3. reflexivity.
  - intros t1 t2 memory disk e H0 H1 H2 H3 H4. rewrite serve_system_eq.
    unfold_system_info. rewrite H0, H1, H2, H3, H4. reflexivity.
  - intros t1 t2 memory disk H0 H1 H2 H3 H4. rewrite serve_system_eq.
    unfold_system_info. rewrite H0, H1, H2, H3, H4. reflexivity.
Qed.

Lemma system_info_witness :
  sensor_sys_cpu_times sample_env_denied
  = Ok [Float.mk 40 0; Float.mk 10 0; Float.mk 350 0]
  /\ sensor_sys_cpu_times_after sample_env_denied
     = Ok [Float.mk 41 0; Float.mk 10 0; Float.mk 353 0]
  /\ sensor_virtual_memory sample_env_denied = Ok (mkSvmem 8589934592 [])
  /\ sensor_disk_usage sample_env_denied "/"
     = Ok [("total", JInt 500107862016)]
  /\ sensor_net_io_counters sample_env_denied = Ok []
  /\ fst (serve_one no_usage "/api/system" sample_env_denied sample_st)
     = error_response AttributeError.
Proof.
  split; [reflexivity|]. split; [reflexivity|]. split; [reflexivity|].
  split; [reflexivity|]. split; [reflexivity|].
  apply (proj2 (proj2 (proj2 (proj2 (proj2 (proj2 (proj2
           (system_info_outcomes no_usage sample_env_denied sample_st)))))))
           [Float.mk 40 0; Float.mk 10 0; Float.mk 350 0]
           [Float.mk 41 0; Float.mk 10 0; Float.mk 353 0]
           (mkSvmem 8589934592 [])
           [("total", JInt 500107862016)]); reflexivity.
Defined.

(* ================================================================== *)
(** * Timestamps *)
(* ================================================================== *)

Lemma timestamp_parses (now : datetime) :
  parse_iso8601 (isoformat now) = Some (fields_of now)
  /\ iso8601_well_formed (isoformat now) = true.
Proof.
  unfold iso8601_well_formed. rewrite isoformat_parses. split; reflexivity.
Qed.

(** X6.  Every successful response of [home], [health], [get_data],
    [slow_endpoint] and [system_info] has a [timestamp] field, which is
    [isoformat] of the clock and reads back as ISO-8601; the successful
    response of [error_endpoint] has the single field [message] and no
    timestamp. *)
Theorem successful_responses_are_timestamped (usage : cpu_usage)
    (ep : endpoint) (env : Env) (st st' : St) (r : Response) :
  view_functions usage ep env st = (Ok r, st') ->
  (ep <> ep_error_endpoint ->
   exists ts, json_get "timestamp" (body r) = Some (JStr ts)
              /\ ts = isoformat (clock_now env)
              /\ parse_iso8601 ts = Some (fields_of (clock_now env))
              /\ iso8601_well_formed ts = true)
  /\ (ep = ep_error_endpoint ->
      body r = JObj [("message", JStr "Success from Flask!")]
      /\ json_get "timestamp" (body r) = None).
Proof.
  intros H.
  assert (T : forall b, json_get "timestamp" b = Some (JStr (isoformat (clock_now env))) ->
              exists ts, json_get "timestamp" b = Some (JStr ts)
                         /\ ts = isoformat (clock_now env)
                         /\ parse_iso8601 ts = Some (fields_of (clock_now env))
                         /\ iso8601_well_formed ts = true).
  { intros b Hb. eexists. split; [exact Hb|]. split; [reflexivity|].
    apply timestamp_parses. }
  destruct ep; cbn [view_functions] in H.
  - split; [intros _ | discriminate]. injection H as <- _. apply T. reflexivity.
  - split; [intros _ | discriminate].
    destruct (health_success usage env st st' r H)
      as (c & rss & total & smp & _ & _ & _ & _ & _ & _ & ->).
    apply T. reflexivity.
  - split; [intros _ | discriminate]. rewrite get_data_eq in H.
    injection H as <- _. apply T. reflexivity.
  - split; [intros _ | discriminate]. rewrite slow_endpoint_eq in H.
    injection H as <- _. apply T. reflexivity.
  - split; [intros N; contradiction N; reflexivity | intros _].
    rewrite error_endpoint_eq in H.
    destruct (2 ^ 52 <? next_numerator st); [discriminate H|].
    injection H as <- _. split; reflexivity.
  - split; [intros _ | discriminate].
    destruct (system_info_success usage env st st' r H)
      as (t1 & t2 & memory & disk & raw & _ & _ & _ & _ & _ & _ & -> & _).
    apply T. reflexivity.
Qed.



Lemma timestamped_witness :
  view_functions no_usage ep_health sample_env sample_st
  = (Ok (health_response (clock_time sample_env)
           (Float.mk 7130316000000000 (-22))
           (memory_percent_of 35000320 8589934592) Float.zero sample_now),
     cache_total sample_st 8589934592)
  /\ exists ts,
      json_get "timestamp"
        (body (health_response (clock_time sample_env)
                 (Float.mk 7130316000000000 (-22))
                 (memory_percent_of 35000320 8589934592) Float.zero
                 sample_now)) = Some (JStr ts)
      /\ ts = isoformat (clock_now sample_env)
      /\ parse_iso8601 ts = Some (fields_of (clock_now sample_env))
      /\ iso8601_well_formed ts = true.
Proof.
  split; [reflexivity|].
  apply (proj1 (successful_responses_are_timestamped no_usage ep_health
                  sample_env sample_st (cache_total sample_st 8589934592)
                  _ eq_refl)).
  discriminate.
Defined.

Lemma isoformat_chars (d : datetime) :
  isoformat d
  = four_chars (year d) ++ "-" ++ two_chars (month d) ++ "-"
    ++ two_chars (day d) ++ "T" ++ two_chars (hour d) ++ ":"
    ++ two_chars (minute d) ++ ":" ++ two_chars (second d)
    ++ (if microsecond d =? 0 then EmptyString
        else "." ++ six_chars (microsecond d)).
Proof.
  destruct d as [y mo dd h mi s us fo ok]. unfold isoformat, format_time.
  cbn [year month day hour minute second microsecond].
  pose proof (check_fields_bounds _ _ _ _ _ _ _ ok)
    as (By & Bmo & Bd & Bh & Bmi & Bs & Bus).
  pose proof (days_in_month_le y mo).
  rewrite (format_4 y), (format_2 mo), (format_2 dd), (format_2 h),
          (format_2 mi), (format_2 s) by lia.
  destruct (Z.eqb_spec us 0) as [->|N].
  - unfold four_chars, two_chars. reflexivity.
  - rewrite (format_6 us) by lia. unfold four_chars, two_chars. reflexivity.
Qed.

(** X7.  A timestamp has 19 characters when the microsecond of the
    clock is 0 (the fraction is left out) and 26 otherwise.  Two clock
    readings give the same timestamp exactly when they show the same date
    and time of day: [fold], which tells the two passages of a repeated
    hour apart, is not printed. *)
Theorem isoformat_shape (d1 d2 : datetime) :
  String.length (isoformat d1)
  = (if microsecond d1 =? 0 then 19%nat else 26%nat)
  /\ (isoformat d1 = isoformat d2 <-> same_wall_time d1 d2).
Proof.
  split.
  - rewrite isoformat_chars.
    destruct (microsecond d1 =? 0); unfold six_chars, four_chars, two_chars;
      reflexivity.
  - split.
    + intros E.
      pose proof (isoformat_parses d1) as P1.
      pose proof (isoformat_parses d2) as P2.
      rewrite E, P2 in P1. injection P1 as Ey Emo Ed Eh Emi Es Eus.
      unfold same_wall_time. repeat split; try congruence.
      destruct (Z.eqb_spec (microsecond d1) 0) as [Z1|N1],
               (Z.eqb_spec (microsecond d2) 0) as [Z2|N2];
        try congruence; discriminate Eus.
    + intros (Ey & Emo & Ed & Eh & Emi & Es & Eus).
      unfold isoformat. rewrite Ey, Emo, Ed, Eh, Emi, Es, Eus. reflexivity.
Qed.

(* ================================================================== *)
(** * [int] and [PORT] *)
(* ================================================================== *)

Lemma digit_not_space (c : ascii) : is_digit c = true -> is_space c = false.
Proof.
  destruct c as [b0 b1 b2 b3 b4 b5 b6 b7].
  destruct b0, b1, b2, b3, b4, b5, b6, b7; vm_compute; congruence.
Qed.

Lemma int_of_string_after_strip (s : string) (c0 : ascii) (rest : string) :
  strip s = String c0 rest -> c0 <> "+"%char -> c0 <> "-"%char ->
  int_of_string s = int_digits (String c0 rest) 0 false.
Proof.
  intros E Hp Hm. unfold int_of_string. rewrite E.
  destruct c0 as [b0 b1 b2 b3 b4 b5 b6 b7].
  destruct b0, b1, b2, b3, b4, b5, b6, b7; try reflexivity;
    exfalso; (apply Hp; reflexivity) || (apply Hm; reflexivity).
Qed.

Lemma lstrip_no_space (s : string) :
  string_forall (fun c => negb (is_space c)) s = true -> lstrip s = s.
Proof.
  destruct s as [|c r]; [reflexivity|]. cbn [string_forall lstrip].
  intros H%andb_true_iff. destruct H as [H _].
  destruct (is_space c); [discriminate H | reflexivity].
Qed.

Lemma rstrip_no_space (s : string) :
  string_forall (fun c => negb (is_space c)) s = true -> rstrip s = s.
Proof.
  induction s as [|c r IH]; [reflexivity|]. cbn [string_forall rstrip].
  intros H%andb_true_iff. destruct H as [Hc Hr]. rewrite (IH Hr).
  destruct r; [|reflexivity].
  destruct (is_space c); [discriminate Hc | reflexivity].
Qed.

Lemma strip_no_space (s : string) :
  string_forall (fun c => negb (is_space c)) s = true -> strip s = s.
Proof.
  intros H. unfold strip. rewrite (lstrip_no_space s H). apply rstrip_no_space, H.
Qed.

Lemma string_forall_impl (P Q : ascii -> bool) (s : string) :
  (forall c, P c = true -> Q c = true) ->
  string_forall P s = true -> string_forall Q s = true.
Proof.
  intros PQ. induction s as [|c r IH]; [reflexivity|]. cbn [string_forall].
  rewrite !andb_true_iff. intros [H1 H2]. auto.
Qed.

Lemma dec_digits_all_digits (fuel : nat) :
  forall (n : Z) (acc : string),
    string_forall is_digit acc = true ->
    string_forall is_digit (dec_digits fuel n acc) = true.
Proof.
  induction fuel as [|f IH]; intros n acc H; [exact H|].
  cbn [dec_digits].
  assert (H' : string_forall is_digit (String (digit n) acc) = true).
  { cbn [string_forall]. destruct (digit_cases n) as [-> _]. exact H. }
  destruct (n <? 10); [exact H' | apply IH, H'].
Qed.

Lemma dec_digits_nonempty (fuel : nat) :
  forall (n : Z) (acc : string),
    (fuel <> O \/ acc <> EmptyString) ->
    dec_digits fuel n acc <> EmptyString.
Proof.
  induction fuel as [|f IH]; intros n acc H.
  - cbn [dec_digits]. destruct H as [H|H]; [contradiction H; reflexivity | exact H].
  - cbn [dec_digits]. destruct (n <? 10); [discriminate|].
    apply IH. right. discriminate.
Qed.

Lemma int_digits_read (s : string) :
  string_forall is_digit s = true ->
  forall acc : Z, int_digits s acc true = read_number s acc.
Proof.
  induction s as [|c r IH]; intros H acc; [reflexivity|].
  cbn [string_forall] in H. apply andb_true_iff in H. destruct H as [Hc Hr].
  cbn [int_digits read_number]. rewrite Hc. apply IH, Hr.
Qed.

Lemma int_digits_read_first (s : string) (acc : Z) :
  string_forall is_digit s = true -> s <> EmptyString ->
  int_digits s acc false = read_number s acc.
Proof.
  destruct s as [|c r]; intros H N; [contradiction N; reflexivity|].
  cbn [string_forall] in H. apply andb_true_iff in H. destruct H as [Hc Hr].
  cbn [int_digits read_number]. rewrite Hc. apply int_digits_read, Hr.
Qed.

Lemma dec_digits_step (g : nat) (n : Z) (acc : string) :
  dec_digits (S g) n acc
  = if n <? 10 then String (digit n) acc
    else dec_digits g (n / 10) (String (digit n) acc).
Proof. reflexivity. Qed.

Lemma read_digit (n : Z) (acc : string) (a : Z) :
  0 <= n ->
  read_number (String (digit n) acc) a
  = read_number acc (10 * a + n mod 10).
Proof.
  intros _. cbn [read_number]. destruct (digit_cases n) as [-> ->]. reflexivity.
Qed.

Lemma read_dec_digits (f : nat) :
  forall n : Z,
    0 <= n < 2 ^ Z.of_nat (S f) ->
    exists k : Z,
      0 <= k
      /\ forall (acc : string) (a : Z),
          read_number (dec_digits (S f) n acc) a
          = read_number acc (a * 10 ^ k + n).
Proof.
  induction f as [|f IH]; intros n Hn.
  - change (2 ^ Z.of_nat 1) with 2 in Hn. exists 1. split; [lia|].
    intros acc a. rewrite dec_digits_step.
    destruct (Z.ltb_spec n 10); [|lia]. rewrite read_digit by lia.
    rewrite Z.mod_small by lia. f_equal. lia.
  - destruct (Z.ltb_spec n 10) as [L|G].
    + exists 1. split; [lia|]. intros acc a. rewrite dec_digits_step.
      destruct (Z.ltb_spec n 10); [|lia]. rewrite read_digit by lia.
      rewrite Z.mod_small by lia. f_equal. lia.
    + rewrite Nat2Z.inj_succ, Z.pow_succ_r in Hn by lia.
      destruct (IH (n / 10)) as (k & Hk & E).
      { split; [apply Z.div_pos; lia | apply Z.div_lt_upper_bound; lia]. }
      exists (k + 1). split; [lia|]. intros acc a.
      rewrite dec_digits_step.
      destruct (Z.ltb_spec n 10); [lia|].
      rewrite E, read_digit by lia. f_equal.
      rewrite Z.pow_add_r by lia. change (10 ^ 1) with 10.
      pose proof (Z.div_mod n 10 ltac:(lia)). lia.
Qed.

Lemma str_of_nonneg_spec (n : Z) :
  0 <= n ->
  string_forall is_digit (str_of_nonneg n) = true
  /\ str_of_nonneg n <> EmptyString
  /\ read_number (str_of_nonneg n) 0 = Some n.
Proof.
  intros Hn. unfold str_of_nonneg.
  split; [apply dec_digits_all_digits; reflexivity|].
  split; [apply dec_digits_nonempty; left; discriminate|].
  destruct (read_dec_digits (Z.to_nat (Z.log2 n)) n) as (k & _ & E).
  { split; [exact Hn|].
    destruct (Z.eq_dec n 0) as [->|N]; [reflexivity|].
    pose proof (Z.log2_nonneg n).
    rewrite Nat2Z.inj_succ, Z2Nat.id by lia.
    apply Z.log2_spec. lia. }
  rewrite E. cbn [read_number]. f_equal; lia.
Qed.

(** [int(repr(n)) = n] for every integer [n]. *)
Lemma int_of_string_repr_int (n : Z) : int_of_string (repr_int n) = Some n.
Proof.
  unfold repr_int. destruct (Z.ltb_spec n 0) as [Neg|Pos].
  - destruct (str_of_nonneg_spec (- n) ltac:(lia)) as (D & NE & R).
    assert (S : strip ("-" ++ str_of_nonneg (- n)) = "-" ++ str_of_nonneg (- n)).
    { apply strip_no_space. cbn [append string_forall].
      apply andb_true_iff. split; [reflexivity|].
      apply (string_forall_impl is_digit); [|exact D].
      intros c Hc. rewrite (digit_not_space c Hc). reflexivity. }
    unfold int_of_string. rewrite S. cbn [append].
    rewrite int_digits_read_first, R by assumption.
    cbn [option_map]. f_equal. lia.
  - destruct (str_of_nonneg_spec n Pos) as (D & NE & R).
    assert (S : strip (str_of_nonneg n) = str_of_nonneg n).
    { apply strip_no_space.
      apply (string_forall_impl is_digit); [|exact D].
      intros c Hc. rewrite (digit_not_space c Hc). reflexivity. }
    destruct (str_of_nonneg n) as [|c0 rest] eqn:E; [contradiction NE; reflexivity|].
    assert (Hc0 : is_digit c0 = true).
    { cbn [string_forall] in D. apply andb_true_iff in D. apply D. }
    rewrite (int_of_string_after_strip _ c0 rest S).
    + rewrite int_digits_read_first by (assumption || discriminate). exact R.
    + intros ->. discriminate Hc0.
    + intros ->. discriminate Hc0.
Qed.

Lemma strip_padded (pre s post : string) :
  string_forall is_space pre = true ->
  string_forall is_space post = true ->
  string_forall (fun c => negb (is_space c)) s = true ->
  s <> EmptyString ->
  strip (pre ++ s ++ post) = s.
Proof.
  intros Hpre Hpost Hs Hne. unfold strip.
  assert (L : lstrip (pre ++ s ++ post) = s ++ post).
  { induction pre as [|c r IH]; cbn [append].
    - destruct s as [|c0 r0]; [contradiction Hne; reflexivity|].
      cbn [append lstrip]. cbn [string_forall] in Hs.
      apply andb_true_iff in Hs. destruct Hs as [Hc _].
      destruct (is_space c0); [discriminate Hc | reflexivity].
    - cbn [string_forall] in Hpre. apply andb_true_iff in Hpre.
      destruct Hpre as [Hc Hr]. cbn [lstrip]. rewrite Hc. apply IH, Hr. }
  rewrite L. clear L Hpre pre.
  assert (R : rstrip post = EmptyString).
  { induction post as [|c r IH]; [reflexivity|]. cbn [string_forall] in Hpost.
    apply andb_true_iff in Hpost. destruct Hpost as [Hc Hr].
    cbn [rstrip]. rewrite (IH Hr), Hc. reflexivity. }
  induction s as [|c r IH]; [contradiction Hne; reflexivity|].
  cbn [string_forall] in Hs. apply andb_true_iff in Hs. destruct Hs as [Hc Hr].
  cbn [append rstrip]. destruct r as [|c1 r1].
  - cbn [append]. rewrite R.
    destruct (is_space c); [discriminate Hc | reflexivity].
  - rewrite (IH Hr) by discriminate. reflexivity.
Qed.

Lemma repr_int_no_space (n : Z) :
  string_forall (fun c => negb (is_space c)) (repr_int n) = true
  /\ repr_int n <> EmptyString.
Proof.
  assert (D : forall m, 0 <= m ->
              string_forall (fun c => negb (is_space c)) (str_of_nonneg m)
              = true).
  { intros m Hm. destruct (str_of_nonneg_spec m Hm) as (D & _ & _).
    apply (string_forall_impl is_digit); [|exact D].
    intros c Hc. rewrite (digit_not_space c Hc). reflexivity. }
  unfold repr_int. destruct (Z.ltb_spec n 0).
  - split; [|discriminate]. cbn [append string_forall].
    apply andb_true_iff. split; [reflexivity | apply D; lia].
  - split; [apply D; assumption|].
    apply (str_of_nonneg_spec n); assumption.
Qed.

(** [int] reads the decimal numeral of any integer back, surrounding
    whitespace or not. *)
Lemma int_of_string_padded (pre post : string) (n : Z) :
  string_forall is_space pre = true ->
  string_forall is_space post = true ->
  int_of_string (pre ++ repr_int n ++ post) = Some n.
Proof.
  intros Hpre Hpost.
  destruct (repr_int_no_space n) as [Hs Hne].
  pose proof (int_of_string_repr_int n) as R.
  unfold int_of_string in *.
  rewrite (strip_padded pre (repr_int n) post Hpre Hpost Hs Hne).
  rewrite (strip_no_space (repr_int n) Hs) in R. exact R.
Qed.

Lemma digit_count_nonneg (s : string) : 0 <= digit_count s.
Proof.
  induction s as [|c r IH]; cbn [digit_count]; [lia|].
  destruct (is_digit c); lia.
Qed.

Lemma digit_count_app (s t : string) :
  digit_count (s ++ t) = digit_count s + digit_count t.
Proof.
  induction s as [|c r IH]; cbn [append digit_count]; [lia|].
  rewrite IH. lia.
Qed.

Lemma digit_count_spaces (s : string) :
  string_forall is_space s = true -> digit_count s = 0.
Proof.
  induction s as [|c r IH]; [reflexivity|]. cbn [string_forall digit_count].
  intros H%andb_true_iff. destruct H as [Hc Hr]. rewrite (IH Hr).
  destruct (is_digit c) eqn:D; [|reflexivity].
  rewrite (digit_not_space c D) in Hc. discriminate Hc.
Qed.

(** A number below [10 ^ k] has at most [k] digits. *)
Lemma digit_count_dec_digits (fuel : nat) :
  forall (n k : Z) (acc : string),
    1 <= k -> 0 <= n < 10 ^ k ->
    digit_count (dec_digits fuel n acc) <= k + digit_count acc.
Proof.
  induction fuel as [|f IH]; intros n k acc Hk Hn.
  - cbn [dec_digits]. lia.
  - rewrite dec_digits_step.
    assert (C : digit_count (String (digit n) acc) = 1 + digit_count acc).
    { cbn [digit_count]. destruct (digit_cases n) as [-> _]. reflexivity. }
    destruct (Z.ltb_spec n 10) as [L|G]; [lia|].
    assert (K : 2 <= k).
    { destruct (Z.eq_dec k 1) as [->|]; [|lia].
      change (10 ^ 1) with 10 in Hn. lia. }
    assert (P : 10 ^ k = 10 * 10 ^ (k - 1)).
    { replace k with (Z.succ (k - 1)) at 1 by lia.
      apply Z.pow_succ_r. lia. }
    specialize (IH (n / 10) (k - 1) (String (digit n) acc) ltac:(lia)).
    rewrite C in IH.
    assert (B : 0 <= n / 10 < 10 ^ (k - 1)).
    { split; [apply Z.div_pos; lia | apply Z.div_lt_upper_bound; lia]. }
    specialize (IH B). lia.
Qed.

Lemma digit_count_repr_int (n k : Z) :
  1 <= k -> Z.abs n < 10 ^ k -> digit_count (repr_int n) <= k.
Proof.
  intros Hk Hn. unfold repr_int, str_of_nonneg.
  destruct (Z.ltb_spec n 0).
  - cbn [append digit_count]. change (is_digit "-") with false. cbv iota.
    pose proof (digit_count_dec_digits (S (Z.to_nat (Z.log2 (- n)))) (- n) k
                  EmptyString Hk ltac:(lia)) as D.
    cbn [digit_count] in D. lia.
  - pose proof (digit_count_dec_digits (S (Z.to_nat (Z.log2 n))) n k
                  EmptyString Hk ltac:(lia)) as D.
    cbn [digit_count] in D. lia.
Qed.

(** X8.  When [PORT] is set to the decimal numeral of an integer [n] of at
    most 4300 digits, with or without whitespace around it, the module
    binds [PORT] to [n]: negative numbers and numbers above 65535 are
    accepted like any other, line 11 checks no range. *)
Theorem PORT_accepts_any_integer (env : environ) (pre post : string) (n : Z) :
  string_forall is_space pre = true ->
  string_forall is_space post = true ->
  Z.abs n < 10 ^ max_str_digits ->
  assoc "PORT" env = Some (pre ++ repr_int n ++ post) ->
  PORT env = Ok n.
Proof.
  intros Hpre Hpost Hn H.
  unfold PORT, os_getenv. rewrite H. unfold int.
  rewrite (int_of_string_padded pre post n Hpre Hpost).
  rewrite !digit_count_app, (digit_count_spaces pre Hpre),
    (digit_count_spaces post Hpost).
  pose proof (digit_count_repr_int n max_str_digits ltac:(discriminate) Hn).
  destruct (Z.ltb_spec max_str_digits (0 + (digit_count (repr_int n) + 0)));
    [lia | reflexivity].
Qed.

Lemma PORT_accepts_witness :
  string_forall is_space " " = true
  /\ string_forall is_space EmptyString = true
  /\ Z.abs 70000 < 10 ^ max_str_digits
  /\ assoc "PORT" [("PORT", " 70000")]
     = Some (" " ++ repr_int 70000 ++ EmptyString)
  /\ PORT [("PORT", " 70000")] = Ok 70000.
Proof.
  assert (B : Z.abs 70000 < 10 ^ max_str_digits) by (vm_compute; reflexivity).
  split; [reflexivity|]. split; [reflexivity|]. split; [exact B|].
  split; [reflexivity|].
  apply (PORT_accepts_any_integer [("PORT", " 70000")] " " EmptyString 70000);
    [reflexivity | reflexivity | exact B | reflexivity].
Defined.

(** One digit more than the limit of [int] allows is refused. *)
Example PORT_digit_limit :
  digit_count (string_of_list_ascii (repeat "1"%char 4301)) = 4301
  /\ exists msg,
      PORT [("PORT", string_of_list_ascii (repeat "1"%char 4301))]
      = Raise (ValueError msg).
Proof.
  split; [vm_compute; reflexivity|].
  eexists. vm_compute. reflexivity.
Qed.

Lemma lstrip_all_space (s : string) :
  string_forall is_space s = true -> lstrip s = EmptyString.
Proof.
  induction s as [|c r IH]; [reflexivity|]. cbn [string_forall lstrip].
  intros H%andb_true_iff. destruct H as [Hc Hr]. rewrite Hc. apply IH, Hr.
Qed.

Section Foreign.
Variable P : ascii -> bool.
Hypothesis P_not_space : forall c, P c = true -> is_space c = false.
Hypothesis P_not_digit : forall c, P c = true -> is_digit c = false.
Hypothesis P_not_underscore : forall c, P c = true -> Ascii.eqb c "_" = false.

Lemma lstrip_keeps (s : string) :
string_exists P s = true -> string_exists P (lstrip s) = true.
Proof.
induction s as [|c r IH]; [discriminate|]. cbn [string_exists lstrip].
intros H. destruct (is_space c) eqn:S.
- apply IH. destruct (P c) eqn:Pc; [|exact H].
  rewrite (P_not_space c Pc) in S. discriminate S.
- exact H.
Qed.

Lemma rstrip_keeps (s : string) :
string_exists P s = true -> string_exists P (rstrip s) = true.
Proof.
induction s as [|c r IH]; [discriminate|]. cbn [string_exists rstrip].
intros H. destruct (P c) eqn:Pc.
- destruct (rstrip r); [|cbn [string_exists]; rewrite Pc; reflexivity].
  rewrite (P_not_space c Pc). cbn [string_exists]. rewrite Pc. reflexivity.
- cbn [orb] in H. specialize (IH H).
  destruct (rstrip r); [discriminate IH|].
  cbn [string_exists] in *. rewrite Pc. exact IH.
Qed.

Lemma int_digits_foreign (s : string) :
string_exists P s = true ->
forall (acc : Z) (after_digit : bool), int_digits s acc after_digit = None.
Proof.
induction s as [|c r IH]; [discriminate|]. cbn [string_exists int_digits].
intros H acc after. destruct (P c) eqn:Pc.
- rewrite (P_not_digit c Pc), (P_not_underscore c Pc). reflexivity.
- cbn [orb] in H. destruct (is_digit c); [apply IH, H|].
  destruct (Ascii.eqb c "_"); [|reflexivity].
  destruct after; [apply IH, H | reflexivity].
Qed.
End Foreign.

Lemma foreign_not_space (c : ascii) :
  negb (int_char c) = true -> is_space c = false.
Proof.
  unfold int_char. destruct (is_digit c), (is_space c); cbn; congruence.
Qed.

Lemma foreign_not_digit (c : ascii) :
  negb (int_char c) = true -> is_digit c = false.
Proof. unfold int_char. destruct (is_digit c); cbn; congruence. Qed.

Lemma foreign_not_underscore (c : ascii) :
  negb (int_char c) = true -> Ascii.eqb c "_" = false.
Proof.
  unfold int_char.
  destruct (is_digit c), (is_space c), (Ascii.eqb c "+"), (Ascii.eqb c "-"),
    (Ascii.eqb c "_"); cbn; congruence.
Qed.

Lemma int_of_string_rejects (s : string) :
  string_forall is_space s = true
  \/ string_exists (fun c => negb (int_char c)) s = true ->
  int_of_string s = None.
Proof.
  intros [H|H].
  - unfold int_of_string, strip. rewrite (lstrip_all_space s H). reflexivity.
  - set (P := fun c => negb (int_char c)) in *.
    assert (T : string_exists P (strip s) = true).
    { unfold strip.
      apply (rstrip_keeps P foreign_not_space),
            (lstrip_keeps P foreign_not_space), H. }
    pose proof (int_digits_foreign P foreign_not_digit foreign_not_underscore)
      as F.
    destruct (strip s) as [|c0 rest] eqn:E; [discriminate T|].
    destruct (Ascii.eqb_spec c0 "+") as [->|Np].
    { unfold int_of_string. rewrite E. apply F. exact T. }
    destruct (Ascii.eqb_spec c0 "-") as [->|Nm].
    { unfold int_of_string. rewrite E. rewrite F by exact T. reflexivity. }
    rewrite (int_of_string_after_strip s c0 rest E Np Nm).
    apply F. exact T.
Qed.

(** X9.  When [PORT] is set to a string that is empty or all
    whitespace, or that contains a character other than a digit, a sign,
    an underscore or whitespace, [int] raises [ValueError] at module load
    and the program stops before serving any request. *)
Theorem PORT_rejects (usage : cpu_usage) (env : environ) (s : string)
    (requests : list (string * Env)) (st : St) :
  assoc "PORT" env = Some s ->
  string_forall is_space s = true
  \/ string_exists (fun c => negb (int_char c)) s = true ->
  exists msg : string,
    PORT env = Raise (ValueError msg)
    /\ main usage env requests st = Crashed (ValueError msg).
Proof.
  intros Hset Hbad. eexists.
  assert (P : PORT env = Raise (ValueError ("invalid literal for int() with base 10: "
                                   ++ repr_str s))).
  { unfold PORT, os_getenv. rewrite Hset. unfold int.
    rewrite (int_of_string_rejects s Hbad). reflexivity. }
  split; [exact P|]. unfold main. rewrite P. reflexivity.
Qed.

Lemma PORT_rejects_witness :
  assoc "PORT" [("PORT", "8080/tcp")] = Some "8080/tcp"
  /\ (string_forall is_space "8080/tcp" = true
      \/ string_exists (fun c => negb (int_char c)) "8080/tcp" = true)
  /\ exists msg : string,
      PORT [("PORT", "8080/tcp")] = Raise (ValueError msg)
      /\ main no_usage [("PORT", "8080/tcp")] [("/", sample_env)] sample_st
         = Crashed (ValueError msg).
Proof.
  split; [reflexivity|]. split; [right; reflexivity|].
  apply (PORT_rejects no_usage [("PORT", "8080/tcp")] "8080/tcp");
    [reflexivity | right; reflexivity].
Defined.

